(** * Palo Alto add-on for Splunk: collection and normalisation engine

    A shallow embedding of [palo_alto_input_helper.py] and [api_handlers.py]
    (package/bin), and the properties of the markup normaliser, the
    job-polling strategy, the per-host orchestrator and the fan-out tally.

    Conventions of the embedding.
    - A Python [str] is a [string]; its characters are the code points below
      256, so [strip], [lower] and [int] are the Python ones on that alphabet,
      and [capitalize] is the Python one on the strings whose capital form
      is again written with these code points.
    - A Python [dict] is an association list in insertion order
      ([dict_set] overwrites in place or appends, as assignment does).
    - [xml.etree.ElementTree.fromstring], [float], [urllib.parse],
      [strftime] and [string.Template] belong to the Python library; they
      are the fields of a record [Library] over which every definition and
      theorem is parametrised.
    - Exceptions are values of [exn]; code that can raise lives in the
      monad [M] of a [world] that holds the devices, the configuration
      store, the log and the event sink. *)

From Stdlib Require Import List String Ascii ZArith Lia Bool Arith PeanoNat.
From Stdlib Require Import Permutation.
From Stdlib Require Import PrimFloat.
From Stdlib Require Import DecimalString DecimalZ DecimalPos DecimalN DecimalFacts.
Import ListNotations.
Set Warnings "-register-all".
Open Scope list_scope.
Open Scope string_scope.

(** ** Python strings *)

Module PyStr.

(** [bool(s)] for a string: the empty string is falsy. *)
Definition truthy (s : string) : bool :=
  match s with EmptyString => false | String _ _ => true end.

(** [c.isspace()] on the code points below 256. *)
Definition isspace (c : ascii) : bool :=
  let n := nat_of_ascii c in
  (((9 <=? n) && (n <=? 13)) || ((28 <=? n) && (n <=? 32))
   || (n =? 133) || (n =? 160))%nat.

Fixpoint lstrip (s : string) : string :=
  match s with
  | EmptyString => EmptyString
  | String c r => if isspace c then lstrip r else s
  end.

Fixpoint rstrip (s : string) : string :=
  match s with
  | EmptyString => EmptyString
  | String c r =>
      match rstrip r with
      | EmptyString => if isspace c then EmptyString else String c EmptyString
      | r' => String c r'
      end
  end.

(** [s.strip()] *)
Definition strip (s : string) : string := rstrip (lstrip s).

Definition lower_char (c : ascii) : ascii :=
  let n := nat_of_ascii c in
  if (((65 <=? n) && (n <=? 90))
      || ((192 <=? n) && (n <=? 222) && negb (n =? 215)))%nat
  then ascii_of_nat (n + 32) else c.

(** Upper case, for the letters whose upper case is again below 256. *)
Definition upper_char (c : ascii) : ascii :=
  let n := nat_of_ascii c in
  if (((97 <=? n) && (n <=? 122))
      || ((224 <=? n) && (n <=? 254) && negb (n =? 247)))%nat
  then ascii_of_nat (n - 32) else c.

Fixpoint lower (s : string) : string :=
  match s with
  | EmptyString => EmptyString
  | String c r => String (lower_char c) (lower r)
  end.

(** [s.capitalize()], for a string that does not begin with one of the
    three letters below 256 whose capital form is not one code point below
    256 (223, 255 and 181: sharp s, y with diaeresis and the micro sign). *)
Definition capitalize (s : string) : string :=
  match s with
  | EmptyString => EmptyString
  | String c r => String (upper_char c) (lower r)
  end.

Fixpoint startswith (p s : string) : bool :=
  match p, s with
  | EmptyString, _ => true
  | String a p', String b s' => Ascii.eqb a b && startswith p' s'
  | String _ _, EmptyString => false
  end.

(** [sep.join(parts)] *)
Fixpoint join (sep : string) (parts : list string) : string :=
  match parts with
  | [] => ""
  | [p] => p
  | p :: rest => p ++ sep ++ join sep rest
  end.

Definition digit_of_ascii (c : ascii) : option Z :=
  let n := nat_of_ascii c in
  if ((48 <=? n) && (n <=? 57))%nat then Some (Z.of_nat (n - 48)) else None.

(** The digits of a base-10 literal of [int]: at least one digit, and single
    underscores only between two digits. *)
Fixpoint int_digits (s : string) (acc : Z) (after_digit : bool) : option Z :=
  match s with
  | EmptyString => if after_digit then Some acc else None
  | String c r =>
      match digit_of_ascii c with
      | Some d => int_digits r (10 * acc + d) true
      | None =>
          if Ascii.eqb c "_" && after_digit then int_digits r acc false
          else None
      end
  end.

(** The value of a base-10 literal of [int], whatever its length. *)
Definition int_literal (s : string) : option Z :=
  match strip s with
  | String "+" r => int_digits r 0 false
  | String "-" r => option_map Z.opp (int_digits r 0 false)
  | t => int_digits t 0 false
  end.

(** The number of decimal digits in [s]. *)
Fixpoint count_digits (s : string) : nat :=
  match s with
  | EmptyString => 0
  | String c r =>
      match digit_of_ascii c with
      | Some _ => S (count_digits r)
      | None => count_digits r
      end
  end.

(** [sys.int_info.default_max_str_digits] *)
Definition max_str_digits : nat := 4300.

(** [int(s)]: [None] stands for [ValueError], which [int] raises for a
    text that is not a literal and for a literal of more than
    [max_str_digits] digits. *)
Definition int_of_string (s : string) : option Z :=
  if (count_digits s <=? max_str_digits)%nat then int_literal s else None.

(** [str(n)] for an integer. *)
Definition str_of_int (n : Z) : string := NilZero.string_of_int (Z.to_int n).

Definition str_of_nat (n : nat) : string := str_of_int (Z.of_nat n).

(** [str(x)] inside an f-string, for a value that may be [None]. *)
Definition str_of_option (o : option string) : string :=
  match o with Some s => s | None => "None" end.

End PyStr.

(** ** Python values and dictionaries *)

(** The values the add-on builds and serialises: [None], [int], [float],
    [str], [list] and [dict]. *)
Inductive value : Type :=
| VNone
| VInt (z : Z)
| VFloat (x : float)
| VStr (s : string)
| VList (l : list value)
| VDict (d : list (string * value)).

Definition dict := list (string * value).

Fixpoint dict_get (k : string) (d : dict) : option value :=
  match d with
  | [] => None
  | (k', v) :: r => if String.eqb k k' then Some v else dict_get k r
  end.

(** [k in d] *)
Definition dict_mem (k : string) (d : dict) : bool :=
  match dict_get k d with Some _ => true | None => false end.

(** [d[k] = v] *)
Fixpoint dict_set (k : string) (v : value) (d : dict) : dict :=
  match d with
  | [] => [(k, v)]
  | (k', v') :: r =>
      if String.eqb k k' then (k', v) :: r else (k', v') :: dict_set k v r
  end.

(** [d.update(other)] *)
Definition dict_update (d other : dict) : dict :=
  fold_left (fun acc kv => dict_set (fst kv) (snd kv) acc) other d.

(** [bool(d)] for a dict *)
Definition dict_truthy (d : dict) : bool :=
  match d with [] => false | _ :: _ => true end.

(** ** Exceptions *)

Inductive exn : Type :=
| RequestException (msg : string)
| ParseError (msg : string)
| OtherException (msg : string).

(** [str(e)] *)
Definition str_exn (e : exn) : string :=
  match e with
  | RequestException m => m
  | ParseError m => m
  | OtherException m => m
  end.

Inductive Result (A : Type) : Type :=
| Ok (a : A)
| Raise (e : exn).
Arguments Ok {A} a.
Arguments Raise {A} e.

(** ** Element trees *)

(** An [xml.etree.ElementTree.Element]: tag, attributes, text and children
    (the tail text is never read by the add-on). *)
Inductive Element : Type :=
| mkElement (tag : string) (attrib : list (string * string))
            (text : option string) (children : list Element).

Definition tag (e : Element) : string :=
  match e with mkElement t _ _ _ => t end.
Definition attrib (e : Element) : list (string * string) :=
  match e with mkElement _ a _ _ => a end.
Definition text (e : Element) : option string :=
  match e with mkElement _ _ x _ => x end.
Definition children (e : Element) : list Element :=
  match e with mkElement _ _ _ c => c end.

(** [element.text and element.text.strip()]: the trimmed text when it is
    not empty. *)
Definition stripped_text (e : Element) : option string :=
  match text e with
  | Some t =>
      if PyStr.truthy t && PyStr.truthy (PyStr.strip t)
      then Some (PyStr.strip t) else None
  | None => None
  end.

(** ** The Python library the add-on calls *)

(** The result of [urllib.parse.urlparse]. *)
Record ParseResult : Type := mkParseResult {
  scheme : string;
  netloc : string;
  path : string;
  query : string;
  hostname : option string
}.

Record Library : Type := mkLibrary {
  (** [float(s)], [None] for [ValueError] *)
  float_of_string : string -> option float;
  (** the text [json.dumps] writes for a float *)
  float_repr : float -> string;
  (** [ET.fromstring] *)
  fromstring : string -> Result Element;
  (** [urllib.parse.urlparse], which raises [ValueError] for a url with
      an unbalanced bracket in its host *)
  urlparse : string -> Result ParseResult;
  (** [urllib.parse.parse_qs] *)
  parse_qs : string -> list (string * list string);
  (** [urllib.parse.quote] *)
  quote : string -> string;
  (** [strftime("%Y/%m/%d %H:%M:%S")] of a time in seconds *)
  strftime : Z -> string;
  (** [Template(t).safe_substitute(variables)] *)
  safe_substitute : string -> list (string * string) -> string
}.

(** ** The markup normaliser ([palo_alto_input_helper.py]) *)

Section Normaliser.

Variable lib : Library.

(** The body of the loop over the children in [element_to_dict]. *)
Definition add_child (child_dict : dict) (child_tag : string)
    (child_data : value) : dict :=
  if dict_mem child_tag child_dict then
    let seq :=
      match dict_get child_tag child_dict with
      | Some (VList l) => l
      | Some v => [v]
      | None => []
      end in
    dict_set child_tag (VList (seq ++ [child_data])%list) child_dict
  else dict_set child_tag child_data child_dict.

(** The conversion of a text: [int], else [float], else the text. *)
Definition coerce_text (t : string) : value :=
  match PyStr.int_of_string t with
  | Some z => VInt z
  | None =>
      match float_of_string lib t with
      | Some x => VFloat x
      | None => VStr t
      end
  end.

Fixpoint element_to_dict (element : Element) : value :=
  let node : dict :=
    map (fun kv => ("@" ++ fst kv, VStr (snd kv))) (attrib element) in
  let node :=
    match children element with
    | [] => node
    | cs =>
        dict_update node
          (fold_left
             (fun child_dict child =>
                add_child child_dict (tag child) (element_to_dict child))
             cs [])
    end in
  match stripped_text element with
  | Some t =>
      if dict_truthy node then VDict (dict_set "#text" (VStr t) node)
      else coerce_text t
  | None => if dict_truthy node then VDict node else VNone
  end.

Definition xml_to_json (xml_text endpoint_name host : string)
    : Result value :=
  let result := [("endpoint", VStr endpoint_name); ("host", VStr host)] in
  match fromstring lib xml_text with
  | Ok root =>
      Ok (VDict (dict_set "data"
                   (VDict [(tag root, element_to_dict root)]) result))
  | Raise (ParseError m) =>
      Ok (VDict (dict_set "error" (VStr ("XML parsing failed: " ++ m)) result))
  | Raise e => Raise e
  end.

(** One turn of the loop of [extract_metrics]: the metric of [child]. *)
Definition record_metric (metric_path : string) (child : Element)
    (metrics_data : dict) : dict :=
  match stripped_text child with
  | Some text_value =>
      match float_of_string lib text_value with
      | Some numeric_value =>
          dict_set ("metric_name:" ++ metric_path) (VFloat numeric_value)
                   metrics_data
      | None => metrics_data
      end
  | None => metrics_data
  end.

Definition metric_path_of (parent_path child_tag : string) : string :=
  if PyStr.truthy parent_path then parent_path ++ "." ++ child_tag
  else child_tag.

Fixpoint extract_metrics (element : Element) (parent_path : string)
    (metrics_data : dict) : dict :=
  fold_left
    (fun md child =>
       let metric_path := metric_path_of parent_path (tag child) in
       let md := record_metric metric_path child md in
       match children child with
       | [] => md
       | _ :: _ => extract_metrics child metric_path md
       end)
    (children element) metrics_data.

Definition xml_to_metrics (xml_text endpoint_name host : string)
    : Result dict :=
  let metrics_data := [("endpoint", VStr endpoint_name); ("host", VStr host)] in
  match fromstring lib xml_text with
  | Ok root => Ok (extract_metrics root "" metrics_data)
  | Raise (ParseError _) => Ok metrics_data
  | Raise e => Raise e
  end.

End Normaliser.

(** ** Serialisation ([json.dumps] with [ensure_ascii=False]) *)

Module Json.

(** The quotation mark, character 34. *)
Definition dquote : ascii := ascii_of_nat 34.

Definition hex_digit (n : nat) : ascii :=
  if (n <? 10)%nat then ascii_of_nat (48 + n) else ascii_of_nat (87 + n).

(** The escape of one character of a string. *)
Definition escape_char (c : ascii) : string :=
  let n := nat_of_ascii c in
  if Ascii.eqb c dquote then String "\" (String dquote "")
  else if Ascii.eqb c "\" then "\\"
  else if (n =? 8)%nat then "\b"
  else if (n =? 12)%nat then "\f"
  else if (n =? 10)%nat then "\n"
  else if (n =? 13)%nat then "\r"
  else if (n =? 9)%nat then "\t"
  else if (n <? 32)%nat then
    "\u00" ++ String (hex_digit (n / 16)) (String (hex_digit (n mod 16)) "")
  else String c "".

Fixpoint escape (s : string) : string :=
  match s with
  | EmptyString => ""
  | String c r => escape_char c ++ escape r
  end.

Definition encode_basestring (s : string) : string :=
  String dquote (escape s ++ String dquote "").

Section Dumps.

Variable lib : Library.

Fixpoint dumps (v : value) : string :=
  match v with
  | VNone => "null"
  | VInt z => PyStr.str_of_int z
  | VFloat x => float_repr lib x
  | VStr s => encode_basestring s
  | VList l => "[" ++ PyStr.join ", " (map dumps l) ++ "]"
  | VDict d =>
      "{"
      ++ PyStr.join ", "
           (map (fun kv =>
                   match kv with
                   | (k, x) => encode_basestring k ++ ": " ++ dumps x
                   end) d)
      ++ "}"
  end.

End Dumps.

End Json.

(** ** The queries of [xml.etree.ElementTree] the add-on uses *)

Module ET.

(** [element.iter()]: the element and its descendants, in document order. *)
Fixpoint iter (e : Element) : list Element :=
  match e with
  | mkElement _ _ _ cs => e :: flat_map iter cs
  end.

(** [element.iter(t)] *)
Definition iter_tag (t : string) (e : Element) : list Element :=
  filter (fun x => String.eqb (tag x) t) (iter e).

(** The children of [e] with tag [t]. *)
Definition children_tag (t : string) (e : Element) : list Element :=
  filter (fun x => String.eqb (tag x) t) (children e).

(** [element.findtext(t, default)] for a plain tag [t]: the text of the
    first child with that tag, the empty string when it has none. *)
Definition findtext (t default : string) (e : Element) : string :=
  match children_tag t e with
  | c :: _ => match text c with Some s => s | None => "" end
  | [] => default
  end.

(** [element.findtext(".//job/status")]: the [status] children of the proper
    descendants with tag [job]; [None] when there is none. *)
Definition findtext_job_status (e : Element) : option string :=
  let jobs :=
    filter (fun x => String.eqb (tag x) "job") (flat_map iter (children e)) in
  match flat_map (children_tag "status") jobs with
  | c :: _ => Some (match text c with Some s => s | None => "" end)
  | [] => None
  end.

(** [element.attrib.get(k)] *)
Fixpoint attrib_get (k : string) (a : list (string * string))
    : option string :=
  match a with
  | [] => None
  | (k', v) :: r => if String.eqb k k' then Some v else attrib_get k r
  end.

End ET.

(** ** Effects: a state and exception monad *)

Definition M (S A : Type) : Type := S -> Result A * S.

Definition ret {S A : Type} (a : A) : M S A := fun s => (Ok a, s).

Definition raise {S A : Type} (e : exn) : M S A := fun s => (Raise e, s).

Definition bind {S A B : Type} (c : M S A) (k : A -> M S B) : M S B :=
  fun s =>
    match c s with
    | (Ok a, s') => k a s'
    | (Raise e, s') => (Raise e, s')
    end.

(** [try: body / except Exception as e: handler e] *)
Definition try_except {S A : Type} (body : M S A) (handler : exn -> M S A)
    : M S A :=
  fun s =>
    match body s with
    | (Ok a, s') => (Ok a, s')
    | (Raise e, s') => handler e s'
    end.

Declare Scope py_scope.
Delimit Scope py_scope with py.
Notation "x <- c ;; k" := (bind c (fun x => k))
  (at level 61, c at next level, right associativity) : py_scope.
Notation "c ;; k" := (bind c (fun _ => k))
  (at level 61, right associativity) : py_scope.
Open Scope py_scope.

(** ** The world outside the add-on *)

Inductive level : Type := DEBUG | INFO | WARNING | ERROR.

(** An [smi.Event] handed to the event writer. *)
Record Event : Type := mkEvent {
  ev_data : string;
  ev_index : option string;
  ev_sourcetype : string;
  ev_source : string;
  ev_host : string
}.

Record world : Type := mkWorld {
  (** the devices: what a GET of a url brings back after the GETs made
      before it, the body of a successful reply or the exception of
      [requests.get] and [raise_for_status] *)
  device : list string -> string -> Result string;
  (** the urls requested so far, oldest first *)
  requested : list string;
  (** [datetime.now(timezone.utc)], in seconds *)
  utcnow : Z;
  (** the endpoint stanzas of the configuration store *)
  conf : string -> string -> Result (list (string * string));
  (** the API key of an account *)
  account_api_key : string -> option string -> Result string;
  (** a logging call that raises, if any does *)
  log_fault : level -> string -> option exn;
  (** the records logged so far, oldest first *)
  logged : list (level * string);
  (** the number of 50 ms sleeps so far *)
  sleeps : nat;
  (** the events written so far, oldest first *)
  sink : list Event
}.

Definition set_requested (r : list string) (w : world) : world :=
  mkWorld (device w) r (utcnow w) (conf w) (account_api_key w) (log_fault w)
          (logged w) (sleeps w) (sink w).
Definition set_logged (l : list (level * string)) (w : world) : world :=
  mkWorld (device w) (requested w) (utcnow w) (conf w) (account_api_key w)
          (log_fault w) l (sleeps w) (sink w).
Definition set_sleeps (n : nat) (w : world) : world :=
  mkWorld (device w) (requested w) (utcnow w) (conf w) (account_api_key w)
          (log_fault w) (logged w) n (sink w).
Definition set_sink (s : list Event) (w : world) : world :=
  mkWorld (device w) (requested w) (utcnow w) (conf w) (account_api_key w)
          (log_fault w) (logged w) (sleeps w) s.

(** [logger.log(lvl, msg)] *)
Definition logger_log (lvl : level) (msg : string) : M world unit :=
  fun w =>
    match log_fault w lvl msg with
    | Some e => (Raise e, w)
    | None => (Ok tt, set_logged (logged w ++ [(lvl, msg)])%list w)
    end.

(** [r = requests.get(url, verify=False, timeout=30); r.raise_for_status();
    r.text] *)
Definition requests_get (url : string) : M world string :=
  fun w => (device w (requested w) url,
            set_requested (requested w ++ [url])%list w).

(** [time.sleep(0.05)] *)
Definition time_sleep : M world unit :=
  fun w => (Ok tt, set_sleeps (S (sleeps w)) w).

(** [event_writer.write_event(ev)] *)
Definition write_event (ev : Event) : M world unit :=
  fun w => (Ok tt, set_sink (sink w ++ [ev])%list w).

(** [get_api_endpoint_config(session_key, endpoint_name)] *)
Definition get_api_endpoint_config (session_key endpoint_name : string)
    : M world (list (string * string)) :=
  fun w => (conf w session_key endpoint_name, w).

(** [get_account_api_key(session_key, account_name)] *)
Definition get_account_api_key (session_key : string)
    (account_name : option string) : M world string :=
  fun w => (account_api_key w session_key account_name, w).

(** A value of the library that may be an exception. *)
Definition of_result {S A : Type} (r : Result A) : M S A := fun s => (r, s).

(** ** The endpoint strategies ([api_handlers.py]) *)

Section Handlers.

Variable lib : Library.

Definition GET_api_generic (api_url endpoint_name : string)
    : M world (list value) :=
  logger_log INFO
    ("Making generic HTTPS GET request to endpoint: " ++ endpoint_name);;
  try_except
    (response_text <- requests_get api_url;;
     logger_log INFO ("Successfully retrieved data from " ++ api_url);;
     ret [VDict [("_raw", VStr response_text)]])
    (fun e =>
       match e with
       | RequestException _ =>
           logger_log ERROR
             ("Error making request to " ++ endpoint_name ++ ": "
              ++ str_exn e);;
           raise e
       | _ => raise e
       end).

(** The value of [host] in a record. *)
Definition value_of_host (host : option string) : value :=
  match host with Some h => VStr h | None => VNone end.

(** The record built from a kept entry. *)
Definition make_event (host : option string) (entry : Element)
    (logid severity : string) : value :=
  VDict
    [("happenedOn", VStr (ET.findtext "time_generated" "" entry));
     ("severity", VStr "warn");
     ("source", value_of_host host);
     ("message",
      VStr (severity ++ " :: [" ++ logid ++ "] "
            ++ ET.findtext "type" "" entry ++ " - "
            ++ PyStr.capitalize (ET.findtext "subtype" "" entry) ++ " : "
            ++ ET.findtext "threatid" "" entry ++ " ("
            ++ ET.findtext "direction" "" entry ++ " "
            ++ ET.findtext "src" "" entry ++ " -> "
            ++ ET.findtext "dst" "" entry ++ ")"))].

(** [severity.lower() in ("high", "critical")] *)
Definition high_priority (severity : string) : bool :=
  existsb (String.eqb (PyStr.lower severity)) ["high"; "critical"].

(** The loop over [xml_root.iter("entry")], on the list [event_list]. *)
Fixpoint entries_loop (host : option string) (entries : list Element)
    (event_list : list value) : list value :=
  match entries with
  | [] => event_list
  | entry :: rest =>
      match ET.attrib_get "logid" (attrib entry) with
      | None => entries_loop host rest event_list
      | Some logid =>
          if negb (PyStr.truthy logid) then entries_loop host rest event_list
          else
            let severity := ET.findtext "severity" "" entry in
            if high_priority severity then
              entries_loop host rest
                (event_list ++ [make_event host entry logid severity])%list
            else entries_loop host rest event_list
      end
  end.

(** [e.get('source') == host] *)
Definition source_is (host : option string) (e : value) : bool :=
  match e with
  | VDict d =>
      match dict_get "source" d, host with
      | Some (VStr s), Some h => String.eqb s h
      | Some VNone, None => true
      | None, None => true
      | _, _ => false
      end
  | _ => false
  end.

(** [status == "FIN"] *)
Definition is_FIN (status : option string) : bool :=
  match status with Some s => String.eqb s "FIN" | None => false end.

(** The polling of one job: [for i in range(attempts)] with its [else]. *)
Fixpoint poll_job (attempts : nat) (report_url : string)
    (host job_id : option string) (event_list : list value)
    : M world (list value) :=
  match attempts with
  | O =>
      logger_log WARNING
        ("Job " ++ PyStr.str_of_option job_id
         ++ " did not complete within timeout");;
      ret event_list
  | S remaining =>
      r_text <- requests_get report_url;;
      xml_root <- of_result (fromstring lib r_text);;
      let status := ET.findtext_job_status xml_root in
      if is_FIN status then
          logger_log INFO
            ("Job " ++ PyStr.str_of_option job_id
             ++ " completed, processing entries");;
          let event_list :=
            entries_loop host (ET.iter_tag "entry" xml_root) event_list in
          logger_log INFO
            ("Job " ++ PyStr.str_of_option job_id ++ ": Found "
             ++ PyStr.str_of_nat
                  (List.length (filter (source_is host) event_list))
             ++ " high/critical events");;
          ret event_list
      else
          logger_log DEBUG
            ("Job " ++ PyStr.str_of_option job_id ++ " status: "
             ++ PyStr.str_of_option status ++ ", waiting...");;
          time_sleep;;
          poll_job remaining report_url host job_id event_list
  end.

Definition report_url_of (base_url apikey : string) (job_id : option string)
    : string :=
  base_url ++ "?type=log&action=get&job-id=" ++ PyStr.str_of_option job_id
  ++ "&key=" ++ apikey.

(** The loop over [job_ids]. *)
Fixpoint jobs_loop (base_url apikey : string) (host : option string)
    (job_ids : list (option string)) (event_list : list value)
    : M world (list value) :=
  match job_ids with
  | [] => ret event_list
  | job_id :: rest =>
      logger_log DEBUG ("Polling job " ++ PyStr.str_of_option job_id);;
      event_list <-
        poll_job 11 (report_url_of base_url apikey job_id) host job_id
                 event_list;;
      jobs_loop base_url apikey host rest event_list
  end.

(** [query_params.get('key', [''])[0]] *)
Definition query_key (query_params : list (string * list string))
    : Result string :=
  match find (fun kv => String.eqb "key" (fst kv)) query_params with
  | Some (_, v :: _) => Ok v
  | Some (_, []) => Raise (OtherException "list index out of range")
  | None => Ok ""
  end.

(** The time bound of the query: now, shifted by the time zone offset (0
    hours) and the lookback (1800 seconds). *)
Definition query_time_str_of (now : Z) : string :=
  let timezone_offset := 0%Z in
  let duration := 1800%Z in
  let last_collection := (now + timezone_offset * 3600 - duration)%Z in
  strftime lib last_collection.

Definition threat_query_url_of (base_url apikey query_time_str : string)
    : string :=
  let threat_query := "receive_time geq '" ++ query_time_str ++ "'" in
  let encoded_query := quote lib threat_query in
  base_url ++ "?type=log&log-type=threat&nlogs=5000&query=("
  ++ encoded_query ++ ")&key=" ++ apikey.

Definition base_url_of (parsed_url : ParseResult) : string :=
  scheme parsed_url ++ "://" ++ netloc parsed_url ++ path parsed_url.

(** [datetime.now(timezone.utc)] *)
Definition datetime_now : M world Z := fun w => (Ok (utcnow w), w).

Definition custom_GET_api_threat_traffic (api_url endpoint_name : string)
    : M world (list value) :=
  logger_log INFO
    ("Making threat/traffic logs request to endpoint: " ++ endpoint_name);;
  parsed_url <- of_result (urlparse lib api_url);;
  let base_url := base_url_of parsed_url in
  let query_params := parse_qs lib (query parsed_url) in
  apikey <- of_result (query_key query_params);;
  let host := hostname parsed_url in
  logger_log INFO
    ("Querying threat/traffic logs from host: " ++ PyStr.str_of_option host);;
  try_except
    (now <- datetime_now;;
     let query_time_str := query_time_str_of now in
     let threat_query_url :=
       threat_query_url_of base_url apikey query_time_str in
     logger_log INFO
       ("Querying threats with time filter: " ++ query_time_str);;
     resp_text <- requests_get threat_query_url;;
     root <- of_result (fromstring lib resp_text);;
     let job_ids := map text (ET.iter_tag "job" root) in
     logger_log INFO
       ("Retrieved " ++ PyStr.str_of_nat (List.length job_ids)
        ++ " job(s) to process");;
     event_list <- jobs_loop base_url apikey host job_ids [];;
     logger_log INFO
       ("Total events collected: "
        ++ PyStr.str_of_nat (List.length event_list));;
     ret event_list)
    (fun e =>
       logger_log ERROR
         (match e with
          | RequestException _ =>
              "Error making request to " ++ endpoint_name ++ ": " ++ str_exn e
          | ParseError _ =>
              "Error parsing XML response from " ++ endpoint_name ++ ": "
              ++ str_exn e
          | OtherException _ =>
              "Unexpected error in " ++ endpoint_name ++ ": " ++ str_exn e
          end);;
       raise e).

End Handlers.

(** ** The collection orchestrator ([process_host_endpoints]) *)

(** A computation with a local variable of type [L] beside the world. *)
Definition lift {L A : Type} (c : M world A) : M (L * world) A :=
  fun s => let (r, w') := c (snd s) in (r, (fst s, w')).

Definition get_local {L : Type} : M (L * world) L :=
  fun s => (Ok (fst s), s).

Definition modify_local {L : Type} (f : L -> L) : M (L * world) unit :=
  fun s => (Ok tt, (f (fst s), snd s)).

Definition run_local {L A : Type} (init : L) (c : M (L * world) A)
    : M world A :=
  fun w => let (r, s') := c (init, w) in (r, snd s').

Section Orchestrator.

Variable lib : Library.

(** [substitute_variables], on a template that may be [None]. *)
Definition substitute_variables (url_template : option string)
    (variables : list (string * string)) : Result string :=
  match url_template with
  | Some t => Ok (safe_substitute lib t variables)
  | None => Raise (OtherException "expected string or bytes-like object")
  end.

(** The text handed to the normaliser for a record. *)
Definition xml_text_of (record : value) : Result string :=
  match record with
  | VDict d =>
      match dict_get "_raw" d with
      | Some (VStr s) => Ok s
      | Some _ => Raise (OtherException "a bytes-like object is required")
      | None => Ok (Json.dumps lib record)
      end
  | _ => Ok (Json.dumps lib record)
  end.

Section Endpoint.

Variables (host api_key session_key : string).
Variable input_item : list (string * string).
Variables (sourcetype index_type endpoint_name : string).

Definition event_of (data : string) : Event :=
  mkEvent data (ET.attrib_get "index" input_item) sourcetype
          ("palo_alto:" ++ endpoint_name) host.

(** The loop over [data] when [index_type == "metrics"]. *)
Fixpoint ingest_metrics (data : list value) : M (nat * world) unit :=
  match data with
  | [] => ret tt
  | record :: rest =>
      xml_text <- of_result (xml_text_of record);;
      metrics_dict <- of_result (xml_to_metrics lib xml_text endpoint_name host);;
      (if (2 <? List.length metrics_dict)%nat then
         let metrics_json := Json.dumps lib (VDict metrics_dict) in
         lift (write_event (event_of metrics_json));;
         modify_local (fun total_events => total_events + 1)%nat;;
         lift (logger_log INFO
                 ("Written metrics event for endpoint '" ++ endpoint_name
                  ++ "' on host " ++ host ++ ": "
                  ++ PyStr.str_of_nat (List.length metrics_dict - 2)
                  ++ " metrics"))
       else ret tt);;
      ingest_metrics rest
  end.

(** The loop over [data] otherwise. *)
Fixpoint ingest_events (data : list value) : M (nat * world) unit :=
  match data with
  | [] => ret tt
  | record :: rest =>
      xml_text <- of_result (xml_text_of record);;
      event_dict <- of_result (xml_to_json lib xml_text endpoint_name host);;
      let event_json := Json.dumps lib event_dict in
      lift (write_event (event_of event_json));;
      ingest_events rest
  end.

Definition ingest (data : list value) : M (nat * world) unit :=
  if String.eqb index_type "metrics" then ingest_metrics data
  else
    ingest_events data;;
    modify_local (fun total_events => total_events + List.length data)%nat;;
    lift (logger_log INFO
            ("Written " ++ PyStr.str_of_nat (List.length data)
             ++ " event(s) for endpoint '" ++ endpoint_name ++ "' on host "
             ++ host)).

(** The body of the inner [try] for one endpoint. *)
Definition process_endpoint : M (nat * world) unit :=
  endpoint_config <- lift (get_api_endpoint_config session_key endpoint_name);;
  let api_url_template := ET.attrib_get "api_url" endpoint_config in
  let script_type := ET.attrib_get "script_type" endpoint_config in
  let variables :=
    [("host", host); ("apikey", api_key); ("api_key", api_key)] in
  api_url <- of_result (substitute_variables api_url_template variables);;
  lift (logger_log INFO
          ("Calling endpoint '" ++ endpoint_name ++ "' on host " ++ host
           ++ " with script type: " ++ PyStr.str_of_option script_type
           ++ " on API URL: " ++ api_url));;
  match script_type with
  | Some st =>
      if String.eqb st "GET_api_generic_xml_output" then
        data <- lift (GET_api_generic api_url endpoint_name);;
        ingest data
      else if String.eqb st "custom_GET_api_threat_traffic" then
        data <- lift (custom_GET_api_threat_traffic lib api_url endpoint_name);;
        ingest data
      else
        lift (logger_log ERROR ("Unknown script type: " ++ st))
  | None => lift (logger_log ERROR "Unknown script type: None")
  end.

End Endpoint.

Section Host.

Variables (host api_key : string) (api_endpoints : list string).
Variable session_key : string.
Variable input_item : list (string * string).
Variables (sourcetype index_type : string).

(** The loop over [api_endpoints]. *)
Fixpoint endpoints_loop (names : list string) : M (nat * world) unit :=
  match names with
  | [] => ret tt
  | endpoint_name :: rest =>
      let endpoint_name := PyStr.strip endpoint_name in
      if negb (PyStr.truthy endpoint_name) then endpoints_loop rest
      else
        lift (logger_log INFO
                ("Processing API endpoint '" ++ endpoint_name
                 ++ "' for host: " ++ host));;
        try_except
          (process_endpoint host api_key session_key input_item sourcetype
                            index_type endpoint_name)
          (fun endpoint_error =>
             lift (logger_log ERROR
                     ("Error processing endpoint '" ++ endpoint_name
                      ++ "' for host " ++ host ++ ": "
                      ++ str_exn endpoint_error)));;
        endpoints_loop rest
  end.

(** The body of the outer [try]. *)
Definition host_body : M (nat * world) (string * nat * bool) :=
  lift (logger_log INFO ("Processing host: " ++ host));;
  endpoints_loop api_endpoints;;
  total_events <- get_local;;
  lift (logger_log INFO
          ("Completed processing host " ++ host ++ ": "
           ++ PyStr.str_of_nat total_events ++ " events ingested"));;
  ret (host, total_events, true).

Definition process_host_endpoints : M world (string * nat * bool) :=
  run_local 0%nat
    (try_except host_body
       (fun host_error =>
          lift (logger_log ERROR
                  ("Error processing host " ++ host ++ ": "
                   ++ str_exn host_error));;
          ret (host, 0%nat, false))).

End Host.

End Orchestrator.

(** ** The fan-out controller ([stream_events]) *)

(** [s.split(sep)] for a separator of one character. *)
Fixpoint split (sep : ascii) (s : string) : list string :=
  match s with
  | EmptyString => [EmptyString]
  | String c r =>
      if Ascii.eqb c sep then EmptyString :: split sep r
      else
        match split sep r with
        | h :: t => String c h :: t
        | [] => [String c EmptyString]
        end
  end.

(** [d.get(k, default)] on the strings of an input stanza. *)
Definition get_default (k default : string) (d : list (string * string))
    : string :=
  match ET.attrib_get k d with Some v => v | None => default end.

(** The comprehension that reads the hosts: the trimmed pieces of
    [ip_addresses_raw.split(",")] that are not empty. *)
Definition hosts_of (ip_addresses_raw : string) : list string :=
  map PyStr.strip
    (filter (fun ip => PyStr.truthy (PyStr.strip ip))
            (split "," ip_addresses_raw)).

(** The counters of [stream_events]. *)
Record tally : Type := mkTally {
  total_events_all_hosts : nat;
  successful_hosts : nat;
  failed_hosts : nat
}.

Section FanOut.

Variable lib : Library.

(** [future.result()] of the worker of [host], run in the world [w]. *)
Definition future_result (host api_key : string) (api_endpoints : list string)
    (session_key : string) (input_item : list (string * string))
    (sourcetype index_type : string) (w : world)
    : Result (string * nat * bool) :=
  fst (process_host_endpoints lib host api_key api_endpoints session_key
         input_item sourcetype index_type w).

(** One turn of the loop over [as_completed(future_to_host)]. *)
Definition collect (host : string) (result : Result (string * nat * bool))
    : M (tally * world) unit :=
  try_except
    (r <- of_result result;;
     let '(host_ip, events_count, success) := r in
     if success : bool then
       modify_local
         (fun t => mkTally (total_events_all_hosts t)
                           (successful_hosts t + 1) (failed_hosts t));;
       modify_local
         (fun t => mkTally (total_events_all_hosts t + events_count)
                           (successful_hosts t) (failed_hosts t));;
       lift (logger_log INFO
               ("Host " ++ host_ip ++ " completed successfully: "
                ++ PyStr.str_of_nat events_count ++ " events"))
     else
       modify_local
         (fun t => mkTally (total_events_all_hosts t) (successful_hosts t)
                           (failed_hosts t + 1));;
       lift (logger_log WARNING
               ("Host " ++ host_ip ++ " completed with errors")))
    (fun exc =>
       modify_local
         (fun t => mkTally (total_events_all_hosts t) (successful_hosts t)
                           (failed_hosts t + 1));;
       lift (logger_log ERROR
               ("Host " ++ host ++ " generated an exception: "
                ++ str_exn exc))).

Fixpoint collect_all (futures : list (string * Result (string * nat * bool)))
    : M (tally * world) unit :=
  match futures with
  | [] => ret tt
  | (host, result) :: rest => collect host result;; collect_all rest
  end.

(** The executor block.  One worker per host runs [process_host_endpoints];
    the workers overlap in time, so the worker submitted [i]-th runs in a
    world [worker_world i] of its own, and [order] lists the workers in the
    order their futures complete. *)
Definition fan_out (hosts : list string) (api_key : string)
    (api_endpoints : list string) (session_key : string)
    (input_item : list (string * string)) (sourcetype index_type : string)
    (worker_world : nat -> world) (order : list nat) : M world tally :=
  let futures :=
    map (fun i =>
           let host := nth i hosts EmptyString in
           (host,
            future_result host api_key api_endpoints session_key input_item
                          sourcetype index_type (worker_world i)))
        order in
  run_local (mkTally 0 0 0) (collect_all futures;; get_local).

(** The body of the loop of [stream_events] for one input.  The log level
    read from the settings only filters what the handlers print and is left
    out; [modular_input_start], [modular_input_end] and [log_exception] are
    the logging calls of solnlib. *)
Definition stream_events (input_name : string)
    (input_item : list (string * string)) (session_key : string)
    (worker_world : nat -> world) (order : list nat) : M world unit :=
  let normalized_input_name := last (split "/" input_name) EmptyString in
  try_except
    (logger_log INFO
       ("action=started modular_input_name=" ++ normalized_input_name);;
     api_key <-
       get_account_api_key session_key (ET.attrib_get "account" input_item);;
     let ip_addresses_raw := get_default "ip_address" "" input_item in
     let api_endpoints :=
       split "," (get_default "api_endpoints" "" input_item) in
     let sourcetype := get_default "sourcetype" "pan:log" input_item in
     let index_type := get_default "index_type" "events" input_item in
     let hosts := hosts_of ip_addresses_raw in
     match hosts with
     | [] => logger_log ERROR "No valid IP addresses configured"
     | _ :: _ =>
         logger_log INFO
           ("Processing " ++ PyStr.str_of_nat (List.length hosts)
            ++ " host(s): " ++ PyStr.join ", " hosts);;
         t <- fan_out hosts api_key api_endpoints session_key input_item
                sourcetype index_type worker_world order;;
         logger_log INFO
           ("Processing complete: "
            ++ PyStr.str_of_nat (successful_hosts t) ++ " hosts successful, "
            ++ PyStr.str_of_nat (failed_hosts t) ++ " hosts failed, "
            ++ PyStr.str_of_nat (total_events_all_hosts t)
            ++ " total events ingested");;
         logger_log INFO
           ("action=ended modular_input_name=" ++ normalized_input_name)
     end)
    (fun e =>
       logger_log ERROR
         ("Exception raised while ingesting data for "
          ++ normalized_input_name ++ ": " ++ str_exn e)).

End FanOut.

(** ** Reference descriptions used in the statements *)

(** The value stored for a tag whose children convert to [vs]: the value
    itself for one child, the sequence for several. *)
Definition grouped (vs : list value) : option value :=
  match vs with
  | [] => None
  | [v] => Some v
  | _ => Some (VList vs)
  end.

(** The document [<r><a>1</a><a>2</a></r>] as an element tree. *)
Definition r_doc : Element :=
  mkElement "r" [] None
    [mkElement "a" [] (Some "1") []; mkElement "a" [] (Some "2") []].

(** An element with no attributes and no children. *)
Definition bare_leaf (e : Element) : Prop :=
  attrib e = [] /\ children e = [].

(** The keys of a dictionary built by assignments are distinct. *)
Definition distinct_keys (d : dict) : Prop := NoDup (map fst d).

(** The dictionary [child_dict] that [element_to_dict] builds from the
    children [cs]. *)
Definition children_dict (lib : Library) (cs : list Element) : dict :=
  fold_left
    (fun child_dict child =>
       add_child child_dict (tag child) (element_to_dict lib child))
    cs [].

(** [node] of [element_to_dict] before the text is looked at. *)
Definition node_of (lib : Library) (element : Element) : dict :=
  let node := map (fun kv => ("@" ++ fst kv, VStr (snd kv))) (attrib element) in
  match children element with
  | [] => node
  | cs => dict_update node (children_dict lib cs)
  end.

(** The proper descendants of an element in document order, each with the
    tags on the way down to it (the tag of the element itself last, the tag
    of the root left out). *)
Fixpoint descendants (e : Element) : list (list string * Element) :=
  match e with
  | mkElement _ _ _ cs =>
      flat_map
        (fun c =>
           ([tag c], c)
           :: map (fun pe => (tag c :: fst pe, snd pe)) (descendants c))
        cs
  end.

(** The trimmed text of [e] is not empty and [float] reads it as [x]. *)
Definition numeric_text (lib : Library) (e : Element) (x : float) : Prop :=
  exists t : string,
    stripped_text e = Some t /\ float_of_string lib t = Some x.

(** The elements [extract_metrics] visits below [e], in the order of the
    visit, each with the metric path computed for it. *)
Fixpoint visited (e : Element) (parent_path : string)
    : list (string * Element) :=
  match e with
  | mkElement _ _ _ cs =>
      flat_map
        (fun c =>
           let metric_path := metric_path_of parent_path (tag c) in
           (metric_path, c) :: visited c metric_path)
        cs
  end.

(** One turn of the walk of [extract_metrics], on a visited element. *)
Definition record_visit (lib : Library) (md : dict) (pc : string * Element)
    : dict :=
  record_metric lib (fst pc) (snd pc) md.

(** The filter of the job-polling strategy in the words of its
    description: a non-empty [logid] attribute, and a severity that is
    [high] or [critical] once lowercased. *)
Definition kept (entry : Element) : bool :=
  match ET.attrib_get "logid" (attrib entry) with
  | Some logid =>
      PyStr.truthy logid
      && (String.eqb (PyStr.lower (ET.findtext "severity" "" entry)) "high"
          || String.eqb (PyStr.lower (ET.findtext "severity" "" entry))
                        "critical")
  | None => false
  end.

(** The record of a kept entry. *)
Definition record_of (host : option string) (entry : Element) : value :=
  make_event host entry
    (match ET.attrib_get "logid" (attrib entry) with
     | Some logid => logid
     | None => EmptyString
     end)
    (ET.findtext "severity" "" entry).

(** The records of the kept entries of a job reply, in document order. *)
Definition kept_records (host : option string) (xml_root : Element)
    : list value :=
  map (record_of host) (filter kept (ET.iter_tag "entry" xml_root)).

(** The shape of a record of the job-polling strategy: the four fields,
    [severity] equal to [warn], and a message that begins with a severity
    text that passes the filter. *)
Definition warn_record (r : value) : Prop :=
  exists (d : dict) (severity rest : string),
    r = VDict d
    /\ map fst d = ["happenedOn"; "severity"; "source"; "message"]
    /\ dict_get "severity" d = Some (VStr "warn")
    /\ dict_get "message" d = Some (VStr (severity ++ " :: [" ++ rest))
    /\ (PyStr.lower severity = "high" \/ PyStr.lower severity = "critical").

(** *** What the devices answer to the polls of a job *)

(** The document a GET of [url] brings back after the requests [h], when
    the request succeeds and the body parses. *)
Definition reply (lib : Library) (w : world) (h : list string) (url : string)
    : option Element :=
  match device w h url with
  | Ok body =>
      match fromstring lib body with
      | Ok doc => Some doc
      | Raise _ => None
      end
  | Raise _ => None
  end.

(** The first [c] polls of [url] after the requests [h] are answered with a
    status other than [FIN]. *)
Definition pending (lib : Library) (w : world) (h : list string)
    (url : string) (c : nat) : Prop :=
  forall i : nat,
    i < c ->
    exists doc : Element,
      reply lib w (h ++ repeat url i)%list url = Some doc
      /\ is_FIN (ET.findtext_job_status doc) = false.

(** How the polling of a job goes: [FIN] with the document [doc] after [c]
    other answers, or 11 answers without [FIN]. *)
Inductive outcome : Type :=
| Finished (c : nat) (doc : Element)
| Stalled.

(** The number of polls of a job. *)
Definition polls (o : outcome) : nat :=
  match o with Finished c _ => S c | Stalled => 11 end.

(** The devices answer the polls of [url], made after the requests [h], as
    the outcome [o] says. *)
Definition follows (lib : Library) (w : world) (h : list string)
    (url : string) (o : outcome) : Prop :=
  match o with
  | Finished c doc =>
      c < 11
      /\ pending lib w h url c
      /\ reply lib w (h ++ repeat url c)%list url = Some doc
      /\ is_FIN (ET.findtext_job_status doc) = true
  | Stalled => pending lib w h url 11
  end.

(** The same for the jobs of a submission, polled one after the other. *)
Fixpoint all_follow (lib : Library) (w : world) (h : list string)
    (runs : list (string * outcome)) : Prop :=
  match runs with
  | [] => True
  | (url, o) :: rest =>
      follows lib w h url o
      /\ all_follow lib w (h ++ repeat url (polls o))%list rest
  end.

(** The records a job contributes. *)
Definition contribution (host : option string) (o : outcome) : list value :=
  match o with
  | Finished _ doc => kept_records host doc
  | Stalled => []
  end.

(** The requests of the polls of the jobs [runs], each job with its
    identifier and its outcome. *)
Definition poll_requests (base_url apikey : string)
    (runs : list (option string * outcome)) : list string :=
  flat_map
    (fun r => repeat (report_url_of base_url apikey (fst r)) (polls (snd r)))
    runs.

(** The record logged for a job that is given up. *)
Definition timeout_warning (job_id : option string) : level * string :=
  (WARNING,
   "Job " ++ PyStr.str_of_option job_id ++ " did not complete within timeout").

(** No logging call raises. *)
Definition logging_works (w : world) : Prop :=
  forall (lvl : level) (msg : string), log_fault w lvl msg = None.

(** [w'] is [w] after some more requests, log records, sleeps and events:
    the devices, the clock, the configuration and the behaviour of the
    logger are the same. *)
Definition later (w w' : world) : Prop :=
  device w' = device w
  /\ utcnow w' = utcnow w
  /\ conf w' = conf w
  /\ account_api_key w' = account_api_key w
  /\ log_fault w' = log_fault w
  /\ (exists l, logged w' = logged w ++ l)%list.

(** *** The records of the job-polling strategy, field by field *)

(** The record a kept entry is projected into: the time the entry was
    generated, the fixed severity label, the host of the url, and a
    message put together from the severity, the [logid], the type, the
    capitalised subtype, the threat identifier, the direction and the two
    addresses of the entry (the text of a missing child is empty). *)
Definition projected_record (host : option string) (entry : Element)
    : value :=
  let child := fun t : string => ET.findtext t "" entry in
  let logid :=
    match ET.attrib_get "logid" (attrib entry) with
    | Some l => l
    | None => EmptyString
    end in
  VDict
    [("happenedOn", VStr (child "time_generated"));
     ("severity", VStr "warn");
     ("source", match host with Some h => VStr h | None => VNone end);
     ("message",
      VStr (child "severity" ++ " :: [" ++ logid ++ "] " ++ child "type"
            ++ " - " ++ PyStr.capitalize (child "subtype") ++ " : "
            ++ child "threatid" ++ " (" ++ child "direction" ++ " "
            ++ child "src" ++ " -> " ++ child "dst" ++ ")"))].

(** The records a job contributes, field by field. *)
Definition projected_records (host : option string) (o : outcome)
    : list value :=
  match o with
  | Finished _ doc =>
      map (projected_record host) (filter kept (ET.iter_tag "entry" doc))
  | Stalled => []
  end.

(** [s.capitalize()] is a text of the model: [s] does not begin with one
    of the letters 223, 255 and 181. *)
Definition capital_in_model (s : string) : bool :=
  match s with
  | EmptyString => true
  | String c _ => negb (existsb (Nat.eqb (nat_of_ascii c)) [223; 255; 181])
  end.

(** The same of the subtypes of the kept entries of a job. *)
Definition subtypes_in_model (o : outcome) : Prop :=
  match o with
  | Finished _ doc =>
      Forall
        (fun entry => capital_in_model (ET.findtext "subtype" "" entry) = true)
        (filter kept (ET.iter_tag "entry" doc))
  | Stalled => True
  end.

(** *** The outcome of a worker *)

(** A result that is an exception. *)
Definition raises {A : Type} (r : Result A) : bool :=
  match r with Raise _ => true | Ok _ => false end.

(** The count a worker returns. *)
Definition emitted (r : Result (string * nat * bool)) : nat :=
  match r with Ok (_, n, _) => n | Raise _ => 0 end.

(** A future whose result is a triple with a true success flag. *)
Definition succeeded (r : Result (string * nat * bool)) : bool :=
  match r with Ok (_, _, true) => true | _ => false end.

(** The counters after one future. *)
Definition count_future (t : tally) (r : Result (string * nat * bool))
    : tally :=
  if succeeded r then
    mkTally (total_events_all_hosts t + emitted r) (successful_hosts t + 1)
            (failed_hosts t)
  else
    mkTally (total_events_all_hosts t) (successful_hosts t)
            (failed_hosts t + 1).

(** What the body of the outer [try] of [process_host_endpoints] gives for
    the worker submitted [i]-th: the triple it returns, or the exception
    that escapes the loop over the endpoints. *)
Definition worker_body (lib : Library) (hosts : list string)
    (api_key : string) (api_endpoints : list string) (session_key : string)
    (input_item : list (string * string)) (sourcetype index_type : string)
    (worker_world : nat -> world) (i : nat) : Result (string * nat * bool) :=
  fst (host_body lib (nth i hosts EmptyString) api_key api_endpoints
         session_key input_item sourcetype index_type
         (0, worker_world i)).

(** The number of workers in which an exception escapes the per-host
    processing. *)
Definition failures (lib : Library) (hosts : list string)
    (api_key : string) (api_endpoints : list string) (session_key : string)
    (input_item : list (string * string)) (sourcetype index_type : string)
    (worker_world : nat -> world) : nat :=
  List.length
    (filter
       (fun i =>
          raises (worker_body lib hosts api_key api_endpoints session_key
                    input_item sourcetype index_type worker_world i))
       (seq 0 (List.length hosts))).

(** The sum of the counts returned by the other workers. *)
Definition events_of_successes (lib : Library) (hosts : list string)
    (api_key : string) (api_endpoints : list string) (session_key : string)
    (input_item : list (string * string)) (sourcetype index_type : string)
    (worker_world : nat -> world) : nat :=
  list_sum
    (map
       (fun i =>
          emitted (worker_body lib hosts api_key api_endpoints session_key
                     input_item sourcetype index_type worker_world i))
       (filter
          (fun i =>
             negb (raises (worker_body lib hosts api_key api_endpoints
                             session_key input_item sourcetype index_type
                             worker_world i)))
          (seq 0 (List.length hosts)))).

(** The summary that [stream_events] logs. *)
Definition summary (ok failed total : nat) : level * string :=
  (INFO,
   "Processing complete: " ++ PyStr.str_of_nat ok ++ " hosts successful, "
   ++ PyStr.str_of_nat failed ++ " hosts failed, "
   ++ PyStr.str_of_nat total ++ " total events ingested").

(** ** A library instance for the examples

    What the Python library returns on the inputs of the examples below:
    finite tables for the parsers, and the actual algorithm where it is
    short. *)

Module Demo.

Definition lookup {A : Type} (k : string) (table : list (string * A))
    : option A :=
  option_map snd (find (fun kv => String.eqb k (fst kv)) table).

(** A job status reply with one entry. *)
Definition entry_of (logid severity : string) : Element :=
  mkElement "entry" [("logid", logid)] None
    [mkElement "time_generated" [] (Some "2024/05/01 10:00:00") [];
     mkElement "severity" [] (Some severity) [];
     mkElement "type" [] (Some "THREAT") [];
     mkElement "subtype" [] (Some "vulnerability") [];
     mkElement "threatid" [] (Some "Log4j RCE") [];
     mkElement "direction" [] (Some "client-to-server") [];
     mkElement "src" [] (Some "10.1.1.1") [];
     mkElement "dst" [] (Some "10.2.2.2") []].

Definition job_reply (status : string) (entries : list Element) : Element :=
  mkElement "response" [("status", "success")] None
    [mkElement "result" [] None
       [mkElement "job" [] None [mkElement "status" [] (Some status) []];
        mkElement "log" [] None [mkElement "logs" [] None entries]]].

Definition submit_reply : Element :=
  mkElement "response" [("status", "success")] None
    [mkElement "result" [] None
       [mkElement "job" [] (Some "7") [];
        mkElement "job" [] (Some "8") []]].

Definition documents : list (string * Element) :=
  [("<r><a>1</a><a>2</a></r>", r_doc);
   ("<r><a/></r>", mkElement "r" [] None [mkElement "a" [] None []]);
   ("<r><cpu>15</cpu><name>fw1</name><mem><used>62</used></mem></r>",
    mkElement "r" [] None
      [mkElement "cpu" [] (Some "15") [];
       mkElement "name" [] (Some "fw1") [];
       mkElement "mem" [] None [mkElement "used" [] (Some "62") []]]);
   ("submitted", submit_reply);
   ("pending", job_reply "ACT" []);
   ("finished",
    job_reply "FIN" [entry_of "1" "High"; entry_of "2" "Low"])].

(** The parser of the samples: the documents above, and for any other
    text the error of expat at its first character (an empty text has no
    element, a brace is not a token of markup, a word is no markup). *)
Definition fromstring (s : string) : Result Element :=
  match lookup s documents with
  | Some e => Ok e
  | None =>
      if negb (PyStr.truthy s) then
        Raise (ParseError "no element found: line 1, column 0")
      else if PyStr.startswith "{" s then
        Raise (ParseError "not well-formed (invalid token): line 1, column 0")
      else Raise (ParseError "syntax error: line 1, column 0")
  end.

Definition float_of_string (s : string) : option float :=
  lookup s [("1", 1%float); ("2", 2%float); ("15", 15%float);
            ("62", 62%float)].

Definition float_repr (x : float) : string :=
  if PrimFloat.eqb x 15%float then "15.0"
  else if PrimFloat.eqb x 62%float then "62.0"
  else "nan".

(** [urlparse] on the urls of the samples; a host with an opening bracket
    that is never closed is rejected. *)
Definition urlparse (url : string) : Result ParseResult :=
  if String.eqb url "https://[10.0.0.5/api/?key=ABC" then
    Raise (OtherException "Invalid IPv6 URL")
  else
    match lookup url
            [("https://10.0.0.5/api/?key=ABC",
              mkParseResult "https" "10.0.0.5" "/api/" "key=ABC"
                            (Some "10.0.0.5"))] with
    | Some r => Ok r
    | None => Ok (mkParseResult "" "" url "" None)
    end.

Definition parse_qs (q : string) : list (string * list string) :=
  match lookup q [("key=ABC", [("key", ["ABC"])])] with
  | Some r => r
  | None => []
  end.

Definition quote (s : string) : string :=
  match lookup s
          [("receive_time geq '2024/05/01 09:30:00'",
            "receive_time%20geq%20%272024/05/01%2009%3A30%3A00%27")] with
  | Some r => r
  | None => s
  end.

Definition strftime (t : Z) : string :=
  if (t =? 1714555800)%Z then "2024/05/01 09:30:00" else "1970/01/01 00:00:00".

Definition safe_substitute (template : string)
    (variables : list (string * string)) : string :=
  match lookup template
          [("https://${host}/api/?key=${apikey}",
            "https://" ++ match lookup "host" variables with
                          | Some h => h | None => "${host}" end
            ++ "/api/?key="
            ++ match lookup "apikey" variables with
               | Some k => k | None => "${apikey}" end)] with
  | Some r => r
  | None => template
  end.

(** A device that answers a submission with two jobs: job 7 never
    finishes, job 8 finishes at its second poll with a high and a low
    entry.  Any other request fails. *)
Definition job_url (job_id : string) : string :=
  "https://10.0.0.5/api/?type=log&action=get&job-id=" ++ job_id ++ "&key=ABC".

Definition submit_url : string :=
  "https://10.0.0.5/api/?type=log&log-type=threat&nlogs=5000&query=("
  ++ "receive_time%20geq%20%272024/05/01%2009%3A30%3A00%27" ++ ")&key=ABC".

Definition device (h : list string) (url : string) : Result string :=
  if String.eqb url submit_url then Ok "submitted"
  else if String.eqb url (job_url "7") then Ok "pending"
  else if String.eqb url (job_url "8") then
    if (1 <=? count_occ string_dec h url)%nat then Ok "finished"
    else Ok "pending"
  else Raise (RequestException "404 Client Error").

Definition conf (session_key endpoint_name : string)
    : Result (list (string * string)) :=
  match lookup endpoint_name
          [("threats",
            [("api_url", "https://${host}/api/?key=${apikey}");
             ("script_type", "custom_GET_api_threat_traffic")])] with
  | Some stanza => Ok stanza
  | None => Raise (OtherException "stanza not found")
  end.

(** A world in which nothing was requested, logged or written yet. *)
Definition start (faults : level -> string -> option exn) : world :=
  mkWorld device [] 1714557600 conf (fun _ _ => Ok "ABC") faults [] 0 [].

Definition no_fault (lvl : level) (msg : string) : option exn := None.

(** A logger that fails on the record that announces an endpoint, and one
    that fails on every record. *)
Definition faulty_on_endpoints (lvl : level) (msg : string) : option exn :=
  if PyStr.startswith "Processing API endpoint" msg
  then Some (OtherException "log handler failed") else None.

Definition faulty (lvl : level) (msg : string) : option exn :=
  Some (OtherException "log handler failed").

(** The worlds of three workers: the first runs without a fault, the
    other two with the loggers above. *)
Definition worker_world (i : nat) : world :=
  match i with
  | 0 => start no_fault
  | 1 => start faulty_on_endpoints
  | _ => start faulty
  end.

Definition input_item : list (string * string) :=
  [("account", "firewalls");
   ("ip_address", "10.0.0.5, 10.0.0.6 ,10.0.0.7");
   ("api_endpoints", "threats");
   ("index", "main")].

Definition lib : Library :=
  mkLibrary float_of_string float_repr fromstring urlparse parse_qs quote
            strftime safe_substitute.

End Demo.

(** ** Further descriptions *)

(** [float] reads the trimmed text of [e]. *)
Definition is_numeric (lib : Library) (e : Element) : bool :=
  match stripped_text e with
  | Some t =>
      match float_of_string lib t with Some _ => true | None => false end
  | None => false
  end.

(** *** Runs of the add-on, seen from outside *)

(** [w'] is [w] after a run that wrote only events that satisfy [P]: the
    devices, the clock, the configuration and the logger are the same, and
    the requests, the log and the sink are those of [w] with more at the
    end. *)
Definition extends (P : Event -> Prop) (w w' : world) : Prop :=
  later w w'
  /\ (exists r : list string, requested w' = requested w ++ r)%list
  /\ sleeps w <= sleeps w'
  /\ exists evs : list Event,
       sink w' = (sink w ++ evs)%list /\ Forall P evs.

(** A computation all of whose runs are such, [proj] giving the world of
    a state. *)
Definition respects {S A : Type} (proj : S -> world) (P : Event -> Prop)
    (c : M S A) : Prop :=
  forall s : S, extends P (proj s) (proj (snd (c s))).

(** No event at all. *)
Definition no_event (ev : Event) : Prop := False.

(** An event written for [endpoint_name] by the worker of [host]. *)
Definition sourced (host : string) (input_item : list (string * string))
    (sourcetype endpoint_name : string) (ev : Event) : Prop :=
  ev_host ev = host
  /\ ev_sourcetype ev = sourcetype
  /\ ev_index ev = ET.attrib_get "index" input_item
  /\ ev_source ev = "palo_alto:" ++ endpoint_name.

(** An event written for one of the endpoints [names], by its trimmed
    name. *)
Definition well_sourced (host : string) (input_item : list (string * string))
    (sourcetype : string) (names : list string) (ev : Event) : Prop :=
  exists name : string,
    In name names
    /\ PyStr.strip name <> ""
    /\ sourced host input_item sourcetype (PyStr.strip name) ev.

(** The parser raises nothing but [ParseError]. *)
Definition only_parse_errors (lib : Library) : Prop :=
  forall (s : string) (e : exn),
    fromstring lib s = Raise e -> exists m : string, e = ParseError m.

(** A record the loops over [data] can turn into a text: a mapping whose
    [_raw], if it has one, is a string. *)
Definition ingestible (r : value) : Prop :=
  exists d : dict,
    r = VDict d
    /\ (dict_get "_raw" d = None
        \/ exists s : string, dict_get "_raw" d = Some (VStr s)).

(** From the state [s] to the state [s'] the count has grown by the
    number of events written. *)
Definition counted (s s' : nat * world) : Prop :=
  exists evs : list Event,
    sink (snd s') = (sink (snd s) ++ evs)%list
    /\ fst s' = fst s + List.length evs.

(** The record that [custom_GET_api_threat_traffic] logs for an exception
    raised inside its [try], by the class of the exception. *)
Definition failure_record (endpoint_name : string) (e : exn)
    : level * string :=
  (ERROR,
   match e with
   | RequestException m => "Error making request to " ++ endpoint_name ++ ": " ++ m
   | ParseError m =>
       "Error parsing XML response from " ++ endpoint_name ++ ": " ++ m
   | OtherException m => "Unexpected error in " ++ endpoint_name ++ ": " ++ m
   end).

(** More sample documents. *)
Module Samples.

(** [<timing unit="ms">15</timing>] *)
Definition timing : Element :=
  mkElement "timing" [("unit", "ms")] (Some "15") [].

(** [<r><cpu>15</cpu><name>fw1</name><mem><used>62</used></mem></r>] *)
Definition system_doc : Element :=
  mkElement "r" [] None
    [mkElement "cpu" [] (Some "15") [];
     mkElement "name" [] (Some "fw1") [];
     mkElement "mem" [] None [mkElement "used" [] (Some "62") []]].

Definition system_text : string :=
  "<r><cpu>15</cpu><name>fw1</name><mem><used>62</used></mem></r>".

(** A world whose configuration store has no stanza at all, and one
    whose only stanza names a strategy that does not exist. *)
Definition no_conf (session_key endpoint_name : string)
    : Result (list (string * string)) :=
  Raise (OtherException "stanza not found").

Definition odd_conf (session_key endpoint_name : string)
    : Result (list (string * string)) :=
  Ok [("api_url", "https://${host}/api/?key=${apikey}");
      ("script_type", "POST_api")].

Definition world_with (c : string -> string -> Result (list (string * string)))
    : world :=
  mkWorld Demo.device [] 1714557600 c (fun _ _ => Ok "ABC") Demo.no_fault
          [] 0 [].

(** A world with one endpoint of the generic strategy, whose device
    answers every request with the system document. *)
Definition generic_conf (session_key endpoint_name : string)
    : Result (list (string * string)) :=
  Ok [("api_url", "https://${host}/api/?key=${apikey}");
      ("script_type", "GET_api_generic_xml_output")].

Definition generic_world : world :=
  mkWorld (fun _ _ => Ok system_text) [] 1714557600 generic_conf
          (fun _ _ => Ok "ABC") Demo.no_fault [] 0 [].

(** A 1 followed by 4300 zeros, and a library whose [float] reads it as
    positive infinity. *)
Fixpoint zeros (n : nat) : string :=
  match n with
  | O => EmptyString
  | S k => String "0" (zeros k)
  end.

Definition long_integer : string := String "1" (zeros 4300).

Definition overflowing_lib : Library :=
  mkLibrary
    (fun s =>
       if String.eqb s long_integer then Some infinity
       else Demo.float_of_string s)
    Demo.float_repr Demo.fromstring Demo.urlparse Demo.parse_qs Demo.quote
    Demo.strftime Demo.safe_substitute.

(** A world whose devices refuse every connection. *)
Definition unreachable_world : world :=
  mkWorld (fun _ _ => Raise (RequestException "Connection refused")) []
          1714557600 Demo.conf (fun _ _ => Ok "ABC") Demo.no_fault [] 0 [].

End Samples.

(** * Properties *)

(** ** Dictionaries *)

Lemma dict_get_set_same (k : string) (v : value) (d : dict) :
  dict_get k (dict_set k v d) = Some v.
Proof.
  induction d as [|[k' v'] r IH]; simpl.
  - now rewrite String.eqb_refl.
  - destruct (String.eqb k k') eqn:E; simpl; rewrite E; auto.
Qed.

Lemma dict_get_set_other (k k' : string) (v : value) (d : dict) :
  k <> k' -> dict_get k (dict_set k' v d) = dict_get k d.
Proof.
  intros Hne. induction d as [|[k0 v0] r IH]; simpl.
  - destruct (String.eqb k k') eqn:E; auto.
    apply String.eqb_eq in E. contradiction.
  - destruct (String.eqb k' k0) eqn:E; simpl.
    + apply String.eqb_eq in E. subst k0.
      destruct (String.eqb k k') eqn:E2; auto.
      apply String.eqb_eq in E2. contradiction.
    + destruct (String.eqb k k0); auto.
Qed.

Lemma dict_get_update_absent (k : string) (other d : dict) :
  dict_get k other = None ->
  dict_get k (dict_update d other) = dict_get k d.
Proof.
  unfold dict_update. revert d.
  induction other as [|[k' v'] r IH]; intros d H; simpl in *; auto.
  destruct (String.eqb k k') eqn:E; [discriminate|].
  rewrite IH by assumption. apply dict_get_set_other.
  intro Heq. subst. rewrite String.eqb_refl in E. discriminate.
Qed.

Lemma dict_get_none_not_in (k : string) (d : dict) :
  dict_get k d = None <-> ~ In k (map fst d).
Proof.
  induction d as [|[k' v'] r IH]; simpl.
  - tauto.
  - destruct (String.eqb k k') eqn:E.
    + apply String.eqb_eq in E. subst. split; [discriminate|].
      intros H. exfalso. apply H. now left.
    + rewrite IH. split.
      * intros H [H1|H1]; [|tauto]. subst.
        rewrite String.eqb_refl in E. discriminate.
      * tauto.
Qed.

Lemma keys_dict_set (k : string) (v : value) (d : dict) :
  map fst (dict_set k v d)
  = if dict_mem k d then map fst d else (map fst d ++ [k])%list.
Proof.
  unfold dict_mem. induction d as [|[k' v'] r IH]; simpl; auto.
  destruct (String.eqb k k') eqn:E; simpl; auto.
  rewrite IH. destruct (dict_get k r); auto.
Qed.

Lemma distinct_keys_set (k : string) (v : value) (d : dict) :
  distinct_keys d -> distinct_keys (dict_set k v d).
Proof.
  unfold distinct_keys. intros H. rewrite keys_dict_set.
  unfold dict_mem. destruct (dict_get k d) eqn:E; auto.
  apply dict_get_none_not_in in E.
  apply NoDup_rev in H. rewrite <- (rev_involutive (map fst d ++ [k])).
  apply NoDup_rev. rewrite rev_app_distr. simpl. constructor; auto.
  now rewrite <- in_rev.
Qed.

Lemma dict_get_update_present (k : string) (v : value) (other d : dict) :
  distinct_keys other ->
  dict_get k other = Some v ->
  dict_get k (dict_update d other) = Some v.
Proof.
  unfold dict_update, distinct_keys. revert d.
  induction other as [|[k' v'] r IH]; intros d Hnd H; simpl in *.
  - discriminate.
  - inversion Hnd as [|? ? Hnotin Hnd']; subst.
    destruct (String.eqb k k') eqn:E.
    + apply String.eqb_eq in E. subst k'. inversion H; subst v'.
      change (dict_get k (dict_update (dict_set k v d) r) = Some v).
      rewrite dict_get_update_absent.
      * apply dict_get_set_same.
      * now apply dict_get_none_not_in.
    + now apply IH.
Qed.

(** ** The structured conversion *)

Section NormaliserFacts.

Variable lib : Library.

Lemma element_to_dict_eq (element : Element) :
  element_to_dict lib element =
  match stripped_text element with
  | Some t =>
      if dict_truthy (node_of lib element)
      then VDict (dict_set "#text" (VStr t) (node_of lib element))
      else coerce_text lib t
  | None =>
      if dict_truthy (node_of lib element)
      then VDict (node_of lib element) else VNone
  end.
Proof. destruct element as [t a x cs]. destruct cs; reflexivity. Qed.

Lemma element_to_dict_not_list (element : Element) (l : list value) :
  element_to_dict lib element <> VList l.
Proof.
  rewrite element_to_dict_eq. unfold coerce_text.
  destruct (stripped_text element); destruct (dict_truthy _);
    try discriminate.
  destruct (PyStr.int_of_string s); [discriminate|].
  destruct (float_of_string lib s); discriminate.
Qed.

Lemma children_dict_snoc (cs : list Element) (c : Element) :
  children_dict lib (cs ++ [c])
  = add_child (children_dict lib cs) (tag c) (element_to_dict lib c).
Proof. unfold children_dict. now rewrite fold_left_app. Qed.

Lemma filter_snoc {A : Type} (f : A -> bool) (l : list A) (x : A) :
  filter f (l ++ [x]) = (filter f l ++ (if f x then [x] else []))%list.
Proof. rewrite filter_app. simpl. destruct (f x); auto. Qed.

Lemma grouped_snoc (l : list Element) (c : Element) :
  l <> [] ->
  grouped (map (element_to_dict lib) (l ++ [c]))
  = Some (VList (match grouped (map (element_to_dict lib) l) with
                 | Some (VList vs) => vs
                 | Some v => [v]
                 | None => []
                 end ++ [element_to_dict lib c])).
Proof.
  intros Hne. destruct l as [|a [|b l']]; [congruence| |].
  - simpl. pose proof (element_to_dict_not_list a) as Hn.
    destruct (element_to_dict lib a); try reflexivity.
    exfalso. now apply (Hn l).
  - rewrite map_app. simpl. reflexivity.
Qed.

(** What [child_dict] holds for every tag, and that its keys are distinct. *)
Lemma children_dict_spec (cs : list Element) :
  distinct_keys (children_dict lib cs) /\
  forall t : string,
    dict_get t (children_dict lib cs)
    = grouped (map (element_to_dict lib)
                   (filter (fun x => String.eqb (tag x) t) cs)).
Proof.
  induction cs as [|c cs IH] using rev_ind.
  - split; [constructor | reflexivity].
  - destruct IH as [Hd Hget]. rewrite children_dict_snoc. split.
    + unfold add_child. destruct (dict_mem _ _); now apply distinct_keys_set.
    + intros t. rewrite filter_snoc. unfold add_child, dict_mem.
      destruct (String.eqb (tag c) t) eqn:E.
      * apply String.eqb_eq in E. subst t.
        rewrite (Hget (tag c)).
        destruct (filter (fun x => String.eqb (tag x) (tag c)) cs) as [|a l] eqn:F.
        -- simpl. rewrite dict_get_set_same. reflexivity.
        -- assert (Hne : a :: l <> []) by discriminate.
           rewrite (grouped_snoc (a :: l) c Hne).
           destruct (grouped (map (element_to_dict lib) (a :: l))) eqn:G.
           ++ rewrite dict_get_set_same. reflexivity.
           ++ destruct l; discriminate.
      * rewrite List.app_nil_r.
        assert (Hne : t <> tag c).
        { intro; subst. rewrite String.eqb_refl in E. discriminate. }
        destruct (dict_get (tag c) (children_dict lib cs));
          rewrite dict_get_set_other by assumption; apply Hget.
Qed.

Lemma node_of_children (element : Element) (t : string) (v : value) :
  grouped (map (element_to_dict lib) (ET.children_tag t element)) = Some v ->
  dict_get t (node_of lib element) = Some v.
Proof.
  unfold node_of, ET.children_tag. intros H.
  destruct (children element) as [|c cs] eqn:C.
  - discriminate.
  - destruct (children_dict_spec (c :: cs)) as [Hd Hget].
    apply dict_get_update_present; auto. rewrite Hget. exact H.
Qed.

Lemma dict_truthy_get (k : string) (v : value) (d : dict) :
  dict_get k d = Some v -> dict_truthy d = true.
Proof. destruct d; [discriminate | reflexivity]. Qed.

(** The value under the key of a tag that some child carries. *)
Lemma parent_lookup (element : Element) (t : string) (v : value) :
  t <> "#text" ->
  grouped (map (element_to_dict lib) (ET.children_tag t element)) = Some v ->
  exists d : dict,
    element_to_dict lib element = VDict d /\ dict_get t d = Some v.
Proof.
  intros Ht H. apply node_of_children in H.
  rewrite element_to_dict_eq. rewrite (dict_truthy_get _ _ _ H).
  destruct (stripped_text element) as [s|].
  - eexists. split; [reflexivity|].
    rewrite dict_get_set_other by assumption. exact H.
  - eexists. split; [reflexivity | exact H].
Qed.

End NormaliserFacts.

(** ** Repeated tags *)

(** C3.  When a tag [t] occurs [k >= 2] times among the children of an
    element, the conversion of that element is a mapping whose value under
    [t] is the sequence of the [k] converted children, in document order
    (the key [#text] is reserved for the text, and is no name of a tag of
    a well-formed document).
    And the document [<r><a>1</a><a>2</a></r>] converts to a record whose
    data is [{"r": {"a": [1, 2]}}]. *)
Theorem repeated_tag_converts_to_sequence (lib : Library) :
  (forall (parent : Element) (t : string) (k : nat),
      List.length (ET.children_tag t parent) = k ->
      2 <= k ->
      t <> "#text" ->
      exists (d : dict) (seq : list value),
        element_to_dict lib parent = VDict d
        /\ dict_get t d = Some (VList seq)
        /\ List.length seq = k
        /\ seq = map (element_to_dict lib) (ET.children_tag t parent))
  /\
  (forall endpoint_name host : string,
      fromstring lib "<r><a>1</a><a>2</a></r>" = Ok r_doc ->
      xml_to_json lib "<r><a>1</a><a>2</a></r>" endpoint_name host
      = Ok (VDict [("endpoint", VStr endpoint_name); ("host", VStr host);
                   ("data",
                    VDict [("r", VDict [("a", VList [VInt 1; VInt 2])])])])).
Proof.
  split.
  - intros parent t k Hlen Hk Ht.
    destruct (parent_lookup lib parent t
                (VList (map (element_to_dict lib) (ET.children_tag t parent))) Ht)
      as [d [Hd Hg]].
    + destruct (ET.children_tag t parent) as [|a [|b l]]; simpl in *;
        try (exfalso; lia). reflexivity.
    + exists d, (map (element_to_dict lib) (ET.children_tag t parent)).
      repeat split; auto. now rewrite length_map.
  - intros endpoint_name host Hparse. unfold xml_to_json.
    rewrite Hparse. reflexivity.
Qed.

Lemma repeated_tag_converts_to_sequence_witness :
  List.length (ET.children_tag "a" r_doc) = 2
  /\ 2 <= 2
  /\ "a" <> "#text"
  /\ fromstring Demo.lib "<r><a>1</a><a>2</a></r>" = Ok r_doc
  /\ (exists (d : dict) (seq : list value),
        element_to_dict Demo.lib r_doc = VDict d
        /\ dict_get "a" d = Some (VList seq)
        /\ List.length seq = 2
        /\ seq = map (element_to_dict Demo.lib) (ET.children_tag "a" r_doc))
  /\ xml_to_json Demo.lib "<r><a>1</a><a>2</a></r>" "system" "10.0.0.5"
     = Ok (VDict [("endpoint", VStr "system"); ("host", VStr "10.0.0.5");
                  ("data",
                   VDict [("r", VDict [("a", VList [VInt 1; VInt 2])])])]).
Proof.
  assert (Hneq : "a" <> "#text") by discriminate.
  split; [reflexivity|]. split; [apply le_n|]. split; [exact Hneq|].
  split; [reflexivity|]. split.
  - exact (proj1 (repeated_tag_converts_to_sequence Demo.lib)
             r_doc "a" 2 eq_refl (le_n 2) Hneq).
  - exact (proj2 (repeated_tag_converts_to_sequence Demo.lib)
             "system" "10.0.0.5" eq_refl).
Defined.

(** ** Integers written in decimal *)

Lemma rstrip_string_of_uint (d : Decimal.uint) :
  PyStr.rstrip (NilEmpty.string_of_uint d) = NilEmpty.string_of_uint d.
Proof.
  induction d; simpl; auto; rewrite IHd;
    destruct (NilEmpty.string_of_uint d); reflexivity.
Qed.

Lemma strip_string_of_uint (d : Decimal.uint) :
  PyStr.strip (NilEmpty.string_of_uint d) = NilEmpty.string_of_uint d.
Proof.
  unfold PyStr.strip.
  replace (PyStr.lstrip (NilEmpty.string_of_uint d))
    with (NilEmpty.string_of_uint d) by (destruct d; reflexivity).
  apply rstrip_string_of_uint.
Qed.

Lemma int_digits_digit (c : ascii) (r : string) (acc v : Z) (b : bool) :
  PyStr.digit_of_ascii c = Some v ->
  PyStr.int_digits (String c r) acc b = PyStr.int_digits r (10 * acc + v) true.
Proof. intros H. cbn [PyStr.int_digits]. now rewrite H. Qed.

Ltac digit_step IH :=
  cbn [NilEmpty.string_of_uint Pos.of_uint_acc Pos.of_uint];
  erewrite int_digits_digit by (vm_compute; reflexivity);
  match goal with
  | |- PyStr.int_digits _ ?a true = Some (Z.pos (Pos.of_uint_acc _ ?q)) =>
      replace a with (Z.pos q) by lia; apply IH
  | |- PyStr.int_digits _ ?a true = Some (Z.of_N (N.pos (Pos.of_uint_acc _ ?q))) =>
      replace a with (Z.pos q) by lia; apply IH
  | |- PyStr.int_digits _ ?a true = _ =>
      replace a with 0%Z by lia; apply IH
  end.

Lemma int_digits_acc (d : Decimal.uint) (p : positive) :
  PyStr.int_digits (NilEmpty.string_of_uint d) (Z.pos p) true
  = Some (Z.pos (Pos.of_uint_acc d p)).
Proof.
  revert p. induction d; intros p; [reflexivity|..]; digit_step IHd.
Qed.

Lemma int_digits_zero (d : Decimal.uint) :
  PyStr.int_digits (NilEmpty.string_of_uint d) 0 true
  = Some (Z.of_N (Pos.of_uint d)).
Proof.
  induction d; [reflexivity | digit_step IHd | ..];
    digit_step int_digits_acc.
Qed.

Lemma int_digits_uint (d : Decimal.uint) :
  d <> Decimal.Nil ->
  PyStr.int_digits (NilEmpty.string_of_uint d) 0 false
  = Some (Z.of_N (Pos.of_uint d)).
Proof.
  intros Hd. destruct d; [congruence | digit_step int_digits_zero | ..];
    digit_step int_digits_acc.
Qed.

Lemma int_literal_pos (p : positive) :
  PyStr.int_literal (NilEmpty.string_of_uint (Pos.to_uint p))
  = Some (Z.pos p).
Proof.
  unfold PyStr.int_literal. rewrite strip_string_of_uint.
  pose proof (DecimalPos.Unsigned.to_uint_nonnil p) as Hn.
  pose proof (int_digits_uint _ Hn) as H.
  rewrite DecimalPos.Unsigned.of_to in H. simpl in H.
  destruct (Pos.to_uint p); [congruence|..]; exact H.
Qed.

Lemma int_literal_str_of_int (n : Z) :
  PyStr.int_literal (PyStr.str_of_int n) = Some n.
Proof.
  unfold PyStr.str_of_int. destruct n as [|p|p].
  - reflexivity.
  - simpl. pose proof (DecimalPos.Unsigned.to_uint_nonnil p) as Hn.
    replace (NilZero.string_of_uint (Pos.to_uint p))
      with (NilEmpty.string_of_uint (Pos.to_uint p))
      by (destruct (Pos.to_uint p); auto; congruence).
    apply int_literal_pos.
  - simpl. pose proof (DecimalPos.Unsigned.to_uint_nonnil p) as Hn.
    replace (NilZero.string_of_uint (Pos.to_uint p))
      with (NilEmpty.string_of_uint (Pos.to_uint p))
      by (destruct (Pos.to_uint p); auto; congruence).
    unfold PyStr.int_literal, PyStr.strip. simpl PyStr.lstrip.
    change (PyStr.rstrip (String "-" ?r))
      with (match PyStr.rstrip r with
            | EmptyString => String "-" EmptyString
            | String a b => String "-" (String a b)
            end).
    rewrite rstrip_string_of_uint.
    pose proof (int_digits_uint _ Hn) as H.
    rewrite DecimalPos.Unsigned.of_to in H. simpl in H.
    destruct (NilEmpty.string_of_uint (Pos.to_uint p)) eqn:E.
    + destruct (Pos.to_uint p); simpl in E; congruence.
    + rewrite H. reflexivity.
Qed.

(** [int(str(n)) == n], for an integer of at most 4300 digits *)
Lemma int_of_string_str_of_int (n : Z) :
  (PyStr.count_digits (PyStr.str_of_int n) <= PyStr.max_str_digits)%nat ->
  PyStr.int_of_string (PyStr.str_of_int n) = Some n.
Proof.
  intros H. unfold PyStr.int_of_string. apply Nat.leb_le in H. rewrite H.
  apply int_literal_str_of_int.
Qed.

Lemma int_of_string_long (t : string) :
  (PyStr.max_str_digits < PyStr.count_digits t)%nat ->
  PyStr.int_of_string t = None.
Proof.
  intros H. unfold PyStr.int_of_string. apply Nat.leb_gt in H. now rewrite H.
Qed.

Lemma strip_str_of_int (n : Z) :
  PyStr.strip (PyStr.str_of_int n) = PyStr.str_of_int n
  /\ PyStr.truthy (PyStr.str_of_int n) = true.
Proof.
  unfold PyStr.str_of_int. destruct n as [|p|p].
  - split; reflexivity.
  - simpl. pose proof (DecimalPos.Unsigned.to_uint_nonnil p) as Hn.
    replace (NilZero.string_of_uint (Pos.to_uint p))
      with (NilEmpty.string_of_uint (Pos.to_uint p))
      by (destruct (Pos.to_uint p); auto; congruence).
    split; [apply strip_string_of_uint|].
    destruct (Pos.to_uint p); [congruence|..]; reflexivity.
  - simpl. split; [|reflexivity]. unfold PyStr.strip. simpl PyStr.lstrip.
    change (PyStr.rstrip (String "-" ?r))
      with (match PyStr.rstrip r with
            | EmptyString => String "-" EmptyString
            | String a b => String "-" (String a b)
            end).
    pose proof (DecimalPos.Unsigned.to_uint_nonnil p) as Hn.
    replace (NilZero.string_of_uint (Pos.to_uint p))
      with (NilEmpty.string_of_uint (Pos.to_uint p))
      by (destruct (Pos.to_uint p); auto; congruence).
    rewrite rstrip_string_of_uint.
    destruct (NilEmpty.string_of_uint (Pos.to_uint p)); reflexivity.
Qed.

(** ** Leaves *)

Lemma children_tag_unique (parent c : Element) :
  NoDup (map tag (children parent)) ->
  In c (children parent) ->
  ET.children_tag (tag c) parent = [c].
Proof.
  unfold ET.children_tag. induction (children parent) as [|a l IH];
    intros Hnd Hin; simpl in *; [contradiction|].
  inversion Hnd as [|? ? Hnotin Hnd']; subst.
  destruct Hin as [->|Hin].
  - rewrite String.eqb_refl. f_equal.
    clear IH Hnd Hnd'. induction l as [|b l IH]; simpl in *; auto.
    destruct (String.eqb (tag b) (tag c)) eqn:E.
    + apply String.eqb_eq in E. exfalso. apply Hnotin. now left.
    + apply IH. tauto.
  - destruct (String.eqb (tag a) (tag c)) eqn:E.
    + apply String.eqb_eq in E. exfalso. apply Hnotin. rewrite E.
      now apply in_map.
    + now apply IH.
Qed.

Lemma leaf_conversion (lib : Library) (leaf : Element) :
  bare_leaf leaf ->
  element_to_dict lib leaf =
  match stripped_text leaf with
  | Some t => coerce_text lib t
  | None => VNone
  end.
Proof.
  intros [Ha Hc]. rewrite element_to_dict_eq. unfold node_of.
  rewrite Ha, Hc. reflexivity.
Qed.

(** C4, amended.  A leaf with no attributes and no children converts to its
    trimmed text read as an integer, else as a float, else kept as the
    string, where [int] reads no literal of more than 4300 digits.  So a
    leaf holding the decimal writing of an integer [n] of at most 4300
    digits converts to [n]; a leaf whose trimmed text has more digits is
    never an integer: it converts to what [float] reads, else to the text;
    a leaf whose trimmed text is read by neither parser converts to that
    text; and under a parent whose children have distinct tags the
    converted leaf is the value of its tag. *)
Theorem leaf_text_is_coerced (lib : Library) :
  (forall (leaf : Element) (t : string),
      bare_leaf leaf ->
      stripped_text leaf = Some t ->
      element_to_dict lib leaf =
      match PyStr.int_of_string t with
      | Some z => VInt z
      | None =>
          match float_of_string lib t with
          | Some x => VFloat x
          | None => VStr t
          end
      end)
  /\
  (forall (name : string) (n : Z),
      (PyStr.count_digits (PyStr.str_of_int n) <= PyStr.max_str_digits)%nat ->
      element_to_dict lib (mkElement name [] (Some (PyStr.str_of_int n)) [])
      = VInt n)
  /\
  (forall (leaf : Element) (t : string),
      bare_leaf leaf ->
      stripped_text leaf = Some t ->
      (PyStr.max_str_digits < PyStr.count_digits t)%nat ->
      element_to_dict lib leaf =
      match float_of_string lib t with
      | Some x => VFloat x
      | None => VStr t
      end)
  /\
  (forall (name s : string),
      PyStr.strip s = s ->
      PyStr.truthy s = true ->
      PyStr.int_of_string s = None ->
      float_of_string lib s = None ->
      element_to_dict lib (mkElement name [] (Some s) []) = VStr s)
  /\
  (forall (parent leaf : Element),
      NoDup (map tag (children parent)) ->
      In leaf (children parent) ->
      tag leaf <> "#text" ->
      exists d : dict,
        element_to_dict lib parent = VDict d
        /\ dict_get (tag leaf) d = Some (element_to_dict lib leaf)).
Proof.
  repeat split.
  - intros leaf t Hleaf Ht. rewrite (leaf_conversion lib leaf Hleaf), Ht.
    reflexivity.
  - intros name n Hn. rewrite leaf_conversion by (split; reflexivity).
    unfold stripped_text. cbn [text].
    destruct (strip_str_of_int n) as [Hs Ht]. rewrite Hs, Ht. cbn [andb].
    unfold coerce_text. now rewrite int_of_string_str_of_int.
  - intros leaf t Hleaf Ht Hlong.
    rewrite (leaf_conversion lib leaf Hleaf), Ht.
    unfold coerce_text. now rewrite int_of_string_long.
  - intros name s Hs Ht Hi Hf. rewrite leaf_conversion by (split; reflexivity).
    unfold stripped_text. cbn [text]. rewrite Hs, Ht. cbn [andb].
    unfold coerce_text. now rewrite Hi, Hf.
  - intros parent leaf Hnd Hin Htag.
    apply parent_lookup; auto.
    rewrite (children_tag_unique parent leaf Hnd Hin). reflexivity.
Qed.

Lemma leaf_text_is_coerced_witness :
  let leaf := mkElement "cpu" [] (Some " 15 ") [] in
  let parent :=
    mkElement "r" [] None [leaf; mkElement "name" [] (Some "fw1") []] in
  let long := mkElement "n" [] (Some Samples.long_integer) [] in
  bare_leaf leaf
  /\ stripped_text leaf = Some "15"
  /\ element_to_dict Demo.lib leaf = VInt 15
  /\ (PyStr.count_digits (PyStr.str_of_int (-15)) <= PyStr.max_str_digits)%nat
  /\ element_to_dict Demo.lib
       (mkElement "delta" [] (Some (PyStr.str_of_int (-15))) [])
     = VInt (-15)
  /\ bare_leaf long
  /\ stripped_text long = Some Samples.long_integer
  /\ (PyStr.max_str_digits < PyStr.count_digits Samples.long_integer)%nat
  /\ element_to_dict Samples.overflowing_lib long = VFloat infinity
  /\ PyStr.strip "fw1" = "fw1"
  /\ PyStr.truthy "fw1" = true
  /\ PyStr.int_of_string "fw1" = None
  /\ float_of_string Demo.lib "fw1" = None
  /\ element_to_dict Demo.lib (mkElement "name" [] (Some "fw1") [])
     = VStr "fw1"
  /\ NoDup (map tag (children parent))
  /\ In leaf (children parent)
  /\ tag leaf <> "#text"
  /\ exists d : dict,
       element_to_dict Demo.lib parent = VDict d
       /\ dict_get (tag leaf) d = Some (element_to_dict Demo.lib leaf).
Proof.
  intros leaf parent long.
  assert (Hleaf : bare_leaf leaf) by (split; reflexivity).
  assert (Hshort : (PyStr.count_digits (PyStr.str_of_int (-15))
                    <= PyStr.max_str_digits)%nat).
  { apply Nat.leb_le. vm_compute. reflexivity. }
  assert (Hbare : bare_leaf long) by (split; reflexivity).
  assert (Htext : stripped_text long = Some Samples.long_integer).
  { vm_compute. reflexivity. }
  assert (Hlong : (PyStr.max_str_digits
                   < PyStr.count_digits Samples.long_integer)%nat).
  { apply Nat.ltb_lt. vm_compute. reflexivity. }
  assert (Hnd : NoDup (map tag (children parent))).
  { repeat constructor; simpl; intuition discriminate. }
  assert (Hin : In leaf (children parent)) by (left; reflexivity).
  assert (Htag : tag leaf <> "#text") by discriminate.
  destruct (leaf_text_is_coerced Demo.lib) as [H1 [H2 [_ [H4 H5]]]].
  destruct (leaf_text_is_coerced Samples.overflowing_lib) as [_ [_ [H3 _]]].
  split; [exact Hleaf|]. split; [reflexivity|].
  split; [exact (H1 leaf "15" Hleaf eq_refl)|].
  split; [exact Hshort|]. split; [exact (H2 "delta" (-15)%Z Hshort)|].
  split; [exact Hbare|]. split; [exact Htext|]. split; [exact Hlong|].
  split.
  { rewrite (H3 long Samples.long_integer Hbare Htext Hlong).
    vm_compute. reflexivity. }
  split; [reflexivity|]. split; [reflexivity|]. split; [reflexivity|].
  split; [reflexivity|].
  split; [exact (H4 "name" "fw1" eq_refl eq_refl eq_refl eq_refl)|].
  split; [exact Hnd|]. split; [exact Hin|]. split; [exact Htag|].
  exact (H5 parent leaf Hnd Hin Htag).
Defined.

(** C4 as stated fails on long integers: the leaf whose text is a 1
    followed by 4300 zeros, 4301 characters that are all digits, holds the
    decimal writing of an integer, and its conversion is not an integer
    but the float that [float] reads, positive infinity. *)
Lemma long_integer_is_read_as_float :
  let leaf := mkElement "n" [] (Some Samples.long_integer) [] in
  bare_leaf leaf
  /\ stripped_text leaf = Some Samples.long_integer
  /\ Samples.long_integer = String "1" (Samples.zeros 4300)
  /\ String.length Samples.long_integer = 4301
  /\ PyStr.count_digits Samples.long_integer = 4301
  /\ PyStr.int_of_string Samples.long_integer = None
  /\ element_to_dict Samples.overflowing_lib leaf = VFloat infinity.
Proof.
  cbv zeta. split; [split; reflexivity|].
  split; [vm_compute; reflexivity|]. split; [reflexivity|].
  split; [vm_compute; reflexivity|]. split; [vm_compute; reflexivity|].
  split; vm_compute; reflexivity.
Qed.

(** ** Empty elements *)

(** C9 as stated fails: the document [<r><a/></r>] has an element [a] with
    no attributes, no children and no text, and the conversion of its
    parent holds the key [a], with the value [None]. *)
Lemma empty_child_key_is_present :
  let child := mkElement "a" [] None [] in
  let parent := mkElement "r" [] None [child] in
  bare_leaf child
  /\ stripped_text child = None
  /\ In child (children parent)
  /\ element_to_dict Demo.lib parent = VDict [("a", VNone)]
  /\ dict_mem (tag child) [("a", VNone)] = true.
Proof.
  cbv zeta. repeat split. left. reflexivity.
Qed.

Lemma filter_none {A : Type} (f : A -> bool) (l : list A) :
  (forall x : A, In x l -> f x = false) -> filter f l = [].
Proof.
  induction l as [|a l IH]; intros H; [reflexivity|]. cbn [filter].
  rewrite (H a (or_introl eq_refl)). apply IH. intros x Hx. apply H. now right.
Qed.

Lemma grouped_around (b a : list value) (v : value) :
  grouped (b ++ v :: a)
  = Some (match b, a with
          | [], [] => v
          | _, _ => VList (b ++ v :: a)
          end).
Proof.
  destruct b as [|x [|y b]]; destruct a as [|z a]; reflexivity.
Qed.

(** C9, amended.  An element with no attributes, no children and no
    non-empty text converts to [None]; the conversion of its parent keeps
    a key for its tag.  When no sibling shares the tag the value of the key
    is [None]; when a sibling does, the value is the sequence of the
    conversions of the children with that tag, in document order, with
    [None] at the place of the element. *)
Theorem empty_element_converts_to_none (lib : Library) (e : Element) :
  bare_leaf e ->
  stripped_text e = None ->
  element_to_dict lib e = VNone
  /\ forall (parent : Element) (before after : list Element),
       children parent = (before ++ e :: after)%list ->
       tag e <> "#text" ->
       exists d : dict,
         element_to_dict lib parent = VDict d
         /\ ((forall c : Element,
                 In c (before ++ after) -> tag c <> tag e) ->
             dict_get (tag e) d = Some VNone)
         /\ ((exists c : Element,
                 In c (before ++ after) /\ tag c = tag e) ->
             dict_get (tag e) d
             = Some (VList
                       (map (element_to_dict lib)
                            (filter (fun c => String.eqb (tag c) (tag e))
                                    before)
                        ++ VNone
                           :: map (element_to_dict lib)
                                (filter (fun c => String.eqb (tag c) (tag e))
                                        after)))).
Proof.
  intros Hleaf Htext.
  assert (Hnone : element_to_dict lib e = VNone).
  { rewrite (leaf_conversion lib e Hleaf), Htext. reflexivity. }
  split; [exact Hnone|].
  intros parent before after Hchildren Htag.
  set (same := filter (fun c => String.eqb (tag c) (tag e))).
  assert (Htagged : ET.children_tag (tag e) parent
                    = (same before ++ e :: same after)%list).
  { unfold ET.children_tag. rewrite Hchildren, filter_app. cbn [filter].
    now rewrite String.eqb_refl. }
  pose proof (grouped_around (map (element_to_dict lib) (same before))
                (map (element_to_dict lib) (same after)) VNone) as G.
  rewrite <- Hnone in G at 1.
  change (element_to_dict lib e :: map (element_to_dict lib) (same after))
    with (map (element_to_dict lib) (e :: same after)) in G.
  rewrite <- map_app, <- Htagged in G.
  destruct (parent_lookup lib parent (tag e) _ Htag G) as [d [Hd Hg]].
  exists d. split; [exact Hd|]. split.
  - intros Halone.
    assert (Hb : same before = []).
    { apply filter_none. intros c Hc. apply String.eqb_neq.
      apply Halone. apply in_or_app. now left. }
    assert (Ha : same after = []).
    { apply filter_none. intros c Hc. apply String.eqb_neq.
      apply Halone. apply in_or_app. now right. }
    rewrite Hg, Hb, Ha. reflexivity.
  - intros [c [Hc Hsame]]. rewrite Hg.
    assert (Hin : In c (same before) \/ In c (same after)).
    { apply in_app_or in Hc.
      destruct Hc as [Hc|Hc]; [left | right]; apply filter_In;
        (split; [exact Hc | now apply String.eqb_eq]). }
    destruct (same before) as [|x b]; destruct (same after) as [|y a];
      try reflexivity.
    destruct Hin as [[]|[]].
Qed.

Lemma empty_element_converts_to_none_witness :
  let child := mkElement "a" [] None [] in
  let alone := mkElement "r" [] None [child] in
  let first := mkElement "a" [] (Some "1") [] in
  let other := mkElement "b" [] None [] in
  let shared := mkElement "r" [] None [first; child; other] in
  bare_leaf child
  /\ stripped_text child = None
  /\ element_to_dict Demo.lib child = VNone
  /\ children alone = ([] ++ child :: [])%list
  /\ children shared = ([first] ++ child :: [other])%list
  /\ tag child <> "#text"
  /\ (forall c : Element, In c ([] ++ []) -> tag c <> tag child)
  /\ (exists c : Element, In c ([first] ++ [other]) /\ tag c = tag child)
  /\ element_to_dict Demo.lib alone = VDict [("a", VNone)]
  /\ element_to_dict Demo.lib shared
     = VDict [("a", VList [VInt 1; VNone]); ("b", VNone)]
  /\ (exists d : dict,
        element_to_dict Demo.lib alone = VDict d
        /\ dict_get (tag child) d = Some VNone)
  /\ (exists d : dict,
        element_to_dict Demo.lib shared = VDict d
        /\ dict_get (tag child) d = Some (VList [VInt 1; VNone])).
Proof.
  intros child alone first other shared.
  assert (Hleaf : bare_leaf child) by (split; reflexivity).
  assert (Htag : tag child <> "#text") by discriminate.
  assert (Halone : forall c : Element, In c ([] ++ []) -> tag c <> tag child)
    by (intros c []).
  assert (Hshared : exists c : Element,
             In c ([first] ++ [other]) /\ tag c = tag child).
  { exists first. split; [left|]; reflexivity. }
  destruct (empty_element_converts_to_none Demo.lib child Hleaf eq_refl)
    as [H1 H2].
  split; [exact Hleaf|]. split; [reflexivity|]. split; [exact H1|].
  split; [reflexivity|]. split; [reflexivity|]. split; [exact Htag|].
  split; [exact Halone|]. split; [exact Hshared|].
  split; [reflexivity|]. split; [reflexivity|]. split.
  - destruct (H2 alone [] [] eq_refl Htag) as [d [Hd [Hv _]]].
    exists d. split; [exact Hd | exact (Hv Halone)].
  - destruct (H2 shared [first] [other] eq_refl Htag) as [d [Hd [_ Hv]]].
    exists d. split; [exact Hd | exact (Hv Hshared)].
Defined.

(** ** Parse failures *)

(** C6.  When the text does not parse, [xml_to_json] returns a record with
    the endpoint, the host and an [error] field that carries the parser's
    message, and no [data]; [xml_to_metrics] returns the endpoint and the
    host alone.  Neither raises. *)
Theorem parse_failure_is_contained (lib : Library)
    (xml_text endpoint_name host msg : string) :
  fromstring lib xml_text = Raise (ParseError msg) ->
  (exists record : dict,
      xml_to_json lib xml_text endpoint_name host = Ok (VDict record)
      /\ record = [("endpoint", VStr endpoint_name); ("host", VStr host);
                   ("error", VStr ("XML parsing failed: " ++ msg))]
      /\ dict_get "data" record = None
      /\ dict_get "error" record = Some (VStr ("XML parsing failed: " ++ msg)))
  /\ xml_to_metrics lib xml_text endpoint_name host
     = Ok [("endpoint", VStr endpoint_name); ("host", VStr host)].
Proof.
  intros H. unfold xml_to_json, xml_to_metrics. rewrite H. split.
  - eexists. split; [reflexivity|]. repeat split.
  - reflexivity.
Qed.

Lemma parse_failure_is_contained_witness :
  fromstring Demo.lib "not xml"
  = Raise (ParseError "syntax error: line 1, column 0")
  /\ (exists record : dict,
        xml_to_json Demo.lib "not xml" "system" "10.0.0.5"
        = Ok (VDict record)
        /\ record = [("endpoint", VStr "system"); ("host", VStr "10.0.0.5");
                     ("error",
                      VStr ("XML parsing failed: "
                            ++ "syntax error: line 1, column 0"))]
        /\ dict_get "data" record = None
        /\ dict_get "error" record
           = Some (VStr ("XML parsing failed: "
                         ++ "syntax error: line 1, column 0")))
  /\ xml_to_metrics Demo.lib "not xml" "system" "10.0.0.5"
     = Ok [("endpoint", VStr "system"); ("host", VStr "10.0.0.5")].
Proof.
  split; [reflexivity|].
  exact (parse_failure_is_contained Demo.lib "not xml" "system" "10.0.0.5"
           "syntax error: line 1, column 0" eq_refl).
Defined.

(** ** Metrics *)

Lemma Element_tree_ind (P : Element -> Prop) :
  (forall t a x cs, Forall P cs -> P (mkElement t a x cs)) ->
  forall e, P e.
Proof.
  intros H. fix IH 1. intros [t a x cs]. apply H.
  induction cs as [|c cs IHcs]; constructor; [apply IH | exact IHcs].
Qed.

Lemma fold_left_flat_map {A B C : Type} (f : A -> C -> A) (g : B -> list C)
    (l : list B) (a : A) :
  fold_left f (flat_map g l) a
  = fold_left (fun acc b => fold_left f (g b) acc) l a.
Proof.
  revert a. induction l as [|b l IH]; intros a; simpl; auto.
  now rewrite fold_left_app, IH.
Qed.

Lemma fold_left_ext_Forall {A B : Type} (f g : A -> B -> A) (l : list B)
    (a : A) :
  Forall (fun b => forall acc, f acc b = g acc b) l ->
  fold_left f l a = fold_left g l a.
Proof.
  intros H. revert a. induction H as [|b l Hb Hl IH]; intros a; simpl; auto.
  now rewrite Hb, IH.
Qed.

Section MetricFacts.

Variable lib : Library.

Lemma visited_leaf (e : Element) (pp : string) :
  children e = [] -> visited e pp = [].
Proof. destruct e as [t a x cs]. simpl. now intros ->. Qed.

Lemma extract_metrics_visited (e : Element) :
  forall (pp : string) (md : dict),
    extract_metrics lib e pp md
    = fold_left (record_visit lib) (visited e pp) md.
Proof.
  induction e as [t a x cs IH] using Element_tree_ind. intros pp md.
  cbn [extract_metrics visited children].
  rewrite fold_left_flat_map. apply fold_left_ext_Forall.
  eapply Forall_impl; [|exact IH]. intros c Hc acc. cbn [fold_left].
  unfold record_visit at 2. cbn [fst snd].
  destruct (children c) eqn:E.
  - now rewrite (visited_leaf c _ E).
  - apply Hc.
Qed.

Lemma visited_descendants (e : Element) :
  forall pp : string,
    visited e pp
    = map (fun pe => (fold_left metric_path_of (fst pe) pp, snd pe))
          (descendants e).
Proof.
  induction e as [t a x cs IH] using Element_tree_ind. intros pp.
  cbn [visited descendants].
  induction IH as [|c cs Hc Hcs IHcs]; [reflexivity|].
  cbn [flat_map]. rewrite map_app, <- IHcs. f_equal.
  cbn [map fst snd fold_left]. f_equal.
  rewrite Hc, map_map. reflexivity.
Qed.

Lemma record_visit_keeps (k : string) (v : value) (pc : string * Element)
    (md : dict) :
  dict_get k md = Some v ->
  exists v', dict_get k (record_visit lib md pc) = Some v'.
Proof.
  intros H. unfold record_visit, record_metric.
  destruct (stripped_text (snd pc)); [|eauto].
  destruct (float_of_string lib s); [|eauto].
  destruct (String.eqb k ("metric_name:" ++ fst pc)) eqn:E.
  - apply String.eqb_eq in E. subst k. rewrite dict_get_set_same. eauto.
  - rewrite dict_get_set_other; eauto.
    intro; subst. rewrite String.eqb_refl in E. discriminate.
Qed.

Lemma fold_visit_keeps (k : string) (l : list (string * Element)) :
  forall (md : dict) (v : value),
    dict_get k md = Some v ->
    exists v', dict_get k (fold_left (record_visit lib) l md) = Some v'.
Proof.
  induction l as [|pc l IH]; intros md v H; simpl; eauto.
  destruct (record_visit_keeps k v pc md H) as [v' H']. eauto.
Qed.

(** A metric that the walk leaves behind was there before or is the float
    of a visited element. *)
Lemma fold_visit_sound (k : string) (l : list (string * Element)) :
  forall (md : dict) (v : value),
    dict_get k (fold_left (record_visit lib) l md) = Some v ->
    dict_get k md = Some v
    \/ exists (mp : string) (c : Element) (x : float),
         In (mp, c) l /\ numeric_text lib c x
         /\ k = "metric_name:" ++ mp /\ v = VFloat x.
Proof.
  induction l as [|[mp c] l IH]; intros md v H; simpl in *; auto.
  apply IH in H. destruct H as [H|[mp' [c' [x [Hin Hrest]]]]].
  - unfold record_visit, record_metric in H. cbn [fst snd] in H.
    destruct (stripped_text c) as [t|] eqn:T; auto.
    destruct (float_of_string lib t) as [x|] eqn:F; auto.
    destruct (String.eqb k ("metric_name:" ++ mp)) eqn:E.
    + apply String.eqb_eq in E. subst k. rewrite dict_get_set_same in H.
      inversion H; subst. right. exists mp, c, x.
      repeat split; auto. exists t. auto.
    + rewrite dict_get_set_other in H; auto.
      intro; subst. rewrite String.eqb_refl in E. discriminate.
  - right. exists mp', c', x. tauto.
Qed.

Lemma fold_visit_complete (l : list (string * Element)) :
  forall (md : dict) (mp : string) (c : Element) (x : float),
    In (mp, c) l -> numeric_text lib c x ->
    exists v, dict_get ("metric_name:" ++ mp)
                       (fold_left (record_visit lib) l md) = Some v.
Proof.
  induction l as [|pc l IH]; intros md mp c x Hin Hnum; simpl in *;
    [contradiction|].
  destruct Hin as [->|Hin]; [|eauto].
  destruct Hnum as [t [T F]].
  apply (fold_visit_keeps _ l _ (VFloat x)).
  unfold record_visit, record_metric. cbn [fst snd]. rewrite T, F.
  apply dict_get_set_same.
Qed.

End MetricFacts.

Lemma append_assoc (a b c : string) : (a ++ b) ++ c = a ++ (b ++ c).
Proof. induction a; simpl; congruence. Qed.

Lemma fold_metric_path_join (tags : list string) :
  forall pp : string,
    PyStr.truthy pp = true ->
    fold_left metric_path_of tags pp = PyStr.join "." (pp :: tags).
Proof.
  induction tags as [|t ts IH]; intros pp Hpp; [reflexivity|].
  cbn [fold_left]. unfold metric_path_of at 2. rewrite Hpp.
  rewrite IH by (destruct pp; [discriminate | reflexivity]).
  cbn [PyStr.join]. destruct ts; [reflexivity|].
  now rewrite !append_assoc.
Qed.

Lemma descendants_first_tag (e : Element) (tags : list string) (d : Element) :
  In (tags, d) (descendants e) ->
  exists (c : Element) (rest : list string),
    In c (children e) /\ tags = tag c :: rest.
Proof.
  destruct e as [t a x cs]. cbn [descendants children]. intros H.
  apply in_flat_map in H. destruct H as [c [Hc H]]. exists c.
  destruct H as [H|H].
  - inversion H; subst. eauto.
  - apply in_map_iff in H. destruct H as [[ts d'] [H _]].
    inversion H; subst. eauto.
Qed.

Lemma visited_path_is_dotted (root : Element) (tags : list string)
    (e : Element) :
  Forall (fun c => tag c <> "") (children root) ->
  In (tags, e) (descendants root) ->
  fold_left metric_path_of tags "" = PyStr.join "." tags.
Proof.
  intros Hwf Hin.
  destruct (descendants_first_tag root tags e Hin) as [c [rest [Hc ->]]].
  rewrite Forall_forall in Hwf. specialize (Hwf c Hc).
  cbn [fold_left]. unfold metric_path_of at 2. cbn [PyStr.truthy].
  apply fold_metric_path_join. destruct (tag c); [congruence | reflexivity].
Qed.

(** C5.  For a document that parses, with non-empty tags below the root,
    [xml_to_metrics] holds an entry for a dotted path exactly when an
    element at that path (the root's tag left out) has a trimmed text that
    [float] reads; the value of an entry is the float of such an element;
    elements below one that is not numeric are visited all the same; the
    mapping holds nothing but the endpoint, the host and metrics, and the
    text of the root itself is never an entry. *)
Theorem metric_entries_are_numeric_elements (lib : Library)
    (xml_text endpoint_name host : string) (root : Element) :
  fromstring lib xml_text = Ok root ->
  Forall (fun c => tag c <> "") (children root) ->
  exists metrics_data : dict,
    xml_to_metrics lib xml_text endpoint_name host = Ok metrics_data
    /\ (forall dotted : string,
           dict_mem ("metric_name:" ++ dotted) metrics_data = true
           <-> exists (tags : list string) (e : Element) (x : float),
                 In (tags, e) (descendants root)
                 /\ PyStr.join "." tags = dotted
                 /\ numeric_text lib e x)
    /\ (forall (dotted : string) (v : value),
           dict_get ("metric_name:" ++ dotted) metrics_data = Some v ->
           exists (tags : list string) (e : Element) (x : float),
             In (tags, e) (descendants root)
             /\ PyStr.join "." tags = dotted
             /\ numeric_text lib e x
             /\ v = VFloat x)
    /\ (forall k : string,
           dict_mem k metrics_data = true ->
           k = "endpoint" \/ k = "host"
           \/ exists dotted : string, k = "metric_name:" ++ dotted)
    /\ dict_mem ("metric_name:" ++ "") metrics_data = false.
Proof.
  intros Hparse Hwf. unfold xml_to_metrics. rewrite Hparse.
  eexists. split; [reflexivity|].
  rewrite extract_metrics_visited, visited_descendants.
  set (md0 := [("endpoint", VStr endpoint_name); ("host", VStr host)]).
  assert (Hsound :
    forall (dotted : string) (v : value),
      dict_get ("metric_name:" ++ dotted)
        (fold_left (record_visit lib)
           (map (fun pe => (fold_left metric_path_of (fst pe) "", snd pe))
                (descendants root)) md0) = Some v ->
      exists (tags : list string) (e : Element) (x : float),
        In (tags, e) (descendants root)
        /\ PyStr.join "." tags = dotted /\ numeric_text lib e x /\ v = VFloat x).
  { intros dotted v H. apply fold_visit_sound in H.
    destruct H as [H|[mp [c [x [Hin [Hnum [Hk Hv]]]]]]].
    - discriminate H.
    - apply in_map_iff in Hin. destruct Hin as [[tags e] [Heq Hin]].
      cbn [fst snd] in Heq. inversion Heq; subst mp c.
      exists tags, e, x. repeat split; auto.
      rewrite <- (visited_path_is_dotted root tags e Hwf Hin).
      now inversion Hk. }
  repeat split.
  - unfold dict_mem.
    destruct (dict_get ("metric_name:" ++ dotted) _) as [v|] eqn:G;
      [|discriminate].
    intros _. destruct (Hsound dotted v G) as [tags [e [x [H1 [H2 [H3 _]]]]]].
    exists tags, e, x. auto.
  - intros [tags [e [x [Hin [Hpath Hnum]]]]]. unfold dict_mem.
    destruct (fold_visit_complete lib
                (map (fun pe => (fold_left metric_path_of (fst pe) "", snd pe))
                     (descendants root))
                md0 (fold_left metric_path_of tags "") e x) as [v Hv]; auto.
    + apply in_map_iff. exists (tags, e). auto.
    + rewrite (visited_path_is_dotted root tags e Hwf Hin), Hpath in Hv.
      now rewrite Hv.
  - exact Hsound.
  - intros k. unfold dict_mem.
    destruct (dict_get k _) as [v|] eqn:G; [|discriminate]. intros _.
    apply fold_visit_sound in G.
    destruct G as [G|[mp [c [x [_ [_ [Hk _]]]]]]].
    + unfold md0 in G. cbn [dict_get] in G.
      destruct (String.eqb k "endpoint") eqn:E1.
      * apply String.eqb_eq in E1. auto.
      * destruct (String.eqb k "host") eqn:E2; [|discriminate].
        apply String.eqb_eq in E2. auto.
    + right. right. eauto.
  - unfold dict_mem.
    destruct (dict_get ("metric_name:" ++ "") _) as [v|] eqn:G; [|reflexivity].
    destruct (Hsound "" v G) as [tags [e [x [Hin [Hjoin _]]]]].
    destruct (descendants_first_tag root tags e Hin) as [c [rest [Hc ->]]].
    rewrite Forall_forall in Hwf. specialize (Hwf c Hc).
    exfalso. apply Hwf. cbn [PyStr.join] in Hjoin.
    destruct rest; destruct (tag c); auto; discriminate.
Qed.

Lemma metric_entries_are_numeric_elements_witness :
  let doc := "<r><cpu>15</cpu><name>fw1</name><mem><used>62</used></mem></r>" in
  let root :=
    mkElement "r" [] None
      [mkElement "cpu" [] (Some "15") [];
       mkElement "name" [] (Some "fw1") [];
       mkElement "mem" [] None [mkElement "used" [] (Some "62") []]] in
  fromstring Demo.lib doc = Ok root
  /\ Forall (fun c => tag c <> "") (children root)
  /\ xml_to_metrics Demo.lib doc "system" "10.0.0.5"
     = Ok [("endpoint", VStr "system"); ("host", VStr "10.0.0.5");
           ("metric_name:cpu", VFloat 15); ("metric_name:mem.used", VFloat 62)]
  /\ exists metrics_data : dict,
       xml_to_metrics Demo.lib doc "system" "10.0.0.5" = Ok metrics_data
       /\ (forall dotted : string,
              dict_mem ("metric_name:" ++ dotted) metrics_data = true
              <-> exists (tags : list string) (e : Element) (x : float),
                    In (tags, e) (descendants root)
                    /\ PyStr.join "." tags = dotted
                    /\ numeric_text Demo.lib e x)
       /\ (forall (dotted : string) (v : value),
              dict_get ("metric_name:" ++ dotted) metrics_data = Some v ->
              exists (tags : list string) (e : Element) (x : float),
                In (tags, e) (descendants root)
                /\ PyStr.join "." tags = dotted
                /\ numeric_text Demo.lib e x
                /\ v = VFloat x)
       /\ (forall k : string,
              dict_mem k metrics_data = true ->
              k = "endpoint" \/ k = "host"
              \/ exists dotted : string, k = "metric_name:" ++ dotted)
       /\ dict_mem ("metric_name:" ++ "") metrics_data = false.
Proof.
  intros doc root.
  assert (Hwf : Forall (fun c => tag c <> "") (children root)).
  { repeat constructor; discriminate. }
  split; [reflexivity|]. split; [exact Hwf|]. split; [reflexivity|].
  exact (metric_entries_are_numeric_elements Demo.lib doc "system" "10.0.0.5"
           root eq_refl Hwf).
Defined.

(** ** The severity filter *)

Lemma high_priority_spec (severity : string) :
  high_priority severity
  = (String.eqb (PyStr.lower severity) "high"
     || String.eqb (PyStr.lower severity) "critical").
Proof. unfold high_priority. simpl. now rewrite orb_false_r. Qed.

Lemma entries_loop_filter (host : option string) (entries : list Element) :
  forall event_list : list value,
    entries_loop host entries event_list
    = (event_list ++ map (record_of host) (filter kept entries))%list.
Proof.
  induction entries as [|entry rest IH]; intros event_list.
  - simpl. now rewrite List.app_nil_r.
  - cbn [entries_loop filter]. unfold kept at 1.
    rewrite <- high_priority_spec.
    destruct (ET.attrib_get "logid" (attrib entry)) as [logid|] eqn:L;
      [|apply IH].
    destruct (PyStr.truthy logid); cbn [negb andb]; [|apply IH].
    destruct (high_priority (ET.findtext "severity" "" entry)); [|apply IH].
    rewrite IH. cbn [map]. unfold record_of at 2. rewrite L.
    now rewrite <- List.app_assoc.
Qed.

(** C2.  The loop over the entries of a finished job appends, in order,
    one record for each entry that has a non-empty [logid] and a severity
    equal to [high] or [critical] once lowercased, and nothing for any
    other entry: an entry whose severity is [medium], [low] or
    [informational], or that has no severity element, or no [logid], is
    dropped. *)
Theorem entry_kept_iff_high_priority (host : option string) :
  (forall (entries : list Element) (event_list : list value),
      entries_loop host entries event_list
      = (event_list ++ map (record_of host) (filter kept entries))%list)
  /\
  (forall entry : Element,
      kept entry = true <->
      exists logid : string,
        ET.attrib_get "logid" (attrib entry) = Some logid
        /\ logid <> ""
        /\ (PyStr.lower (ET.findtext "severity" "" entry) = "high"
            \/ PyStr.lower (ET.findtext "severity" "" entry) = "critical"))
  /\
  (forall entry : Element,
      In (PyStr.lower (ET.findtext "severity" "" entry))
         ["medium"; "low"; "informational"] ->
      kept entry = false)
  /\
  (forall entry : Element,
      ET.children_tag "severity" entry = [] -> kept entry = false)
  /\
  (forall entry : Element,
      ET.attrib_get "logid" (attrib entry) = None -> kept entry = false).
Proof.
  split; [intros; apply entries_loop_filter|].
  split; [|split; [|split]].
  - intros entry. unfold kept.
    destruct (ET.attrib_get "logid" (attrib entry)) as [logid|].
    + rewrite andb_true_iff, orb_true_iff, !String.eqb_eq. split.
      * intros [Ht Hs]. exists logid. repeat split; auto.
        intro; subst; discriminate.
      * intros [l [Hl [Hne Hs]]]. inversion Hl; subst l. split; auto.
        destruct logid; [congruence | reflexivity].
    + split; [discriminate|]. intros [l [Hl _]]. discriminate.
  - intros entry Hin. unfold kept.
    destruct (ET.attrib_get "logid" (attrib entry)); auto.
    simpl in Hin. destruct Hin as [H|[H|[H|[]]]]; rewrite <- H;
      simpl; apply andb_false_r.
  - intros entry Hnone. unfold kept, ET.findtext. rewrite Hnone.
    destruct (ET.attrib_get "logid" (attrib entry)); auto.
    simpl. apply andb_false_r.
  - intros entry Hnone. unfold kept. now rewrite Hnone.
Qed.

Lemma entry_kept_iff_high_priority_witness :
  let high := Demo.entry_of "1" "High" in
  let low := Demo.entry_of "2" "Low" in
  entries_loop (Some "10.0.0.5") [high; low] []
  = [record_of (Some "10.0.0.5") high]
  /\ kept high = true
  /\ In (PyStr.lower (ET.findtext "severity" "" low))
        ["medium"; "low"; "informational"]
  /\ kept low = false
  /\ ET.children_tag "severity" (mkElement "entry" [("logid", "3")] None []) = []
  /\ kept (mkElement "entry" [("logid", "3")] None []) = false
  /\ ET.attrib_get "logid" (attrib (mkElement "entry" [] None [])) = None
  /\ kept (mkElement "entry" [] None []) = false.
Proof.
  intros high low.
  destruct (entry_kept_iff_high_priority (Some "10.0.0.5"))
    as [H1 [H2 [H3 [H4 H5]]]].
  assert (Hlow : In (PyStr.lower (ET.findtext "severity" "" low))
                    ["medium"; "low"; "informational"]).
  { right. left. reflexivity. }
  split; [exact (H1 [high; low] [])|].
  split; [reflexivity|]. split; [exact Hlow|].
  split; [exact (H3 low Hlow)|]. split; [reflexivity|].
  split; [exact (H4 (mkElement "entry" [("logid", "3")] None []) eq_refl)|].
  split; [reflexivity|].
  exact (H5 (mkElement "entry" [] None []) eq_refl).
Defined.

(** ** The polling of a job *)

Lemma later_refl (w : world) : later w w.
Proof.
  unfold later. repeat split. exists []. now rewrite List.app_nil_r.
Qed.

Lemma later_trans (w1 w2 w3 : world) :
  later w1 w2 -> later w2 w3 -> later w1 w3.
Proof.
  unfold later.
  intros [A1 [A2 [A3 [A4 [A5 [l1 A6]]]]]] [B1 [B2 [B3 [B4 [B5 [l2 B6]]]]]].
  repeat split; try congruence.
  exists (l1 ++ l2)%list. rewrite B6, A6. now rewrite List.app_assoc.
Qed.

Lemma later_logging_works (w w' : world) :
  later w w' -> logging_works w -> logging_works w'.
Proof.
  intros [_ [_ [_ [_ [H _]]]]] Hw lvl msg. rewrite H. apply Hw.
Qed.

Lemma later_reply (lib : Library) (w w' : world) (h : list string)
    (url : string) :
  later w w' -> reply lib w' h url = reply lib w h url.
Proof. intros [H _]. unfold reply. now rewrite H. Qed.

Lemma later_logged (w w' : world) (r : level * string) :
  later w w' -> In r (logged w) -> In r (logged w').
Proof.
  intros [_ [_ [_ [_ [_ [l H]]]]]] Hin. rewrite H. apply in_or_app. now left.
Qed.

Lemma logger_log_ok (lvl : level) (msg : string) (w : world) :
  logging_works w ->
  logger_log lvl msg w
  = (Ok tt, set_logged (logged w ++ [(lvl, msg)])%list w).
Proof. intros H. unfold logger_log. now rewrite H. Qed.

Lemma later_set_logged (w : world) (l : list (level * string)) :
  later w (set_logged (logged w ++ l)%list w).
Proof. unfold later. repeat split. now exists l. Qed.

Lemma later_set_requested (w : world) (r : list string) :
  later w (set_requested r w).
Proof.
  unfold later. repeat split. exists []. simpl. now rewrite List.app_nil_r.
Qed.

Lemma later_set_sleeps (w : world) (n : nat) : later w (set_sleeps n w).
Proof.
  unfold later. repeat split. exists []. simpl. now rewrite List.app_nil_r.
Qed.

Lemma repeat_snoc {A : Type} (x : A) (n : nat) :
  (repeat x n ++ [x])%list = repeat x (S n).
Proof. induction n; simpl in *; congruence. Qed.

Section PollingFacts.

Variable lib : Library.
Variables (url : string) (host job_id : option string).

Lemma reply_inv (w : world) (h : list string) (doc : Element) :
  reply lib w h url = Some doc ->
  exists body, device w h url = Ok body /\ fromstring lib body = Ok doc.
Proof.
  unfold reply. destruct (device w h url) as [body|]; [|discriminate].
  destruct (fromstring lib body) eqn:E; [|discriminate].
  intros H. inversion H; subst. eauto.
Qed.

(** A poll answered with another status: one request, one debug record,
    one sleep, and the loop goes on. *)
Lemma poll_job_pending_step (n : nat) (acc : list value) (w : world)
    (doc : Element) :
  logging_works w ->
  reply lib w (requested w) url = Some doc ->
  is_FIN (ET.findtext_job_status doc) = false ->
  exists w' : world,
    poll_job lib (S n) url host job_id acc w
    = poll_job lib n url host job_id acc w'
    /\ later w w'
    /\ requested w' = (requested w ++ [url])%list.
Proof.
  intros Hlog Hreply Hfin.
  destruct (reply_inv w _ doc Hreply) as [body [Hdev Hparse]].
  cbn [poll_job]. unfold bind at 1. unfold requests_get. rewrite Hdev.
  unfold bind at 1. unfold of_result. rewrite Hparse. rewrite Hfin.
  unfold bind at 1. rewrite logger_log_ok.
  2:{ eapply later_logging_works; [apply later_set_requested | exact Hlog]. }
  unfold bind at 1. unfold time_sleep.
  eexists. split; [reflexivity|]. split; [|reflexivity].
  eapply later_trans; [apply later_set_requested|].
  eapply later_trans; [apply later_set_logged|]. apply later_set_sleeps.
Qed.

Lemma pending_shift (w w' : world) (c : nat) :
  later w w' ->
  requested w' = (requested w ++ [url])%list ->
  pending lib w (requested w) url (S c) ->
  pending lib w' (requested w') url c.
Proof.
  intros Hl Hr Hp i Hi. destruct (Hp (S i)) as [doc [H1 H2]]; [lia|].
  exists doc. split; auto. rewrite (later_reply lib w w') by assumption.
  rewrite Hr, <- List.app_assoc. exact H1.
Qed.

Lemma poll_job_pending (c : nat) :
  forall (n : nat) (acc : list value) (w : world),
    logging_works w ->
    pending lib w (requested w) url c ->
    exists w' : world,
      poll_job lib (c + n) url host job_id acc w
      = poll_job lib n url host job_id acc w'
      /\ later w w'
      /\ requested w' = (requested w ++ repeat url c)%list.
Proof.
  induction c as [|c IH]; intros n acc w Hlog Hp.
  - exists w. split; [reflexivity|]. split; [apply later_refl|].
    simpl. now rewrite List.app_nil_r.
  - destruct (Hp 0) as [doc [Hreply Hfin]]; [lia|].
    simpl in Hreply. rewrite List.app_nil_r in Hreply.
    destruct (poll_job_pending_step (c + n) acc w doc Hlog Hreply Hfin)
      as [w1 [Heq [Hl1 Hr1]]].
    destruct (IH n acc w1) as [w2 [Heq2 [Hl2 Hr2]]].
    + eapply later_logging_works; eauto.
    + eapply pending_shift; eauto.
    + exists w2. split; [|split].
      * cbn [Nat.add]. now rewrite Heq.
      * eapply later_trans; eauto.
      * rewrite Hr2, Hr1, <- List.app_assoc. reflexivity.
Qed.

(** A poll answered with [FIN]: the kept entries are appended and the loop
    stops. *)
Lemma poll_job_fin (n : nat) (acc : list value) (w : world) (doc : Element) :
  logging_works w ->
  reply lib w (requested w) url = Some doc ->
  is_FIN (ET.findtext_job_status doc) = true ->
  exists w' : world,
    poll_job lib (S n) url host job_id acc w
    = (Ok (acc ++ kept_records host doc)%list, w')
    /\ later w w'
    /\ requested w' = (requested w ++ [url])%list.
Proof.
  intros Hlog Hreply Hfin.
  destruct (reply_inv w _ doc Hreply) as [body [Hdev Hparse]].
  cbn [poll_job]. unfold bind at 1. unfold requests_get. rewrite Hdev.
  unfold bind at 1. unfold of_result. rewrite Hparse. rewrite Hfin.
  assert (H1 : logging_works (set_requested (requested w ++ [url])%list w)).
  { eapply later_logging_works; [apply later_set_requested | exact Hlog]. }
  unfold bind at 1. rewrite logger_log_ok by exact H1.
  unfold bind at 1. rewrite logger_log_ok.
  2:{ eapply later_logging_works; [apply later_set_logged | exact H1]. }
  unfold ret. rewrite entries_loop_filter.
  eexists. split; [reflexivity|]. split; [|reflexivity].
  eapply later_trans; [apply later_set_requested|].
  eapply later_trans; apply later_set_logged.
Qed.

(** The [else] of the loop: a warning, and the list as it was. *)
Lemma poll_job_exhausted (acc : list value) (w : world) :
  logging_works w ->
  exists w' : world,
    poll_job lib 0 url host job_id acc w = (Ok acc, w')
    /\ later w w'
    /\ requested w' = requested w
    /\ In (WARNING,
           "Job " ++ PyStr.str_of_option job_id
           ++ " did not complete within timeout") (logged w').
Proof.
  intros Hlog. cbn [poll_job]. unfold bind. rewrite logger_log_ok by exact Hlog.
  eexists. split; [reflexivity|]. split; [apply later_set_logged|].
  split; [reflexivity|]. simpl. apply in_or_app. right. now left.
Qed.

Lemma poll_job_follows (o : outcome) (acc : list value) (w : world) :
  logging_works w ->
  follows lib w (requested w) url o ->
  exists w' : world,
    poll_job lib 11 url host job_id acc w
    = (Ok (acc ++ contribution host o)%list, w')
    /\ later w w'
    /\ requested w' = (requested w ++ repeat url (polls o))%list
    /\ (o = Stalled ->
        In (WARNING,
            "Job " ++ PyStr.str_of_option job_id
            ++ " did not complete within timeout") (logged w')).
Proof.
  intros Hlog Hf. destruct o as [c doc|]; cbn [follows polls contribution] in *.
  - destruct Hf as [Hc [Hp [Hreply Hfin]]].
    destruct (poll_job_pending c (11 - c) acc w Hlog Hp) as [w1 [Heq [Hl1 Hr1]]].
    replace (c + (11 - c)) with 11 in Heq by lia.
    destruct (11 - c) as [|n] eqn:E; [lia|].
    destruct (poll_job_fin n acc w1 doc) as [w2 [Heq2 [Hl2 Hr2]]].
    + eapply later_logging_works; eauto.
    + rewrite (later_reply lib w w1), Hr1 by assumption. exact Hreply.
    + exact Hfin.
    + exists w2. split; [congruence|]. split; [eapply later_trans; eauto|].
      split; [|discriminate].
      rewrite Hr2, Hr1, <- List.app_assoc. now rewrite repeat_snoc.
  - destruct (poll_job_pending 11 0 acc w Hlog Hf) as [w1 [Heq [Hl1 Hr1]]].
    destruct (poll_job_exhausted acc w1) as [w2 [Heq2 [Hl2 [Hr2 Hw]]]].
    + eapply later_logging_works; eauto.
    + exists w2. rewrite List.app_nil_r. split; [cbn [Nat.add] in Heq; congruence|].
      split; [eapply later_trans; eauto|]. split; [congruence|]. auto.
Qed.

(** Whatever the devices and the logger do, a job is polled at most as
    many times as the loop has attempts. *)
Lemma poll_job_bound (n : nat) :
  forall (acc : list value) (w : world),
    exists k : nat,
      k <= n
      /\ requested (snd (poll_job lib n url host job_id acc w))
         = (requested w ++ repeat url k)%list.
Proof.
  induction n as [|n IH]; intros acc w.
  - exists 0. split; [lia|]. cbn [poll_job]. unfold bind, logger_log, ret.
    destruct (log_fault w _ _); simpl; now rewrite List.app_nil_r.
  - cbn [poll_job]. unfold bind at 1. unfold requests_get.
    destruct (device w (requested w) url) as [body|e].
    2:{ exists 1. split; [lia|]. reflexivity. }
    unfold bind at 1. unfold of_result.
    destruct (fromstring lib body) as [doc|e].
    2:{ exists 1. split; [lia|]. reflexivity. }
    destruct (is_FIN (ET.findtext_job_status doc)).
    + exists 1. split; [lia|]. unfold bind, logger_log, ret.
      repeat (cbn [log_fault set_requested set_logged];
              match goal with
              | |- context [match log_fault w ?l ?m with _ => _ end] =>
                  destruct (log_fault w l m)
              end); reflexivity.
    + unfold bind at 1. unfold logger_log at 1. cbn [log_fault set_requested].
      match goal with
      | |- context [match log_fault w ?l ?m with _ => _ end] =>
          destruct (log_fault w l m)
      end.
      { exists 1. split; [lia|]. reflexivity. }
      unfold bind at 1. unfold time_sleep.
      match goal with
      | |- context [poll_job lib n url host job_id acc ?w1] =>
          destruct (IH acc w1) as [k [Hk Hr]]; exists (S k);
          split; [lia|]; rewrite Hr
      end.
      cbn [requested set_sleeps set_logged set_requested].
      rewrite <- List.app_assoc. reflexivity.
Qed.

End PollingFacts.

Lemma all_follow_later (lib : Library) (w w' : world)
    (runs : list (string * outcome)) :
  later w w' ->
  forall h : list string,
    all_follow lib w h runs -> all_follow lib w' h runs.
Proof.
  intros Hl. induction runs as [|[url o] rest IH]; intros h H; [exact I|].
  cbn [all_follow] in *. destruct H as [H1 H2]. split; [|now apply IH].
  destruct o as [c doc|]; cbn [follows] in *.
  - destruct H1 as [Hc [Hp [Hr Hfin]]]. repeat split; auto.
    + intros i Hi. destruct (Hp i Hi) as [d [A B]]. exists d.
      split; auto. now rewrite (later_reply lib w w').
    + now rewrite (later_reply lib w w').
  - intros i Hi. destruct (H1 i Hi) as [d [A B]]. exists d.
    split; auto. now rewrite (later_reply lib w w').
Qed.

Section StrategyFacts.

Variable lib : Library.
Variables (base_url apikey : string) (host : option string).

Lemma jobs_loop_follow (runs : list (option string * outcome)) :
  forall (acc : list value) (w : world),
    logging_works w ->
    all_follow lib w (requested w)
      (map (fun r => (report_url_of base_url apikey (fst r), snd r)) runs) ->
    exists w' : world,
      jobs_loop lib base_url apikey host (map fst runs) acc w
      = (Ok (acc ++ flat_map (fun r => contribution host (snd r)) runs)%list,
         w')
      /\ later w w'
      /\ requested w' = (requested w ++ poll_requests base_url apikey runs)%list
      /\ forall job_id : option string,
           In (job_id, Stalled) runs -> In (timeout_warning job_id) (logged w').
Proof.
  induction runs as [|[job_id o] rest IH]; intros acc w Hlog Hall.
  - exists w. simpl. rewrite !List.app_nil_r.
    split; [reflexivity|]. split; [apply later_refl|].
    split; [reflexivity|]. contradiction.
  - cbn [map all_follow fst snd] in Hall. destruct Hall as [Hf Hrest].
    cbn [map fst jobs_loop]. unfold bind at 1.
    rewrite logger_log_ok by exact Hlog.
    set (w0 := set_logged _ w).
    assert (Hl0 : later w w0) by apply later_set_logged.
    assert (Hlog0 : logging_works w0) by (eapply later_logging_works; eauto).
    destruct (poll_job_follows lib (report_url_of base_url apikey job_id)
                host job_id o acc w0 Hlog0) as [w1 [Heq [Hl1 [Hr1 Hw1]]]].
    { exact Hf. }
    unfold bind at 1. rewrite Heq.
    destruct (IH (acc ++ contribution host o)%list w1) as [w2 [Heq2 [Hl2 [Hr2 Hw2]]]].
    { eapply later_logging_works; eauto. }
    { rewrite Hr1. apply (all_follow_later lib w w1).
      - eapply later_trans; eauto.
      - exact Hrest. }
    exists w2. split; [|split; [|split]].
    + rewrite Heq2. cbn [flat_map snd]. now rewrite List.app_assoc.
    + eapply later_trans; [exact Hl0|]. eapply later_trans; eauto.
    + rewrite Hr2, Hr1. unfold poll_requests. cbn [flat_map fst snd].
      now rewrite <- List.app_assoc.
    + intros j [Hj|Hj].
      * inversion Hj; subst. eapply later_logged; [exact Hl2|]. now apply Hw1.
      * now apply Hw2.
Qed.

End StrategyFacts.

Lemma contribution_projected (host : option string) (o : outcome) :
  contribution host o = projected_records host o.
Proof.
  destruct o as [c doc|]; [|reflexivity].
  cbn [contribution projected_records]. unfold kept_records.
  apply map_ext. intros entry. reflexivity.
Qed.

(** C1.  Take a submission answered with the document [root], whose job
    identifiers are polled with the outcomes [runs]: each job either gets
    [FIN] at one of its 11 polls or 11 answers without [FIN].  If the url
    parses, no request and no logging call fails, and the capitalised
    subtypes of the kept entries are texts of the model, the strategy
    returns, in the order of the jobs and of the entries, one record for
    each kept entry of the jobs that finished - the time of the entry, the
    label [warn], the host of the url and the message of the entry - and
    nothing else; it polls each job as often as its outcome says, at most
    11 times; and for a job that did not finish it logs a warning, adds no
    record, and goes on with the next job.  Whatever the devices answer,
    the loop of a job makes at most 11 requests. *)
Theorem stalled_jobs_contribute_nothing (lib : Library)
    (api_url endpoint_name apikey : string) (w : world)
    (parsed_url : ParseResult) (root : Element)
    (runs : list (option string * outcome)) :
  let base_url := base_url_of parsed_url in
  let host := hostname parsed_url in
  let submit_url :=
    threat_query_url_of lib base_url apikey
      (query_time_str_of lib (utcnow w)) in
  logging_works w ->
  urlparse lib api_url = Ok parsed_url ->
  query_key (parse_qs lib (query parsed_url)) = Ok apikey ->
  reply lib w (requested w) submit_url = Some root ->
  map fst runs = map text (ET.iter_tag "job" root) ->
  all_follow lib w (requested w ++ [submit_url])%list
    (map (fun r => (report_url_of base_url apikey (fst r), snd r)) runs) ->
  Forall (fun r => subtypes_in_model (snd r)) runs ->
  (exists w' : world,
      custom_GET_api_threat_traffic lib api_url endpoint_name w
      = (Ok (flat_map (fun r => projected_records host (snd r)) runs), w')
      /\ requested w'
         = (requested w ++ submit_url :: poll_requests base_url apikey runs)%list
      /\ Forall (fun r => polls (snd r) <= 11) runs
      /\ forall job_id : option string,
           In (job_id, Stalled) runs ->
           In (timeout_warning job_id) (logged w'))
  /\
  (forall (url : string) (job_id : option string) (acc : list value)
          (w0 : world),
      exists k : nat,
        k <= 11
        /\ requested (snd (poll_job lib 11 url host job_id acc w0))
           = (requested w0 ++ repeat url k)%list).
Proof.
  intros base_url host submit_url Hlog Hurl Hkey Hreply Hjobs Hall _.
  split; [|intros; apply poll_job_bound].
  destruct (reply_inv lib submit_url w _ root Hreply) as [body [Hdev Hparse]].
  unfold custom_GET_api_threat_traffic.
  unfold bind at 1. rewrite logger_log_ok by exact Hlog.
  set (w1 := set_logged _ w).
  unfold bind at 1. unfold of_result at 1. rewrite Hurl.
  fold base_url. fold host.
  unfold bind at 1. unfold of_result at 1. rewrite Hkey.
  assert (Hlog1 : logging_works w1).
  { eapply later_logging_works; [apply later_set_logged | exact Hlog]. }
  unfold bind at 1. rewrite logger_log_ok by exact Hlog1.
  set (w2 := set_logged _ w1).
  assert (Hlog2 : logging_works w2).
  { eapply later_logging_works; [apply later_set_logged | exact Hlog1]. }
  unfold try_except.
  unfold bind at 1. unfold datetime_now.
  change (utcnow w2) with (utcnow w). fold submit_url.
  unfold bind at 1. rewrite logger_log_ok by exact Hlog2.
  set (w3 := set_logged _ w2).
  assert (Hlog3 : logging_works w3).
  { eapply later_logging_works; [apply later_set_logged | exact Hlog2]. }
  unfold bind at 1. unfold requests_get.
  change (device w3) with (device w). change (requested w3) with (requested w).
  rewrite Hdev.
  set (w4 := set_requested _ w3).
  assert (Hlog4 : logging_works w4).
  { eapply later_logging_works; [apply later_set_requested | exact Hlog3]. }
  unfold bind at 1. unfold of_result at 1. rewrite Hparse.
  unfold bind at 1. rewrite logger_log_ok by exact Hlog4.
  set (w5 := set_logged _ w4).
  assert (Hlog5 : logging_works w5).
  { eapply later_logging_works; [apply later_set_logged | exact Hlog4]. }
  rewrite <- Hjobs.
  destruct (jobs_loop_follow lib base_url apikey host runs [] w5 Hlog5)
    as [w6 [Heq [Hl6 [Hr6 Hw6]]]].
  { apply (all_follow_later lib w w5); [|exact Hall].
    apply (later_trans w w1); [apply later_set_logged|].
    apply (later_trans w1 w2); [apply later_set_logged|].
    apply (later_trans w2 w3); [apply later_set_logged|].
    apply (later_trans w3 w4); [apply later_set_requested|].
    apply later_set_logged. }
  unfold bind at 1. rewrite Heq. cbn [app].
  unfold bind at 1. rewrite logger_log_ok
    by (eapply later_logging_works; eauto).
  unfold ret.
  rewrite (flat_map_ext _ _ (fun r => contribution_projected host (snd r))).
  eexists. split; [reflexivity|].
  split; [|split].
  - cbn [requested set_logged]. rewrite Hr6.
    change (requested w5) with (requested w ++ [submit_url])%list.
    now rewrite <- List.app_assoc.
  - clear - Hall. revert Hall.
    generalize (requested w ++ [submit_url])%list.
    induction runs as [|[j o] rest IH]; intros h H; constructor.
    + cbn [map all_follow fst snd] in H. destruct H as [H _].
      destruct o as [c doc|]; cbn [follows polls snd] in *; [|lia].
      destruct H as [Hc _]. lia.
    + cbn [map all_follow fst snd] in H. destruct H as [_ H]. eauto.
  - intros job_id Hin. cbn [logged set_logged].
    apply in_or_app. left. now apply Hw6.
Qed.

Lemma stalled_jobs_contribute_nothing_witness :
  let w := Demo.start Demo.no_fault in
  let api_url := "https://10.0.0.5/api/?key=ABC" in
  let parsed_url :=
    mkParseResult "https" "10.0.0.5" "/api/" "key=ABC" (Some "10.0.0.5") in
  let finished :=
    Demo.job_reply "FIN" [Demo.entry_of "1" "High"; Demo.entry_of "2" "Low"] in
  let runs := [(Some "7", Stalled); (Some "8", Finished 1 finished)] in
  let base_url := base_url_of parsed_url in
  let host := hostname parsed_url in
  let submit_url :=
    threat_query_url_of Demo.lib base_url "ABC"
      (query_time_str_of Demo.lib (utcnow w)) in
  let record :=
    VDict [("happenedOn", VStr "2024/05/01 10:00:00");
           ("severity", VStr "warn");
           ("source", VStr "10.0.0.5");
           ("message",
            VStr ("High :: [1] THREAT - Vulnerability : Log4j RCE "
                  ++ "(client-to-server 10.1.1.1 -> 10.2.2.2)"))] in
  logging_works w
  /\ urlparse Demo.lib api_url = Ok parsed_url
  /\ query_key (parse_qs Demo.lib (query parsed_url)) = Ok "ABC"
  /\ reply Demo.lib w (requested w) submit_url = Some Demo.submit_reply
  /\ map fst runs = map text (ET.iter_tag "job" Demo.submit_reply)
  /\ all_follow Demo.lib w (requested w ++ [submit_url])%list
       (map (fun r => (report_url_of base_url "ABC" (fst r), snd r)) runs)
  /\ Forall (fun r => subtypes_in_model (snd r)) runs
  /\ flat_map (fun r => projected_records host (snd r)) runs = [record]
  /\ (exists w' : world,
        custom_GET_api_threat_traffic Demo.lib api_url "threats" w
        = (Ok (flat_map (fun r => projected_records host (snd r)) runs), w')
        /\ requested w'
           = (requested w ++ submit_url :: poll_requests base_url "ABC" runs)%list
        /\ Forall (fun r => polls (snd r) <= 11) runs
        /\ forall job_id : option string,
             In (job_id, Stalled) runs ->
             In (timeout_warning job_id) (logged w')).
Proof.
  intros w api_url parsed_url finished runs base_url host submit_url record.
  assert (Hlog : logging_works w) by (intros lvl msg; reflexivity).
  assert (Hurl : urlparse Demo.lib api_url = Ok parsed_url) by reflexivity.
  assert (Hkey : query_key (parse_qs Demo.lib (query parsed_url)) = Ok "ABC")
    by reflexivity.
  assert (Hreply : reply Demo.lib w (requested w) submit_url
                   = Some Demo.submit_reply) by reflexivity.
  assert (Hjobs : map fst runs = map text (ET.iter_tag "job" Demo.submit_reply))
    by reflexivity.
  assert (Hall : all_follow Demo.lib w (requested w ++ [submit_url])%list
            (map (fun r => (report_url_of base_url "ABC" (fst r), snd r)) runs)).
  { cbn [map all_follow fst snd runs]. split; [|split; [|exact I]].
    - intros i Hi. eexists. split; reflexivity.
    - split; [lia|]. split; [|split; reflexivity].
      intros i Hi. assert (i = 0) by lia. subst i.
      eexists. split; reflexivity. }
  assert (Hsub : Forall (fun r => subtypes_in_model (snd r)) runs).
  { repeat constructor. }
  split; [exact Hlog|]. split; [exact Hurl|]. split; [exact Hkey|].
  split; [exact Hreply|]. split; [exact Hjobs|]. split; [exact Hall|].
  split; [exact Hsub|]. split; [vm_compute; reflexivity|].
  exact (proj1 (stalled_jobs_contribute_nothing Demo.lib api_url "threats" "ABC"
                  w parsed_url Demo.submit_reply runs Hlog Hurl Hkey Hreply
                  Hjobs Hall Hsub)).
Defined.

(** ** The records of the job-polling strategy *)

Lemma bind_Ok_inv {S A B : Type} (c : M S A) (k : A -> M S B) (s s' : S)
    (b : B) :
  bind c k s = (Ok b, s') ->
  exists (a : A) (s1 : S), c s = (Ok a, s1) /\ k a s1 = (Ok b, s').
Proof.
  unfold bind. destruct (c s) as [[a|e] s1]; intros H.
  - eauto.
  - discriminate.
Qed.

Lemma record_of_warn (host : option string) (entry : Element) :
  kept entry = true -> warn_record (record_of host entry).
Proof.
  unfold kept, record_of, make_event, warn_record.
  destruct (ET.attrib_get "logid" (attrib entry)) as [logid|]; [|discriminate].
  rewrite andb_true_iff, orb_true_iff, !String.eqb_eq. intros [_ Hs].
  eexists. exists (ET.findtext "severity" "" entry). eexists.
  split; [reflexivity|]. split; [reflexivity|]. split; [reflexivity|].
  split; [reflexivity | exact Hs].
Qed.

Lemma entries_loop_warn (host : option string) (entries : list Element)
    (acc : list value) :
  Forall warn_record acc ->
  Forall warn_record (entries_loop host entries acc).
Proof.
  intros H. rewrite entries_loop_filter. apply Forall_app. split; auto.
  apply Forall_forall. intros r Hr. apply in_map_iff in Hr.
  destruct Hr as [e [<- He]]. apply filter_In in He.
  apply record_of_warn. tauto.
Qed.

Section RecordFacts.

Variable lib : Library.

Lemma poll_job_warn (n : nat) (url : string) (host job_id : option string) :
  forall (acc l : list value) (w w' : world),
    Forall warn_record acc ->
    poll_job lib n url host job_id acc w = (Ok l, w') ->
    Forall warn_record l.
Proof.
  induction n as [|n IH]; intros acc l w w' Hacc H; cbn [poll_job] in H.
  - apply bind_Ok_inv in H. destruct H as [_ [w1 [_ H]]].
    inversion H; subst. exact Hacc.
  - apply bind_Ok_inv in H. destruct H as [body [w1 [_ H]]].
    apply bind_Ok_inv in H. destruct H as [doc [w2 [_ H]]].
    destruct (is_FIN (ET.findtext_job_status doc)).
    + apply bind_Ok_inv in H. destruct H as [_ [w3 [_ H]]].
      apply bind_Ok_inv in H. destruct H as [_ [w4 [_ H]]].
      inversion H; subst. now apply entries_loop_warn.
    + apply bind_Ok_inv in H. destruct H as [_ [w3 [_ H]]].
      apply bind_Ok_inv in H. destruct H as [_ [w4 [_ H]]].
      eapply IH; eauto.
Qed.

Lemma jobs_loop_warn (base_url apikey : string) (host : option string)
    (job_ids : list (option string)) :
  forall (acc l : list value) (w w' : world),
    Forall warn_record acc ->
    jobs_loop lib base_url apikey host job_ids acc w = (Ok l, w') ->
    Forall warn_record l.
Proof.
  induction job_ids as [|job_id rest IH]; intros acc l w w' Hacc H;
    cbn [jobs_loop] in H.
  - inversion H; subst. exact Hacc.
  - apply bind_Ok_inv in H. destruct H as [_ [w1 [_ H]]].
    apply bind_Ok_inv in H. destruct H as [acc' [w2 [Hp H]]].
    eapply IH; [|exact H]. eapply poll_job_warn; eauto.
Qed.

End RecordFacts.

(** C10.  Every record the job-polling strategy returns has exactly the
    fields [happenedOn], [severity], [source] and [message]; its
    [severity] is the constant [warn], whether the entry said [high] or
    [critical] and in whatever case; the severity text of the entry is
    the beginning of the [message]. *)
Theorem returned_records_are_warn (lib : Library)
    (api_url endpoint_name : string) (w w' : world) (records : list value) :
  custom_GET_api_threat_traffic lib api_url endpoint_name w
  = (Ok records, w') ->
  Forall warn_record records.
Proof.
  unfold custom_GET_api_threat_traffic. intros H.
  apply bind_Ok_inv in H. destruct H as [_ [w0 [_ H]]].
  apply bind_Ok_inv in H. destruct H as [parsed_url [w1 [_ H]]].
  apply bind_Ok_inv in H. destruct H as [apikey [w2 [_ H]]].
  apply bind_Ok_inv in H. destruct H as [_ [w3 [_ H]]].
  unfold try_except in H.
  match type of H with
  | match ?body w3 with _ => _ end = _ =>
      destruct (body w3) as [[l|e] w4] eqn:Hbody
  end.
  - inversion H; subst.
    apply bind_Ok_inv in Hbody. destruct Hbody as [now [w5 [_ Hbody]]].
    apply bind_Ok_inv in Hbody. destruct Hbody as [_ [w6 [_ Hbody]]].
    apply bind_Ok_inv in Hbody. destruct Hbody as [resp [w7 [_ Hbody]]].
    apply bind_Ok_inv in Hbody. destruct Hbody as [root [w8 [_ Hbody]]].
    apply bind_Ok_inv in Hbody. destruct Hbody as [_ [w9 [_ Hbody]]].
    apply bind_Ok_inv in Hbody. destruct Hbody as [l [w10 [Hjobs Hbody]]].
    apply bind_Ok_inv in Hbody. destruct Hbody as [_ [w11 [_ Hbody]]].
    inversion Hbody; subst.
    eapply jobs_loop_warn; [|exact Hjobs]. constructor.
  - apply bind_Ok_inv in H. destruct H as [_ [w5 [_ H]]]. discriminate.
Qed.

Lemma returned_records_are_warn_witness :
  let w := Demo.start Demo.no_fault in
  let run :=
    custom_GET_api_threat_traffic Demo.lib "https://10.0.0.5/api/?key=ABC"
                                  "threats" w in
  let message :=
    "High :: [1] THREAT - Vulnerability : Log4j RCE "
    ++ "(client-to-server 10.1.1.1 -> 10.2.2.2)" in
  run
  = (Ok [VDict [("happenedOn", VStr "2024/05/01 10:00:00");
                ("severity", VStr "warn");
                ("source", VStr "10.0.0.5");
                ("message", VStr message)]],
     snd run)
  /\ Forall warn_record (match fst run with Ok l => l | Raise _ => [] end).
Proof.
  intros w run message.
  assert (Hrun : run
                 = (Ok [VDict [("happenedOn", VStr "2024/05/01 10:00:00");
                               ("severity", VStr "warn");
                               ("source", VStr "10.0.0.5");
                               ("message", VStr message)]],
                    snd run)).
  { vm_compute. reflexivity. }
  split; [exact Hrun|].
  rewrite Hrun. cbn [fst].
  exact (returned_records_are_warn Demo.lib "https://10.0.0.5/api/?key=ABC"
           "threats" w (snd run) _ Hrun).
Defined.

(** ** Records of the job-polling strategy in the orchestrator *)

(** A record without [_raw] is serialised and handed to [xml_to_json] as
    if it were markup; when the parser rejects that text, the event written
    is the error record, and the fields of the record are gone. *)
Lemma structured_record_is_reparsed (lib : Library)
    (host : string) (input_item : list (string * string))
    (sourcetype endpoint_name msg : string) (d : dict) (rest : list value)
    (s : nat * world) :
  dict_get "_raw" d = None ->
  fromstring lib (Json.dumps lib (VDict d)) = Raise (ParseError msg) ->
  ingest_events lib host input_item sourcetype endpoint_name
                (VDict d :: rest) s
  = ingest_events lib host input_item sourcetype endpoint_name rest
      (fst s,
       set_sink
         (sink (snd s)
          ++ [event_of host input_item sourcetype endpoint_name
                (Json.dumps lib
                   (VDict [("endpoint", VStr endpoint_name);
                           ("host", VStr host);
                           ("error",
                            VStr ("XML parsing failed: " ++ msg))]))])%list
         (snd s)).
Proof.
  intros Hraw Hparse. cbn [ingest_events].
  unfold bind at 1. unfold of_result at 1. unfold xml_text_of. rewrite Hraw.
  unfold bind at 1. unfold of_result at 1. unfold xml_to_json.
  rewrite Hparse. cbn [dict_set String.eqb Ascii.eqb Bool.eqb].
  unfold bind at 1. unfold lift, write_event. destruct s as [n w].
  reflexivity.
Qed.

(** C8, at a failing input.  The device answers the threat query with one
    high entry; the strategy returns its record.  In record mode the
    orchestrator writes one event, whose payload is the parse-error record
    and not the record of the entry; in metric mode it writes nothing. *)
Theorem threat_record_is_emitted_as_parse_error :
  let w := Demo.start Demo.no_fault in
  let record :=
    VDict [("happenedOn", VStr "2024/05/01 10:00:00");
           ("severity", VStr "warn");
           ("source", VStr "10.0.0.5");
           ("message",
            VStr ("High :: [1] THREAT - Vulnerability : Log4j RCE "
                  ++ "(client-to-server 10.1.1.1 -> 10.2.2.2)"))] in
  let error_record :=
    VDict [("endpoint", VStr "threats");
           ("host", VStr "10.0.0.5");
           ("error",
            VStr ("XML parsing failed: "
                  ++ "not well-formed (invalid token): line 1, column 0"))] in
  let run index_type :=
    process_host_endpoints Demo.lib "10.0.0.5" "ABC" ["threats"] "session"
      [("index", "main")] "pan:log" index_type w in
  fst (custom_GET_api_threat_traffic Demo.lib "https://10.0.0.5/api/?key=ABC"
         "threats" w) = Ok [record]
  /\ fst (run "events") = Ok ("10.0.0.5", 1, true)
  /\ map ev_data (sink (snd (run "events")))
     = [Json.dumps Demo.lib error_record]
  /\ Json.dumps Demo.lib error_record <> Json.dumps Demo.lib record
  /\ fst (run "metrics") = Ok ("10.0.0.5", 0, true)
  /\ sink (snd (run "metrics")) = [].
Proof.
  cbv zeta. split; [vm_compute; reflexivity|].
  split; [vm_compute; reflexivity|]. split; [vm_compute; reflexivity|].
  split; [vm_compute; discriminate|].
  split; vm_compute; reflexivity.
Qed.

(** ** The tally of the fan-out *)

Lemma list_sum_map_perm {A : Type} (g : A -> nat) (l l' : list A) :
  Permutation l l' -> list_sum (map g l) = list_sum (map g l').
Proof.
  intros H. induction H; simpl; lia.
Qed.

Lemma list_sum_indicator {A : Type} (p : A -> bool) (l : list A) :
  list_sum (map (fun x => if p x then 1 else 0) l)
  = List.length (filter p l).
Proof.
  induction l as [|a l IH]; simpl; auto. destruct (p a); simpl; lia.
Qed.

Lemma list_sum_guarded {A : Type} (p : A -> bool) (g : A -> nat)
    (l : list A) :
  list_sum (map (fun x => if p x then g x else 0) l)
  = list_sum (map g (filter p l)).
Proof.
  induction l as [|a l IH]; simpl; auto. destruct (p a); simpl; lia.
Qed.

Lemma filter_complement_length {A : Type} (p : A -> bool) (l : list A) :
  List.length (filter (fun x => negb (p x)) l)
  = List.length l - List.length (filter p l).
Proof.
  induction l as [|a l IH]; [reflexivity|].
  assert (Hle : List.length (filter p l) <= List.length l)
    by apply filter_length_le.
  cbn [filter]. destruct (p a); cbn [negb List.length]; lia.
Qed.

Section TallyFacts.

Variable lib : Library.
Variables (api_key : string) (api_endpoints : list string).
Variable session_key : string.
Variable input_item : list (string * string).
Variables (sourcetype index_type : string).

Lemma host_body_flag (host : string) (s s' : nat * world)
    (r : string * nat * bool) :
  host_body lib host api_key api_endpoints session_key input_item sourcetype
            index_type s = (Ok r, s') ->
  exists n : nat, r = (host, n, true).
Proof.
  unfold host_body. intros H.
  apply bind_Ok_inv in H. destruct H as [_ [s1 [_ H]]].
  apply bind_Ok_inv in H. destruct H as [_ [s2 [_ H]]].
  apply bind_Ok_inv in H. destruct H as [n [s3 [_ H]]].
  apply bind_Ok_inv in H. destruct H as [_ [s4 [_ H]]].
  inversion H; subst. eauto.
Qed.

(** A future succeeds exactly when the body of the outer [try] returns,
    and then it carries the count of the body. *)
Lemma future_result_spec (host : string) (w : world) :
  let body :=
    fst (host_body lib host api_key api_endpoints session_key input_item
           sourcetype index_type (0, w)) in
  let future :=
    future_result lib host api_key api_endpoints session_key input_item
                  sourcetype index_type w in
  succeeded future = negb (raises body)
  /\ (raises body = false -> emitted future = emitted body).
Proof.
  cbv zeta. unfold future_result, process_host_endpoints, run_local, try_except.
  destruct (host_body lib host api_key api_endpoints session_key input_item
              sourcetype index_type (0, w)) as [[r|e] s'] eqn:Hb.
  - destruct (host_body_flag host _ _ _ Hb) as [n ->]. split; reflexivity.
  - cbn [fst raises negb]. split; [|discriminate].
    unfold bind, lift, logger_log, ret.
    destruct (log_fault (snd s') ERROR _); reflexivity.
Qed.

Lemma collect_spec (host : string) (r : Result (string * nat * bool))
    (t : tally) (w : world) :
  logging_works w ->
  exists w' : world,
    collect host r (t, w) = (Ok tt, (count_future t r, w')) /\ later w w'.
Proof.
  intros Hlog. unfold collect, try_except, count_future.
  destruct r as [[[host_ip events_count] success]|e].
  - unfold bind at 1. unfold of_result at 1. destruct success.
    + unfold bind, modify_local, lift. cbn [fst snd succeeded emitted].
      rewrite logger_log_ok by exact Hlog.
      eexists. split; [reflexivity | apply later_set_logged].
    + unfold bind, modify_local, lift. cbn [fst snd succeeded emitted].
      rewrite logger_log_ok by exact Hlog.
      eexists. split; [reflexivity | apply later_set_logged].
  - unfold bind at 1. unfold of_result at 1.
    unfold bind, modify_local, lift. cbn [fst snd succeeded].
    rewrite logger_log_ok by exact Hlog.
    eexists. split; [reflexivity | apply later_set_logged].
Qed.

Lemma collect_all_spec
    (futures : list (string * Result (string * nat * bool))) :
  forall (t : tally) (w : world),
    logging_works w ->
    exists w' : world,
      collect_all futures (t, w)
      = (Ok tt, (fold_left count_future (map snd futures) t, w'))
      /\ later w w'.
Proof.
  induction futures as [|[host r] rest IH]; intros t w Hlog.
  - exists w. split; [reflexivity | apply later_refl].
  - destruct (collect_spec host r t w Hlog) as [w1 [H1 Hl1]].
    destruct (IH (count_future t r) w1) as [w2 [H2 Hl2]].
    { eapply later_logging_works; eauto. }
    exists w2. split; [|eapply later_trans; eauto].
    cbn [collect_all map snd fold_left]. unfold bind. rewrite H1. exact H2.
Qed.

Lemma fold_count_future (rs : list (Result (string * nat * bool))) :
  forall t : tally,
    fold_left count_future rs t
    = mkTally
        (total_events_all_hosts t
         + list_sum (map (fun r => if succeeded r then emitted r else 0) rs))
        (successful_hosts t
         + list_sum (map (fun r => if succeeded r then 1 else 0) rs))
        (failed_hosts t
         + list_sum (map (fun r => if succeeded r then 0 else 1) rs)).
Proof.
  induction rs as [|r rs IH]; intros t.
  - destruct t. simpl. f_equal; lia.
  - cbn [fold_left map list_sum fold_right]. rewrite IH. unfold count_future.
    destruct (succeeded r); cbn [total_events_all_hosts successful_hosts
                                 failed_hosts]; f_equal;
      unfold list_sum; lia.
Qed.

End TallyFacts.

Section FanOutFacts.

Variable lib : Library.
Variables (hosts : list string) (api_key : string).
Variable api_endpoints : list string.
Variable session_key : string.
Variable input_item : list (string * string).
Variables (sourcetype index_type : string).
Variable worker_world : nat -> world.

Local Abbreviation body :=
  (worker_body lib hosts api_key api_endpoints session_key input_item
               sourcetype index_type worker_world).

Lemma fan_out_spec (order : list nat) (w : world) :
  logging_works w ->
  Permutation order (seq 0 (List.length hosts)) ->
  exists w' : world,
    fan_out lib hosts api_key api_endpoints session_key input_item sourcetype
            index_type worker_world order w
    = (Ok (mkTally
             (list_sum
                (map (fun i => emitted (body i))
                     (filter (fun i => negb (raises (body i)))
                             (seq 0 (List.length hosts)))))
             (List.length hosts
              - List.length (filter (fun i => raises (body i))
                                    (seq 0 (List.length hosts))))
             (List.length (filter (fun i => raises (body i))
                                  (seq 0 (List.length hosts))))),
       w')
    /\ later w w'.
Proof.
  intros Hlog Hperm. unfold fan_out, run_local.
  set (future := fun i : nat =>
         future_result lib (nth i hosts EmptyString) api_key api_endpoints
           session_key input_item sourcetype index_type (worker_world i)).
  set (futures := map _ order).
  destruct (collect_all_spec futures (mkTally 0 0 0) w Hlog) as [w' [H Hl]].
  unfold bind. rewrite H. unfold get_local. cbn [fst snd].
  exists w'. split; [|exact Hl]. f_equal. f_equal.
  rewrite fold_count_future.
  assert (Hmap : map snd futures = map future order).
  { unfold futures. rewrite map_map. reflexivity. }
  rewrite Hmap, !map_map.
  assert (Hspec : forall i,
            succeeded (future i) = negb (raises (body i))
            /\ (raises (body i) = false -> emitted (future i) = emitted (body i))).
  { intros i. apply future_result_spec. }
  cbn [total_events_all_hosts successful_hosts failed_hosts Nat.add].
  f_equal.
  - rewrite (list_sum_map_perm _ _ _ Hperm).
    rewrite <- list_sum_guarded. f_equal. apply map_ext. intros i.
    destruct (Hspec i) as [H1 H2]. rewrite H1.
    destruct (raises (body i)); cbn [negb]; auto.
  - rewrite (list_sum_map_perm _ _ _ Hperm).
    replace (List.length hosts
             - List.length (filter (fun i => raises (body i))
                                   (seq 0 (List.length hosts))))
      with (List.length (filter (fun i => negb (raises (body i)))
                                (seq 0 (List.length hosts))))
      by (now rewrite filter_complement_length, length_seq).
    rewrite <- list_sum_indicator.
    f_equal. apply map_ext. intros i. now rewrite (proj1 (Hspec i)).
  - rewrite (list_sum_map_perm _ _ _ Hperm).
    rewrite <- list_sum_indicator.
    f_equal. apply map_ext. intros i. rewrite (proj1 (Hspec i)).
    destruct (raises (body i)); reflexivity.
Qed.

End FanOutFacts.

(** C7.  Over the [H] hosts of an input, let [f] be the number of workers
    in which an exception escapes the per-host processing.  Whatever the
    order in which the futures complete, the tally of the fan-out is
    [H - f] successful hosts, [f] failed hosts, and for the total the sum
    of the counts returned by the workers that succeeded.  [stream_events]
    returns without raising, and when the account resolves to a key and
    there is a host it logs the summary with these numbers. *)
Theorem failed_hosts_are_tallied (lib : Library)
    (input_name : string) (input_item : list (string * string))
    (session_key : string) (worker_world : nat -> world)
    (order : list nat) (w : world) :
  let hosts := hosts_of (get_default "ip_address" "" input_item) in
  let api_endpoints := split "," (get_default "api_endpoints" "" input_item) in
  let sourcetype := get_default "sourcetype" "pan:log" input_item in
  let index_type := get_default "index_type" "events" input_item in
  let f api_key :=
    failures lib hosts api_key api_endpoints session_key input_item
             sourcetype index_type worker_world in
  let total api_key :=
    events_of_successes lib hosts api_key api_endpoints session_key
                        input_item sourcetype index_type worker_world in
  logging_works w ->
  Permutation order (seq 0 (List.length hosts)) ->
  (forall (api_key : string) (w0 : world),
      logging_works w0 ->
      exists w1 : world,
        fan_out lib hosts api_key api_endpoints session_key input_item
                sourcetype index_type worker_world order w0
        = (Ok (mkTally (total api_key) (List.length hosts - f api_key)
                       (f api_key)),
           w1))
  /\
  (exists w' : world,
      stream_events lib input_name input_item session_key worker_world order w
      = (Ok tt, w')
      /\ forall api_key : string,
           account_api_key w session_key (ET.attrib_get "account" input_item)
           = Ok api_key ->
           hosts <> [] ->
           In (summary (List.length hosts - f api_key) (f api_key)
                       (total api_key))
              (logged w')).
Proof.
  intros hosts api_endpoints sourcetype index_type f total Hlog Hperm.
  split.
  - intros api_key w0 Hlog0.
    destruct (fan_out_spec lib hosts api_key api_endpoints session_key
                input_item sourcetype index_type worker_world order w0
                Hlog0 Hperm) as [w1 [H _]].
    exists w1. exact H.
  - unfold stream_events, try_except.
    fold hosts. fold api_endpoints. fold sourcetype. fold index_type.
    unfold bind at 1. rewrite logger_log_ok by exact Hlog.
    set (w1 := set_logged _ w).
    assert (Hlog1 : logging_works w1).
    { eapply later_logging_works; [apply later_set_logged | exact Hlog]. }
    unfold bind at 1. unfold get_account_api_key.
    change (account_api_key w1) with (account_api_key w).
    destruct (account_api_key w session_key
                (ET.attrib_get "account" input_item)) as [api_key|e].
    2:{ rewrite logger_log_ok by exact Hlog1.
        eexists. split; [reflexivity|]. intros k Hk. discriminate. }
    destruct hosts as [|h0 hs] eqn:Hh.
    { rewrite logger_log_ok by exact Hlog1.
      eexists. split; [reflexivity|]. intros k _ Hne. congruence. }
    rewrite <- Hh.
    unfold bind at 1. rewrite logger_log_ok by exact Hlog1.
    set (w2 := set_logged _ w1).
    assert (Hlog2 : logging_works w2).
    { eapply later_logging_works; [apply later_set_logged | exact Hlog1]. }
    destruct (fan_out_spec lib hosts api_key api_endpoints session_key
                input_item sourcetype index_type worker_world order w2
                Hlog2) as [w3 [Hfan Hl3]].
    { rewrite <- Hh in Hperm. exact Hperm. }
    unfold bind at 1. rewrite Hfan.
    assert (Hlog3 : logging_works w3).
    { eapply later_logging_works; eauto. }
    unfold bind at 1. rewrite logger_log_ok by exact Hlog3.
    rewrite logger_log_ok.
    2:{ eapply later_logging_works; [apply later_set_logged | exact Hlog3]. }
    eexists. split; [reflexivity|].
    intros k Hk _. inversion Hk; subst k.
    cbn [logged set_logged total_events_all_hosts successful_hosts
         failed_hosts].
    apply in_or_app. left. apply in_or_app. right. left.
    subst f total. cbv beta. rewrite <- Hh. reflexivity.
Qed.

Lemma failed_hosts_are_tallied_witness :
  let w := Demo.start Demo.no_fault in
  let order := [2; 0; 1] in
  let hosts := hosts_of (get_default "ip_address" "" Demo.input_item) in
  let api_endpoints :=
    split "," (get_default "api_endpoints" "" Demo.input_item) in
  let sourcetype := get_default "sourcetype" "pan:log" Demo.input_item in
  let index_type := get_default "index_type" "events" Demo.input_item in
  let body :=
    worker_body Demo.lib hosts "ABC" api_endpoints "session" Demo.input_item
                sourcetype index_type Demo.worker_world in
  let f api_key :=
    failures Demo.lib hosts api_key api_endpoints "session" Demo.input_item
             sourcetype index_type Demo.worker_world in
  let total api_key :=
    events_of_successes Demo.lib hosts api_key api_endpoints "session"
                        Demo.input_item sourcetype index_type
                        Demo.worker_world in
  logging_works w
  /\ Permutation order (seq 0 (List.length hosts))
  /\ account_api_key w "session" (ET.attrib_get "account" Demo.input_item)
     = Ok "ABC"
  /\ hosts = ["10.0.0.5"; "10.0.0.6"; "10.0.0.7"]
  /\ map body (seq 0 (List.length hosts))
     = [Ok ("10.0.0.5", 1, true);
        Raise (OtherException "log handler failed");
        Raise (OtherException "log handler failed")]
  /\ (List.length hosts - f "ABC", f "ABC", total "ABC") = (1, 2, 1)
  /\ (forall (api_key : string) (w0 : world),
         logging_works w0 ->
         exists w1 : world,
           fan_out Demo.lib hosts api_key api_endpoints "session"
                   Demo.input_item sourcetype index_type Demo.worker_world
                   order w0
           = (Ok (mkTally (total api_key) (List.length hosts - f api_key)
                          (f api_key)),
              w1))
  /\ (exists w' : world,
         stream_events Demo.lib "palo_alto_input://dc1" Demo.input_item
                       "session" Demo.worker_world order w
         = (Ok tt, w')
         /\ forall api_key : string,
              account_api_key w "session"
                (ET.attrib_get "account" Demo.input_item) = Ok api_key ->
              hosts <> [] ->
              In (summary (List.length hosts - f api_key) (f api_key)
                          (total api_key))
                 (logged w')).
Proof.
  intros w order hosts api_endpoints sourcetype index_type body f total.
  assert (Hlog : logging_works w) by (intros lvl msg; reflexivity).
  assert (Hhosts : hosts = ["10.0.0.5"; "10.0.0.6"; "10.0.0.7"])
    by (vm_compute; reflexivity).
  assert (Hperm : Permutation order (seq 0 (List.length hosts))).
  { rewrite Hhosts. apply (perm_trans (perm_swap 0 2 [1])).
    apply perm_skip. apply perm_swap. }
  split; [exact Hlog|]. split; [exact Hperm|]. split; [reflexivity|].
  split; [exact Hhosts|]. split; [vm_compute; reflexivity|].
  split; [vm_compute; reflexivity|].
  exact (failed_hosts_are_tallied Demo.lib "palo_alto_input://dc1"
           Demo.input_item "session" Demo.worker_world order w Hlog Hperm).
Defined.

(** * Further properties *)

(** ** The shape of a conversion *)

Section ShapeFacts.

Variable lib : Library.

Lemma coerce_text_not_none (t : string) : coerce_text lib t <> VNone.
Proof.
  unfold coerce_text. destruct (PyStr.int_of_string t); [discriminate|].
  destruct (float_of_string lib t); discriminate.
Qed.

Lemma node_of_with_children (e : Element) :
  children e <> [] -> dict_truthy (node_of lib e) = true.
Proof.
  intros Hc. destruct (children e) as [|c cs] eqn:C; [congruence|].
  assert (Hin : ET.children_tag (tag c) e <> []).
  { unfold ET.children_tag. rewrite C. simpl. now rewrite String.eqb_refl. }
  destruct (grouped (map (element_to_dict lib) (ET.children_tag (tag c) e)))
    as [v|] eqn:G.
  - eapply dict_truthy_get. eapply node_of_children. exact G.
  - destruct (ET.children_tag (tag c) e) as [|a [|b l]];
      [congruence | discriminate | discriminate].
Qed.

Lemma node_of_with_attributes (e : Element) :
  attrib e <> [] -> dict_truthy (node_of lib e) = true.
Proof.
  intros Ha. destruct (children e) as [|c cs] eqn:C.
  - unfold node_of. rewrite C. destruct (attrib e); [congruence | reflexivity].
  - apply node_of_with_children. congruence.
Qed.

Lemma node_of_empty (e : Element) :
  dict_truthy (node_of lib e) = false -> attrib e = [] /\ children e = [].
Proof.
  intros H. split.
  - destruct (attrib e) eqn:A; auto.
    rewrite node_of_with_attributes in H; [discriminate | congruence].
  - destruct (children e) eqn:C; auto.
    rewrite node_of_with_children in H; [discriminate | congruence].
Qed.

End ShapeFacts.

(** X1.  The conversion of an element is [None] exactly when the element
    has no attribute, no child and no non-empty text. *)
Theorem conversion_is_none_iff_empty (lib : Library) (e : Element) :
  element_to_dict lib e = VNone
  <-> attrib e = [] /\ children e = [] /\ stripped_text e = None.
Proof.
  split.
  - rewrite element_to_dict_eq.
    destruct (stripped_text e) as [t|];
      destruct (dict_truthy (node_of lib e)) eqn:N; intros H;
      try discriminate.
    + exfalso. now apply (coerce_text_not_none lib t).
    + destruct (node_of_empty lib e N). auto.
  - intros [Ha [Hc Ht]]. rewrite leaf_conversion by (split; assumption).
    now rewrite Ht.
Qed.

(** X2.  When an element has a non-empty text beside an attribute or a
    child, its conversion is a mapping that keeps the trimmed text under
    [#text], as a string: the text is not read as a number there. *)
Theorem text_beside_structure_is_kept (lib : Library) (e : Element)
    (t : string) :
  stripped_text e = Some t ->
  attrib e <> [] \/ children e <> [] ->
  exists d : dict,
    element_to_dict lib e = VDict d /\ dict_get "#text" d = Some (VStr t).
Proof.
  intros Ht Hs. rewrite element_to_dict_eq, Ht.
  assert (N : dict_truthy (node_of lib e) = true).
  { destruct Hs; [now apply node_of_with_attributes
                 | now apply node_of_with_children]. }
  rewrite N. eexists. split; [reflexivity | apply dict_get_set_same].
Qed.

Lemma text_beside_structure_is_kept_witness :
  stripped_text Samples.timing = Some "15"
  /\ (attrib Samples.timing <> [] \/ children Samples.timing <> [])
  /\ element_to_dict Demo.lib Samples.timing
     = VDict [("@unit", VStr "ms"); ("#text", VStr "15")]
  /\ exists d : dict,
       element_to_dict Demo.lib Samples.timing = VDict d
       /\ dict_get "#text" d = Some (VStr "15").
Proof.
  assert (Hs : attrib Samples.timing <> [] \/ children Samples.timing <> [])
    by (left; discriminate).
  split; [reflexivity|]. split; [exact Hs|]. split; [reflexivity|].
  exact (text_beside_structure_is_kept Demo.lib Samples.timing "15" eq_refl Hs).
Defined.

Lemma attribute_lookup (a : list (string * string)) (k v : string) :
  In (k, v) a ->
  NoDup (map fst a) ->
  dict_get ("@" ++ k) (map (fun kv => ("@" ++ fst kv, VStr (snd kv))) a)
  = Some (VStr v).
Proof.
  induction a as [|[k0 v0] r IH]; intros Hin Hnd; [contradiction|].
  inversion Hnd as [|? ? Hnotin Hnd']; subst.
  cbn [map fst snd dict_get].
  change (String.eqb ("@" ++ k) ("@" ++ k0)) with (String.eqb k k0).
  destruct (String.eqb k k0) eqn:E.
  - apply String.eqb_eq in E. subst k0. destruct Hin as [H|H].
    + now inversion H.
    + exfalso. apply Hnotin. change k with (fst (k, v)). now apply in_map.
  - destruct Hin as [H|H]; [|now apply IH].
    inversion H; subst. rewrite String.eqb_refl in E. discriminate.
Qed.

(** X3.  An attribute [k] with value [v] is the entry [@k] of the
    conversion, with the value [v] as a string, when no child of the
    element has the tag [@k] (no tag of a well-formed document has). *)
Theorem attributes_are_prefixed (lib : Library) (e : Element)
    (k v : string) :
  In (k, v) (attrib e) ->
  NoDup (map fst (attrib e)) ->
  ET.children_tag ("@" ++ k) e = [] ->
  exists d : dict,
    element_to_dict lib e = VDict d
    /\ dict_get ("@" ++ k) d = Some (VStr v).
Proof.
  intros Hin Hnd Hno.
  assert (Hnode : dict_get ("@" ++ k) (node_of lib e) = Some (VStr v)).
  { unfold node_of. destruct (children e) as [|c cs] eqn:C.
    - now apply attribute_lookup.
    - rewrite dict_get_update_absent; [now apply attribute_lookup|].
      destruct (children_dict_spec lib (c :: cs)) as [_ Hget].
      rewrite Hget. unfold ET.children_tag in Hno. rewrite C in Hno.
      now rewrite Hno. }
  rewrite element_to_dict_eq. rewrite (dict_truthy_get _ _ _ Hnode).
  destruct (stripped_text e).
  - eexists. split; [reflexivity|].
    rewrite dict_get_set_other by discriminate. exact Hnode.
  - eexists. split; [reflexivity | exact Hnode].
Qed.

Lemma attributes_are_prefixed_witness :
  In ("unit", "ms") (attrib Samples.timing)
  /\ NoDup (map fst (attrib Samples.timing))
  /\ ET.children_tag ("@" ++ "unit") Samples.timing = []
  /\ exists d : dict,
       element_to_dict Demo.lib Samples.timing = VDict d
       /\ dict_get ("@" ++ "unit") d = Some (VStr "ms").
Proof.
  assert (Hin : In ("unit", "ms") (attrib Samples.timing))
    by (left; reflexivity).
  assert (Hnd : NoDup (map fst (attrib Samples.timing))).
  { repeat constructor. simpl. tauto. }
  split; [exact Hin|]. split; [exact Hnd|]. split; [reflexivity|].
  exact (attributes_are_prefixed Demo.lib Samples.timing "unit" "ms"
           Hin Hnd eq_refl).
Defined.

(** ** What every record carries *)

Lemma fold_visit_other (lib : Library) (k : string)
    (l : list (string * Element)) :
  (forall mp : string, k <> "metric_name:" ++ mp) ->
  forall md : dict,
    dict_get k (fold_left (record_visit lib) l md) = dict_get k md.
Proof.
  intros Hk. induction l as [|[mp c] l IH]; intros md; [reflexivity|].
  cbn [fold_left]. rewrite IH. unfold record_visit, record_metric.
  cbn [fst snd]. destruct (stripped_text c); auto.
  destruct (float_of_string lib s); auto.
  apply dict_get_set_other. apply Hk.
Qed.

(** X4.  Whatever the text is, a record that [xml_to_json] returns carries
    the endpoint and the host it was called with, and either [data] or
    [error], never both; a mapping that [xml_to_metrics] returns carries
    the endpoint and the host too: no metric overwrites them. *)
Theorem records_carry_endpoint_and_host (lib : Library)
    (xml_text endpoint_name host : string) :
  (forall v : value,
      xml_to_json lib xml_text endpoint_name host = Ok v ->
      exists d : dict,
        v = VDict d
        /\ dict_get "endpoint" d = Some (VStr endpoint_name)
        /\ dict_get "host" d = Some (VStr host)
        /\ dict_mem "data" d = negb (dict_mem "error" d))
  /\
  (forall md : dict,
      xml_to_metrics lib xml_text endpoint_name host = Ok md ->
      dict_get "endpoint" md = Some (VStr endpoint_name)
      /\ dict_get "host" md = Some (VStr host)).
Proof.
  split.
  - unfold xml_to_json. intros v H.
    destruct (fromstring lib xml_text) as [root|[m|m|m]];
      inversion H; subst; eexists; repeat split.
  - unfold xml_to_metrics. intros md H.
    destruct (fromstring lib xml_text) as [root|[m|m|m]];
      inversion H; subst; try (split; reflexivity).
    rewrite extract_metrics_visited.
    split; rewrite fold_visit_other; try reflexivity;
      intros mp; discriminate.
Qed.

Lemma records_carry_endpoint_and_host_witness :
  xml_to_json Demo.lib Samples.system_text "system" "10.0.0.5"
  = Ok (VDict [("endpoint", VStr "system"); ("host", VStr "10.0.0.5");
               ("data",
                VDict [("r", VDict [("cpu", VInt 15); ("name", VStr "fw1");
                                    ("mem", VDict [("used", VInt 62)])])])])
  /\ (exists d : dict,
        VDict [("endpoint", VStr "system"); ("host", VStr "10.0.0.5");
               ("data",
                VDict [("r", VDict [("cpu", VInt 15); ("name", VStr "fw1");
                                    ("mem", VDict [("used", VInt 62)])])])]
        = VDict d
        /\ dict_get "endpoint" d = Some (VStr "system")
        /\ dict_get "host" d = Some (VStr "10.0.0.5")
        /\ dict_mem "data" d = negb (dict_mem "error" d))
  /\ xml_to_metrics Demo.lib Samples.system_text "system" "10.0.0.5"
     = Ok [("endpoint", VStr "system"); ("host", VStr "10.0.0.5");
           ("metric_name:cpu", VFloat 15); ("metric_name:mem.used", VFloat 62)]
  /\ dict_get "endpoint"
       [("endpoint", VStr "system"); ("host", VStr "10.0.0.5");
        ("metric_name:cpu", VFloat 15); ("metric_name:mem.used", VFloat 62)]
     = Some (VStr "system")
  /\ dict_get "host"
       [("endpoint", VStr "system"); ("host", VStr "10.0.0.5");
        ("metric_name:cpu", VFloat 15); ("metric_name:mem.used", VFloat 62)]
     = Some (VStr "10.0.0.5").
Proof.
  destruct (records_carry_endpoint_and_host Demo.lib Samples.system_text
              "system" "10.0.0.5") as [H1 H2].
  split; [reflexivity|]. split; [exact (H1 _ eq_refl)|].
  split; [reflexivity|]. exact (H2 _ eq_refl).
Defined.

(** ** What a run leaves behind *)

Lemma extends_refl (P : Event -> Prop) (w : world) : extends P w w.
Proof.
  unfold extends. split; [apply later_refl|].
  split; [exists []; now rewrite List.app_nil_r|]. split; [lia|].
  exists []. split; [now rewrite List.app_nil_r | constructor].
Qed.

Lemma extends_trans (P : Event -> Prop) (w1 w2 w3 : world) :
  extends P w1 w2 -> extends P w2 w3 -> extends P w1 w3.
Proof.
  intros [L1 [[r1 R1] [S1 [e1 [E1 F1]]]]] [L2 [[r2 R2] [S2 [e2 [E2 F2]]]]].
  split; [eapply later_trans; eauto|].
  split; [exists (r1 ++ r2)%list; rewrite R2, R1; now rewrite List.app_assoc|].
  split; [lia|].
  exists (e1 ++ e2)%list. split.
  - rewrite E2, E1. now rewrite List.app_assoc.
  - apply Forall_app. auto.
Qed.

Lemma extends_weaken (P Q : Event -> Prop) (w w' : world) :
  (forall ev, P ev -> Q ev) -> extends P w w' -> extends Q w w'.
Proof.
  intros H [L [R [S [evs [E F]]]]].
  split; [exact L|]. split; [exact R|]. split; [exact S|].
  exists evs. split; auto. eapply Forall_impl; eauto.
Qed.

Lemma extends_logging_works (P : Event -> Prop) (w w' : world) :
  extends P w w' -> logging_works w -> logging_works w'.
Proof. intros [L _]. now apply later_logging_works. Qed.

Section RespectFacts.

Context {S : Type} (proj : S -> world) (P : Event -> Prop).

Lemma respects_ret {A : Type} (a : A) : respects proj P (ret a).
Proof. intros s. apply extends_refl. Qed.

Lemma respects_raise {A : Type} (e : exn) : respects proj P (@raise S A e).
Proof. intros s. apply extends_refl. Qed.

Lemma respects_of_result {A : Type} (r : Result A) :
  respects proj P (of_result r).
Proof. intros s. apply extends_refl. Qed.

Lemma respects_bind {A B : Type} (c : M S A) (k : A -> M S B) :
  respects proj P c -> (forall a, respects proj P (k a)) ->
  respects proj P (bind c k).
Proof.
  intros Hc Hk s. unfold bind. specialize (Hc s).
  destruct (c s) as [[a|e] s1]; cbn [snd] in *; auto.
  eapply extends_trans; [exact Hc | apply Hk].
Qed.

Lemma respects_try_except {A : Type} (c : M S A) (h : exn -> M S A) :
  respects proj P c -> (forall e, respects proj P (h e)) ->
  respects proj P (try_except c h).
Proof.
  intros Hc Hh s. unfold try_except. specialize (Hc s).
  destruct (c s) as [[a|e] s1]; cbn [snd] in *; auto.
  eapply extends_trans; [exact Hc | apply Hh].
Qed.

Lemma respects_weaken {A : Type} (Q : Event -> Prop) (c : M S A) :
  (forall ev, Q ev -> P ev) -> respects proj Q c -> respects proj P c.
Proof. intros H Hc s. eapply extends_weaken; eauto. Qed.

End RespectFacts.

Section PrimitiveFacts.

Variable P : Event -> Prop.

Local Abbreviation here := (fun w : world => w).

Lemma respects_logger_log (lvl : level) (msg : string) :
  respects here P (logger_log lvl msg).
Proof.
  intros w. unfold logger_log. destruct (log_fault w lvl msg).
  - apply extends_refl.
  - cbn [snd]. split; [apply later_set_logged|].
    split; [exists []; simpl; now rewrite List.app_nil_r|]. split; [simpl; lia|].
    exists []. split; [simpl; now rewrite List.app_nil_r | constructor].
Qed.

Lemma respects_requests_get (url : string) :
  respects here P (requests_get url).
Proof.
  intros w. unfold requests_get. cbn [snd].
  split; [apply later_set_requested|].
  split; [exists [url]; reflexivity|]. split; [simpl; lia|].
  exists []. split; [simpl; now rewrite List.app_nil_r | constructor].
Qed.

Lemma respects_time_sleep : respects here P time_sleep.
Proof.
  intros w. unfold time_sleep. cbn [snd].
  split; [apply later_set_sleeps|].
  split; [exists []; simpl; now rewrite List.app_nil_r|]. split; [simpl; lia|].
  exists []. split; [simpl; now rewrite List.app_nil_r | constructor].
Qed.

Lemma respects_write_event (ev : Event) :
  P ev -> respects here P (write_event ev).
Proof.
  intros Hev w. unfold write_event. cbn [snd].
  split.
  { unfold later. repeat split. exists []. simpl. now rewrite List.app_nil_r. }
  split; [exists []; simpl; now rewrite List.app_nil_r|]. split; [simpl; lia|].
  exists [ev]. split; [reflexivity | now constructor].
Qed.

Lemma respects_get_api_endpoint_config (session_key endpoint_name : string) :
  respects here P (get_api_endpoint_config session_key endpoint_name).
Proof. intros w. apply extends_refl. Qed.

Lemma respects_get_account_api_key (session_key : string)
    (account_name : option string) :
  respects here P (get_account_api_key session_key account_name).
Proof. intros w. apply extends_refl. Qed.

Lemma respects_datetime_now : respects here P datetime_now.
Proof. intros w. apply extends_refl. Qed.

Lemma respects_lift {L A : Type} (c : M world A) :
  respects here P c -> respects (@snd L world) P (lift c).
Proof.
  intros Hc [l w]. unfold lift. cbn [snd fst]. specialize (Hc w).
  destruct (c w) as [r w']. exact Hc.
Qed.

Lemma respects_get_local {L : Type} :
  respects (@snd L world) P get_local.
Proof. intros s. apply extends_refl. Qed.

Lemma respects_modify_local {L : Type} (f : L -> L) :
  respects (@snd L world) P (modify_local f).
Proof. intros s. apply extends_refl. Qed.

Lemma respects_run_local {L A : Type} (init : L) (c : M (L * world) A) :
  respects (@snd L world) P c -> respects here P (run_local init c).
Proof.
  intros Hc w. unfold run_local. specialize (Hc (init, w)).
  destruct (c (init, w)) as [r s']. exact Hc.
Qed.

End PrimitiveFacts.

Ltac respect :=
  repeat match goal with
    | |- respects _ _ (bind _ _) => apply respects_bind; [|intros ?]
    | |- respects _ _ (try_except _ _) => apply respects_try_except; [|intros ?]
    | |- respects _ _ (ret _) => apply respects_ret
    | |- respects _ _ (raise _) => apply respects_raise
    | |- respects _ _ (of_result _) => apply respects_of_result
    | |- respects _ _ (logger_log _ _) => apply respects_logger_log
    | |- respects _ _ (requests_get _) => apply respects_requests_get
    | |- respects _ _ time_sleep => apply respects_time_sleep
    | |- respects _ _ (get_api_endpoint_config _ _) =>
        apply respects_get_api_endpoint_config
    | |- respects _ _ datetime_now => apply respects_datetime_now
    | |- respects _ _ get_local => apply respects_get_local
    | |- respects _ _ (modify_local _) => apply respects_modify_local
    | |- respects _ _ (lift _) => apply respects_lift
    end.

Section HandlerRuns.

Variable lib : Library.
Variable P : Event -> Prop.

Lemma respects_GET_api_generic (api_url endpoint_name : string) :
  respects (fun w => w) P (GET_api_generic api_url endpoint_name).
Proof.
  unfold GET_api_generic. respect.
  match goal with e : exn |- _ => destruct e end; respect.
Qed.

Lemma respects_poll_job (n : nat) (url : string) (host job_id : option string) :
  forall acc : list value,
    respects (fun w => w) P (poll_job lib n url host job_id acc).
Proof.
  induction n as [|n IH]; intros acc; cbn [poll_job]; respect.
  destruct (is_FIN _); respect. apply IH.
Qed.

Lemma respects_jobs_loop (base_url apikey : string) (host : option string)
    (job_ids : list (option string)) :
  forall acc : list value,
    respects (fun w => w) P (jobs_loop lib base_url apikey host job_ids acc).
Proof.
  induction job_ids as [|j rest IH]; intros acc; cbn [jobs_loop]; respect.
  - apply respects_poll_job.
  - apply IH.
Qed.

Lemma respects_custom_GET_api_threat_traffic (api_url endpoint_name : string) :
  respects (fun w => w) P
           (custom_GET_api_threat_traffic lib api_url endpoint_name).
Proof.
  unfold custom_GET_api_threat_traffic. respect. apply respects_jobs_loop.
Qed.

End HandlerRuns.

Section OrchestratorRuns.

Variable lib : Library.
Variables (host api_key session_key : string).
Variable input_item : list (string * string).
Variables (sourcetype index_type : string).

Lemma sourced_event_of (endpoint_name data : string) :
  sourced host input_item sourcetype endpoint_name
          (event_of host input_item sourcetype endpoint_name data).
Proof. repeat split. Qed.

Lemma respects_ingest_metrics (endpoint_name : string) (data : list value) :
  respects (@snd nat world)
           (sourced host input_item sourcetype endpoint_name)
           (ingest_metrics lib host input_item sourcetype endpoint_name data).
Proof.
  induction data as [|record rest IH]; cbn [ingest_metrics]; respect.
  - destruct (2 <? _)%nat; respect.
    apply respects_write_event. apply sourced_event_of.
  - exact IH.
Qed.

Lemma respects_ingest_events (endpoint_name : string) (data : list value) :
  respects (@snd nat world)
           (sourced host input_item sourcetype endpoint_name)
           (ingest_events lib host input_item sourcetype endpoint_name data).
Proof.
  induction data as [|record rest IH]; cbn [ingest_events]; respect.
  - apply respects_write_event. apply sourced_event_of.
  - exact IH.
Qed.

Lemma respects_ingest (endpoint_name : string) (data : list value) :
  respects (@snd nat world)
           (sourced host input_item sourcetype endpoint_name)
           (ingest lib host input_item sourcetype index_type endpoint_name
                   data).
Proof.
  unfold ingest. destruct (String.eqb index_type "metrics").
  - apply respects_ingest_metrics.
  - respect. apply respects_ingest_events.
Qed.

Lemma respects_process_endpoint (endpoint_name : string) :
  respects (@snd nat world)
           (sourced host input_item sourcetype endpoint_name)
           (process_endpoint lib host api_key session_key input_item
                             sourcetype index_type endpoint_name).
Proof.
  unfold process_endpoint. respect.
  destruct (ET.attrib_get "script_type" _) as [st|]; respect.
  destruct (String.eqb st "GET_api_generic_xml_output").
  { respect; [apply respects_GET_api_generic | apply respects_ingest]. }
  destruct (String.eqb st "custom_GET_api_threat_traffic"); respect.
  - apply respects_custom_GET_api_threat_traffic.
  - apply respects_ingest.
Qed.

Lemma respects_endpoints_loop (api_endpoints names : list string) :
  incl names api_endpoints ->
  respects (@snd nat world)
           (well_sourced host input_item sourcetype api_endpoints)
           (endpoints_loop lib host api_key session_key input_item sourcetype
                           index_type names).
Proof.
  induction names as [|name rest IH]; intros Hincl; cbn [endpoints_loop].
  - respect.
  - assert (Hrest : incl rest api_endpoints).
    { intros x Hx. apply Hincl. now right. }
    destruct (PyStr.truthy (PyStr.strip name)) eqn:T; cbn [negb];
      [|now apply IH].
    respect; [|now apply IH].
    eapply respects_weaken; [|apply respects_process_endpoint].
    intros ev Hev. exists name. split; [apply Hincl; now left|].
    split; [|exact Hev]. intro E. rewrite E in T. discriminate.
Qed.

Lemma respects_process_host_endpoints (api_endpoints : list string) :
  respects (fun w => w)
           (well_sourced host input_item sourcetype api_endpoints)
           (process_host_endpoints lib host api_key api_endpoints session_key
                                   input_item sourcetype index_type).
Proof.
  unfold process_host_endpoints. apply respects_run_local.
  unfold host_body. respect. apply respects_endpoints_loop.
  intros x Hx. exact Hx.
Qed.

End OrchestratorRuns.

(** X5.  Whatever the devices, the configuration and the logger do, a run
    of [process_host_endpoints] leaves them as they are, only adds to the
    requests, the log and the sink, and every event it writes carries the
    host of the worker, the sourcetype and the index of the input, and
    the source label [palo_alto:] followed by the trimmed name of one of
    the configured endpoints. *)
Theorem written_events_are_well_sourced (lib : Library)
    (host api_key : string) (api_endpoints : list string)
    (session_key : string) (input_item : list (string * string))
    (sourcetype index_type : string) (w : world) :
  let w' :=
    snd (process_host_endpoints lib host api_key api_endpoints session_key
           input_item sourcetype index_type w) in
  device w' = device w
  /\ conf w' = conf w
  /\ log_fault w' = log_fault w
  /\ (exists r : list string, requested w' = requested w ++ r)%list
  /\ (exists l : list (level * string), logged w' = logged w ++ l)%list
  /\ exists evs : list Event,
       sink w' = (sink w ++ evs)%list
       /\ forall ev : Event,
            In ev evs ->
            ev_host ev = host
            /\ ev_sourcetype ev = sourcetype
            /\ ev_index ev = ET.attrib_get "index" input_item
            /\ exists name : string,
                 In name api_endpoints
                 /\ PyStr.strip name <> ""
                 /\ ev_source ev = "palo_alto:" ++ PyStr.strip name.
Proof.
  intros w'.
  destruct (respects_process_host_endpoints lib host api_key session_key
              input_item sourcetype index_type api_endpoints w)
    as [[Hd [_ [Hc [_ [Hf Hl]]]]] [Hr [_ [evs [Hs Hev]]]]].
  fold w' in Hd, Hc, Hf, Hl, Hr, Hs.
  split; [exact Hd|]. split; [exact Hc|]. split; [exact Hf|].
  split; [exact Hr|]. split; [exact Hl|].
  exists evs. split; [exact Hs|]. intros ev Hin.
  rewrite Forall_forall in Hev.
  destruct (Hev ev Hin) as [name [H1 [H2 [H3 [H4 [H5 H6]]]]]].
  repeat split; auto. exists name. auto.
Qed.

(** ** Failures of an endpoint stay with the endpoint *)

Lemma lift_logger_log_ok {L : Type} (lvl : level) (msg : string)
    (s : L * world) :
  logging_works (snd s) ->
  lift (logger_log lvl msg) s
  = (Ok tt, (fst s, set_logged (logged (snd s) ++ [(lvl, msg)])%list (snd s))).
Proof.
  intros H. unfold lift. now rewrite logger_log_ok.
Qed.

Section IsolationFacts.

Variable lib : Library.
Variables (host api_key session_key : string).
Variable input_item : list (string * string).
Variables (sourcetype index_type : string).

(** One turn of the loop over the endpoints always reaches the next
    turn. *)
Lemma endpoints_loop_step (name : string) (rest : list string)
    (s : nat * world) :
  logging_works (snd s) ->
  exists s' : nat * world,
    endpoints_loop lib host api_key session_key input_item sourcetype
                   index_type (name :: rest) s
    = endpoints_loop lib host api_key session_key input_item sourcetype
                     index_type rest s'
    /\ logging_works (snd s').
Proof.
  intros Hlog. cbn [endpoints_loop].
  destruct (PyStr.truthy (PyStr.strip name)); cbn [negb]; [|eauto].
  unfold bind at 1. rewrite lift_logger_log_ok by exact Hlog.
  set (s1 := (fst s, _)).
  assert (Hlog1 : logging_works (snd s1)).
  { eapply later_logging_works; [apply later_set_logged | exact Hlog]. }
  unfold bind at 1. unfold try_except.
  pose proof (respects_process_endpoint lib host api_key session_key
                input_item sourcetype index_type (PyStr.strip name) s1)
    as Hext.
  destruct (process_endpoint lib host api_key session_key input_item
              sourcetype index_type (PyStr.strip name) s1)
    as [[u|e] s2]; cbn [snd] in Hext.
  - exists s2. split; [reflexivity|].
    eapply extends_logging_works; eauto.
  - assert (Hlog2 : logging_works (snd s2))
      by (eapply extends_logging_works; eauto).
    rewrite lift_logger_log_ok by exact Hlog2.
    eexists. split; [reflexivity|].
    eapply later_logging_works; [apply later_set_logged | exact Hlog2].
Qed.

Lemma endpoints_loop_returns (names : list string) :
  forall s : nat * world,
    logging_works (snd s) ->
    exists s' : nat * world,
      endpoints_loop lib host api_key session_key input_item sourcetype
                     index_type names s = (Ok tt, s')
      /\ logging_works (snd s').
Proof.
  induction names as [|name rest IH]; intros s Hlog.
  - exists s. split; [reflexivity | exact Hlog].
  - destruct (endpoints_loop_step name rest s Hlog) as [s1 [Heq Hlog1]].
    rewrite Heq. now apply IH.
Qed.

End IsolationFacts.

(** X6.  When the logger works, [process_host_endpoints] returns the host
    with a count and a true success flag, whatever the devices, the
    configuration store and the parsers do: an exception raised for an
    endpoint never becomes a failure of the host. *)
Theorem endpoint_failures_do_not_fail_the_host (lib : Library)
    (host api_key : string) (api_endpoints : list string)
    (session_key : string) (input_item : list (string * string))
    (sourcetype index_type : string) (w : world) :
  logging_works w ->
  exists (n : nat) (w' : world),
    process_host_endpoints lib host api_key api_endpoints session_key
                           input_item sourcetype index_type w
    = (Ok (host, n, true), w').
Proof.
  intros Hlog. unfold process_host_endpoints, run_local, try_except, host_body.
  unfold bind at 1. rewrite lift_logger_log_ok by exact Hlog.
  set (s1 := (fst (0, w), _)).
  assert (Hlog1 : logging_works (snd s1)).
  { eapply later_logging_works; [apply later_set_logged | exact Hlog]. }
  destruct (endpoints_loop_returns lib host api_key session_key input_item
              sourcetype index_type api_endpoints s1 Hlog1)
    as [s2 [Heq Hlog2]].
  unfold bind at 1. rewrite Heq.
  unfold bind at 1. unfold get_local.
  unfold bind at 1. rewrite lift_logger_log_ok by exact Hlog2.
  unfold ret. eauto.
Qed.

Lemma endpoint_failures_do_not_fail_the_host_witness :
  let w := Samples.world_with Samples.no_conf in
  logging_works w
  /\ fst (process_host_endpoints Demo.lib "10.0.0.5" "ABC"
            ["system"; "threats"] "session" [("index", "main")] "pan:log"
            "events" w)
     = Ok ("10.0.0.5", 0, true)
  /\ exists (n : nat) (w' : world),
       process_host_endpoints Demo.lib "10.0.0.5" "ABC" ["system"; "threats"]
                              "session" [("index", "main")] "pan:log"
                              "events" w
       = (Ok ("10.0.0.5", n, true), w').
Proof.
  intros w.
  assert (Hlog : logging_works w) by (intros lvl msg; reflexivity).
  split; [exact Hlog|]. split; [vm_compute; reflexivity|].
  exact (endpoint_failures_do_not_fail_the_host Demo.lib "10.0.0.5" "ABC"
           ["system"; "threats"] "session" [("index", "main")] "pan:log"
           "events" w Hlog).
Defined.

Section SkippedEndpoints.

Variable lib : Library.
Variables (host api_key session_key : string).
Variable input_item : list (string * string).
Variables (sourcetype index_type : string).

Local Abbreviation loop :=
  (endpoints_loop lib host api_key session_key input_item sourcetype
                  index_type).

(** X7.  When the configuration store raises for an endpoint, the loop
    logs that it processes the endpoint, logs the error with the text of
    the exception, and goes on with the next endpoint: the count is the
    same, no request is made and nothing is written. *)
Theorem missing_endpoint_config_is_skipped (name : string)
    (rest : list string) (n : nat) (w : world) (e : exn) :
  logging_works w ->
  PyStr.strip name <> "" ->
  conf w session_key (PyStr.strip name) = Raise e ->
  loop (name :: rest) (n, w)
  = loop rest
      (n,
       set_logged
         (List.app (logged w)
             [(INFO,
               "Processing API endpoint '" ++ PyStr.strip name
               ++ "' for host: " ++ host);
              (ERROR,
               "Error processing endpoint '" ++ PyStr.strip name
               ++ "' for host " ++ host ++ ": " ++ str_exn e)])
         w).
Proof.
  intros Hlog Hname Hconf. cbn [endpoints_loop].
  destruct (PyStr.truthy (PyStr.strip name)) eqn:T.
  2:{ destruct (PyStr.strip name); [congruence | discriminate]. }
  cbn [negb]. unfold bind at 1. rewrite lift_logger_log_ok by exact Hlog.
  cbn [fst snd]. unfold bind at 1. unfold try_except, process_endpoint.
  unfold bind at 1. unfold lift at 1, get_api_endpoint_config. cbn [fst snd].
  change (conf (set_logged _ w)) with (conf w). rewrite Hconf.
  rewrite lift_logger_log_ok.
  2:{ eapply later_logging_works; [apply later_set_logged | exact Hlog]. }
  cbn [fst snd logged set_logged]. rewrite <- List.app_assoc. reflexivity.
Qed.

(** X8.  When the stanza of an endpoint names a strategy that is neither
    of the two known ones, the loop logs the call and the unknown script
    type, and goes on with the next endpoint: the count is the same, no
    request is made and nothing is written. *)
Theorem unknown_script_type_is_skipped (name : string) (rest : list string)
    (n : nat) (w : world) (stanza : list (string * string))
    (template : string) :
  logging_works w ->
  PyStr.strip name <> "" ->
  conf w session_key (PyStr.strip name) = Ok stanza ->
  ET.attrib_get "api_url" stanza = Some template ->
  ET.attrib_get "script_type" stanza <> Some "GET_api_generic_xml_output" ->
  ET.attrib_get "script_type" stanza <> Some "custom_GET_api_threat_traffic" ->
  loop (name :: rest) (n, w)
  = loop rest
      (n,
       set_logged
         (List.app (logged w)
             [(INFO,
               "Processing API endpoint '" ++ PyStr.strip name
               ++ "' for host: " ++ host);
              (INFO,
               "Calling endpoint '" ++ PyStr.strip name ++ "' on host "
               ++ host ++ " with script type: "
               ++ PyStr.str_of_option (ET.attrib_get "script_type" stanza)
               ++ " on API URL: "
               ++ safe_substitute lib template
                    [("host", host); ("apikey", api_key);
                     ("api_key", api_key)]);
              (ERROR,
               "Unknown script type: "
               ++ PyStr.str_of_option (ET.attrib_get "script_type" stanza))])
         w).
Proof.
  intros Hlog Hname Hconf Hurl Hg Hc. cbn [endpoints_loop].
  destruct (PyStr.truthy (PyStr.strip name)) eqn:T.
  2:{ destruct (PyStr.strip name); [congruence | discriminate]. }
  cbn [negb]. unfold bind at 1. rewrite lift_logger_log_ok by exact Hlog.
  cbn [fst snd]. unfold bind at 1. unfold try_except, process_endpoint.
  unfold bind at 1. unfold lift at 1, get_api_endpoint_config. cbn [fst snd].
  change (conf (set_logged _ w)) with (conf w). rewrite Hconf, Hurl.
  unfold bind at 1. unfold of_result at 1, substitute_variables.
  set (w1 := set_logged _ w).
  assert (Hlog1 : logging_works w1).
  { eapply later_logging_works; [apply later_set_logged | exact Hlog]. }
  unfold bind at 1. rewrite lift_logger_log_ok by exact Hlog1.
  cbn [fst snd].
  set (w2 := set_logged _ w1).
  assert (Hlog2 : logging_works w2).
  { eapply later_logging_works; [apply later_set_logged | exact Hlog1]. }
  assert (Hend :
    forall msg w3,
      loop rest (n, set_logged (logged w2 ++ [(ERROR, msg)])%list w2) = w3 ->
      loop rest
        (n,
         set_logged
           (List.app (logged w)
               [(INFO,
                 "Processing API endpoint '" ++ PyStr.strip name
                 ++ "' for host: " ++ host);
                (INFO,
                 "Calling endpoint '" ++ PyStr.strip name ++ "' on host "
                 ++ host ++ " with script type: "
                 ++ PyStr.str_of_option (ET.attrib_get "script_type" stanza)
                 ++ " on API URL: "
                 ++ safe_substitute lib template
                      [("host", host); ("apikey", api_key);
                       ("api_key", api_key)]);
                (ERROR, msg)])
           w) = w3).
  { intros msg w3 <-. f_equal. f_equal. unfold w2, w1, set_logged.
    cbn [logged device requested utcnow conf account_api_key log_fault
         sleeps sink].
    rewrite <- !List.app_assoc. reflexivity. }
  destruct (ET.attrib_get "script_type" stanza) as [st|] eqn:St.
  - destruct (String.eqb st "GET_api_generic_xml_output") eqn:E1.
    { apply String.eqb_eq in E1. congruence. }
    destruct (String.eqb st "custom_GET_api_threat_traffic") eqn:E2.
    { apply String.eqb_eq in E2. congruence. }
    rewrite lift_logger_log_ok by exact Hlog2. cbn [fst snd].
    symmetry. apply Hend. reflexivity.
  - rewrite lift_logger_log_ok by exact Hlog2. cbn [fst snd].
    symmetry. apply Hend. reflexivity.
Qed.

(** X9.  Names that are empty once trimmed are skipped without a trace:
    over such names alone the loop changes neither the count nor the
    world. *)
Theorem blank_endpoint_names_are_skipped (names : list string)
    (s : nat * world) :
  Forall (fun name => PyStr.strip name = "") names ->
  loop names s = (Ok tt, s).
Proof.
  intros H. induction H as [|name rest Hname Hrest IH]; [reflexivity|].
  cbn [endpoints_loop]. rewrite Hname. exact IH.
Qed.

End SkippedEndpoints.

Lemma missing_endpoint_config_is_skipped_witness :
  let w := Samples.world_with Samples.no_conf in
  let w' :=
    set_logged
      [(INFO, "Processing API endpoint 'system' for host: 10.0.0.5");
       (ERROR,
        "Error processing endpoint 'system' for host 10.0.0.5: "
        ++ "stanza not found")] w in
  logging_works w
  /\ PyStr.strip " system " <> ""
  /\ conf w "session" (PyStr.strip " system ")
     = Raise (OtherException "stanza not found")
  /\ endpoints_loop Demo.lib "10.0.0.5" "ABC" "session" [("index", "main")]
       "pan:log" "events" [" system "] (0, w)
     = (Ok tt, (0, w')).
Proof.
  intros w w'.
  assert (Hlog : logging_works w) by (intros lvl msg; reflexivity).
  assert (Hname : PyStr.strip " system " <> "") by discriminate.
  split; [exact Hlog|]. split; [exact Hname|]. split; [reflexivity|].
  exact (missing_endpoint_config_is_skipped Demo.lib "10.0.0.5" "ABC"
           "session" [("index", "main")] "pan:log" "events" " system " []
           0 w (OtherException "stanza not found") Hlog Hname eq_refl).
Defined.

Lemma unknown_script_type_is_skipped_witness :
  let w := Samples.world_with Samples.odd_conf in
  let stanza :=
    [("api_url", "https://${host}/api/?key=${apikey}");
     ("script_type", "POST_api")] in
  let run :=
    endpoints_loop Demo.lib "10.0.0.5" "ABC" "session" [("index", "main")]
      "pan:log" "events" ["system"] (0, w) in
  logging_works w
  /\ PyStr.strip "system" <> ""
  /\ conf w "session" (PyStr.strip "system") = Ok stanza
  /\ ET.attrib_get "api_url" stanza
     = Some "https://${host}/api/?key=${apikey}"
  /\ ET.attrib_get "script_type" stanza <> Some "GET_api_generic_xml_output"
  /\ ET.attrib_get "script_type" stanza
     <> Some "custom_GET_api_threat_traffic"
  /\ fst run = Ok tt
  /\ fst (snd run) = 0
  /\ requested (snd (snd run)) = []
  /\ sink (snd (snd run)) = []
  /\ map fst (logged (snd (snd run))) = [INFO; INFO; ERROR].
Proof.
  intros w stanza run.
  assert (Hlog : logging_works w) by (intros lvl msg; reflexivity).
  assert (Hname : PyStr.strip "system" <> "") by discriminate.
  assert (Hg : ET.attrib_get "script_type" stanza
               <> Some "GET_api_generic_xml_output") by discriminate.
  assert (Hc : ET.attrib_get "script_type" stanza
               <> Some "custom_GET_api_threat_traffic") by discriminate.
  pose proof (unknown_script_type_is_skipped Demo.lib "10.0.0.5" "ABC"
                "session" [("index", "main")] "pan:log" "events" "system" []
                0 w stanza "https://${host}/api/?key=${apikey}"
                Hlog Hname eq_refl eq_refl Hg Hc) as Hrun.
  fold run in Hrun.
  split; [exact Hlog|]. split; [exact Hname|]. split; [reflexivity|].
  split; [reflexivity|]. split; [exact Hg|]. split; [exact Hc|].
  rewrite Hrun. repeat split.
Defined.

Lemma blank_endpoint_names_are_skipped_witness :
  let s := (0, Samples.world_with Samples.no_conf) in
  Forall (fun name => PyStr.strip name = "") [""; "  "]
  /\ endpoints_loop Demo.lib "10.0.0.5" "ABC" "session" [("index", "main")]
       "pan:log" "events" [""; "  "] s
     = (Ok tt, s).
Proof.
  intros s.
  assert (H : Forall (fun name => PyStr.strip name = "") [""; "  "])
    by (repeat constructor).
  split; [exact H|].
  exact (blank_endpoint_names_are_skipped Demo.lib "10.0.0.5" "ABC" "session"
           [("index", "main")] "pan:log" "events" [""; "  "] s H).
Defined.

(** ** The count of a host is the number of its events *)

Lemma counted_refl (s : nat * world) : counted s s.
Proof. exists []. split; [now rewrite List.app_nil_r | simpl; lia]. Qed.

Lemma counted_trans (s1 s2 s3 : nat * world) :
  counted s1 s2 -> counted s2 s3 -> counted s1 s3.
Proof.
  intros [e1 [A1 B1]] [e2 [A2 B2]]. exists (e1 ++ e2)%list. split.
  - rewrite A2, A1. now rewrite List.app_assoc.
  - rewrite B2, B1, length_app. lia.
Qed.

Lemma counted_same_sink (n : nat) (w w' : world) :
  sink w' = sink w -> counted (n, w) (n, w').
Proof.
  intros H. exists []. cbn [fst snd]. rewrite H.
  split; [now rewrite List.app_nil_r | simpl; lia].
Qed.

Lemma no_event_sink (w w' : world) : extends no_event w w' -> sink w' = sink w.
Proof.
  intros [_ [_ [_ [evs [E F]]]]]. destruct evs as [|ev evs].
  - now rewrite List.app_nil_r in E.
  - inversion F as [|? ? Hev]. destruct Hev.
Qed.

Lemma warn_record_ingestible (r : value) : warn_record r -> ingestible r.
Proof.
  intros [d [sev [rest [-> [Hk _]]]]]. exists d. split; [reflexivity|].
  left. apply dict_get_none_not_in. rewrite Hk. simpl.
  intuition discriminate.
Qed.

Lemma strategy_records_are_ingestible (lib : Library)
    (api_url endpoint_name : string) (w w' : world) (data : list value) :
  custom_GET_api_threat_traffic lib api_url endpoint_name w = (Ok data, w') ->
  Forall ingestible data.
Proof.
  unfold custom_GET_api_threat_traffic. intros H.
  apply bind_Ok_inv in H. destruct H as [_ [w0 [_ H]]].
  apply bind_Ok_inv in H. destruct H as [parsed_url [w1 [_ H]]].
  apply bind_Ok_inv in H. destruct H as [apikey [w2 [_ H]]].
  apply bind_Ok_inv in H. destruct H as [_ [w3 [_ H]]].
  unfold try_except in H.
  match type of H with
  | match ?body w3 with _ => _ end = _ =>
      destruct (body w3) as [[l|e] w4] eqn:Hbody
  end.
  - inversion H; subst.
    apply bind_Ok_inv in Hbody. destruct Hbody as [now [w5 [_ Hbody]]].
    apply bind_Ok_inv in Hbody. destruct Hbody as [_ [w6 [_ Hbody]]].
    apply bind_Ok_inv in Hbody. destruct Hbody as [resp [w7 [_ Hbody]]].
    apply bind_Ok_inv in Hbody. destruct Hbody as [root [w8 [_ Hbody]]].
    apply bind_Ok_inv in Hbody. destruct Hbody as [_ [w9 [_ Hbody]]].
    apply bind_Ok_inv in Hbody. destruct Hbody as [l [w10 [Hjobs Hbody]]].
    apply bind_Ok_inv in Hbody. destruct Hbody as [_ [w11 [_ Hbody]]].
    inversion Hbody; subst.
    eapply Forall_impl; [apply warn_record_ingestible|].
    eapply jobs_loop_warn; [|exact Hjobs]. constructor.
  - apply bind_Ok_inv in H. destruct H as [_ [w5 [_ H]]]. discriminate.
Qed.

Section CountFacts.

Variable lib : Library.
Hypothesis Hparser : only_parse_errors lib.
Variables (host api_key session_key : string).
Variable input_item : list (string * string).
Variables (sourcetype index_type : string).

Lemma xml_text_of_ok (r : value) :
  ingestible r -> exists t : string, xml_text_of lib r = Ok t.
Proof.
  intros [d [-> [H|[s H]]]]; unfold xml_text_of; rewrite H; eauto.
Qed.

Lemma xml_to_json_ok (xml_text endpoint_name : string) :
  exists v : value, xml_to_json lib xml_text endpoint_name host = Ok v.
Proof.
  unfold xml_to_json. destruct (fromstring lib xml_text) as [root|e] eqn:E.
  - eauto.
  - destruct (Hparser _ _ E) as [m ->]. eauto.
Qed.

Lemma xml_to_metrics_ok (xml_text endpoint_name : string) :
  exists md : dict, xml_to_metrics lib xml_text endpoint_name host = Ok md.
Proof.
  unfold xml_to_metrics. destruct (fromstring lib xml_text) as [root|e] eqn:E.
  - eauto.
  - destruct (Hparser _ _ E) as [m ->]. eauto.
Qed.

Lemma ingest_events_ok (endpoint_name : string) (data : list value) :
  Forall ingestible data ->
  forall (n : nat) (w : world),
    exists (w' : world) (evs : list Event),
      ingest_events lib host input_item sourcetype endpoint_name data (n, w)
      = (Ok tt, (n, w'))
      /\ later w w'
      /\ sink w' = (sink w ++ evs)%list
      /\ List.length evs = List.length data.
Proof.
  intros H. induction H as [|r rest Hr Hrest IH]; intros n w.
  - exists w, []. split; [reflexivity|]. split; [apply later_refl|].
    split; [now rewrite List.app_nil_r | reflexivity].
  - cbn [ingest_events].
    destruct (xml_text_of_ok r Hr) as [t Ht].
    destruct (xml_to_json_ok t endpoint_name) as [v Hv].
    unfold bind at 1. unfold of_result at 1. rewrite Ht.
    unfold bind at 1. unfold of_result at 1. rewrite Hv.
    unfold bind at 1. unfold lift, write_event. cbn [fst snd].
    match goal with
    | |- context [ingest_events _ _ _ _ _ rest (n, ?w1)] =>
        destruct (IH n w1) as [w' [evs [Heq [Hl [Hs Hlen]]]]];
        exists w'; eexists (_ :: evs); rewrite Heq
    end.
    split; [reflexivity|]. split.
    + eapply later_trans; [|exact Hl].
      unfold later. repeat split. exists []. simpl.
      now rewrite List.app_nil_r.
    + split; [|simpl; now rewrite Hlen].
      rewrite Hs. cbn [sink set_sink]. rewrite <- List.app_assoc. reflexivity.
Qed.

Lemma ingest_metrics_ok (endpoint_name : string) (data : list value) :
  Forall ingestible data ->
  forall s : nat * world,
    logging_works (snd s) ->
    exists s' : nat * world,
      ingest_metrics lib host input_item sourcetype endpoint_name data s
      = (Ok tt, s')
      /\ later (snd s) (snd s')
      /\ counted s s'.
Proof.
  intros H. induction H as [|r rest Hr Hrest IH]; intros s Hlog.
  - exists s. split; [reflexivity|]. split; [apply later_refl|].
    apply counted_refl.
  - cbn [ingest_metrics].
    destruct (xml_text_of_ok r Hr) as [t Ht].
    destruct (xml_to_metrics_ok t endpoint_name) as [md Hmd].
    unfold bind at 1. unfold of_result at 1. rewrite Ht.
    unfold bind at 1. unfold of_result at 1. rewrite Hmd.
    destruct (2 <? List.length md)%nat.
    + unfold bind at 1. unfold bind at 1. unfold lift at 1, write_event.
      cbn [fst snd]. unfold bind at 1. unfold modify_local at 1.
      cbn [fst snd].
      destruct s as [n w]. cbn [fst snd] in *.
      set (w1 := set_sink _ w).
      assert (Hl1 : later w w1).
      { unfold later. repeat split. exists []. simpl.
        now rewrite List.app_nil_r. }
      rewrite lift_logger_log_ok
        by (eapply later_logging_works; [exact Hl1 | exact Hlog]).
      cbn [fst snd].
      set (w2 := set_logged _ w1).
      assert (Hl2 : later w w2).
      { eapply later_trans; [exact Hl1 | apply later_set_logged]. }
      destruct (IH (n + 1, w2)) as [s' [Heq [Hl Hc]]].
      { eapply later_logging_works; eauto. }
      exists s'. split; [exact Heq|]. split.
      * eapply later_trans; eauto.
      * eapply counted_trans; [|exact Hc].
        eexists [_]. cbn [fst snd]. split; [reflexivity | simpl; lia].
    + unfold bind at 1. unfold ret at 1. now apply IH.
Qed.

Lemma ingest_ok (endpoint_name : string) (data : list value)
    (s : nat * world) :
  Forall ingestible data ->
  logging_works (snd s) ->
  exists s' : nat * world,
    ingest lib host input_item sourcetype index_type endpoint_name data s
    = (Ok tt, s')
    /\ later (snd s) (snd s')
    /\ counted s s'.
Proof.
  intros Hdata Hlog. unfold ingest.
  destruct (String.eqb index_type "metrics").
  - now apply ingest_metrics_ok.
  - destruct s as [n w]. cbn [snd] in Hlog.
    destruct (ingest_events_ok endpoint_name data Hdata n w)
      as [w' [evs [Heq [Hl [Hs Hlen]]]]].
    unfold bind at 1. rewrite Heq.
    unfold bind at 1. unfold modify_local. cbn [fst snd].
    rewrite lift_logger_log_ok
      by (eapply later_logging_works; [exact Hl | exact Hlog]).
    eexists. split; [reflexivity|]. cbn [fst snd]. split.
    + eapply later_trans; [exact Hl | apply later_set_logged].
    + exists evs. cbn [fst snd sink set_logged]. split; [exact Hs | lia].
Qed.

Lemma GET_api_generic_data (api_url endpoint_name : string) (w w' : world)
    (data : list value) :
  GET_api_generic api_url endpoint_name w = (Ok data, w') ->
  Forall ingestible data.
Proof.
  unfold GET_api_generic. intros H.
  apply bind_Ok_inv in H. destruct H as [_ [w1 [_ H]]].
  unfold try_except in H.
  match type of H with
  | match ?body w1 with _ => _ end = _ =>
      destruct (body w1) as [[l|e] w2] eqn:Hbody
  end.
  - inversion H; subst.
    apply bind_Ok_inv in Hbody. destruct Hbody as [t [w3 [_ Hbody]]].
    apply bind_Ok_inv in Hbody. destruct Hbody as [_ [w4 [_ Hbody]]].
    inversion Hbody; subst. repeat constructor.
    eexists. split; [reflexivity|]. right. eexists. reflexivity.
  - destruct e.
    + apply bind_Ok_inv in H. destruct H as [_ [w3 [_ H]]]. discriminate.
    + discriminate.
    + discriminate.
Qed.

Lemma handler_then_ingest (endpoint_name : string)
    (handler : M world (list value)) (n : nat) (w : world) :
  respects (fun w => w) no_event handler ->
  (forall w0 w1 data, handler w0 = (Ok data, w1) -> Forall ingestible data) ->
  logging_works w ->
  exists (r : Result unit) (s' : nat * world),
    bind (lift handler)
         (fun data =>
            ingest lib host input_item sourcetype index_type endpoint_name
                   data) (n, w)
    = (r, s')
    /\ later w (snd s')
    /\ counted (n, w) s'.
Proof.
  intros Hres Hdata Hlog. unfold bind, lift. cbn [fst snd].
  pose proof (Hres w) as Hext. cbn beta in Hext.
  destruct (handler w) as [[data|e] w1] eqn:Hh; cbn [snd] in Hext.
  - destruct (ingest_ok endpoint_name data (n, w1)) as [s' [Heq [Hl Hc]]].
    + eapply Hdata; eauto.
    + eapply extends_logging_works; eauto.
    + rewrite Heq. do 2 eexists. split; [reflexivity|]. split.
      * eapply later_trans; [|exact Hl]. apply Hext.
      * eapply counted_trans; [|exact Hc].
        apply counted_same_sink. now apply no_event_sink.
  - do 2 eexists. split; [reflexivity|]. cbn [snd]. split; [apply Hext|].
    apply counted_same_sink. now apply no_event_sink.
Qed.

Lemma process_endpoint_counted (endpoint_name : string) (s : nat * world) :
  logging_works (snd s) ->
  exists (r : Result unit) (s' : nat * world),
    process_endpoint lib host api_key session_key input_item sourcetype
                     index_type endpoint_name s = (r, s')
    /\ later (snd s) (snd s')
    /\ counted s s'.
Proof.
  intros Hlog. destruct s as [n w]. cbn [snd] in Hlog.
  unfold process_endpoint.
  unfold bind at 1. unfold lift at 1, get_api_endpoint_config. cbn [fst snd].
  destruct (conf w session_key endpoint_name) as [stanza|e].
  2:{ do 2 eexists. split; [reflexivity|]. split; [apply later_refl|].
      apply counted_refl. }
  unfold bind at 1. unfold of_result at 1.
  destruct (substitute_variables lib (ET.attrib_get "api_url" stanza) _)
    as [api_url|e].
  2:{ do 2 eexists. split; [reflexivity|]. split; [apply later_refl|].
      apply counted_refl. }
  unfold bind at 1. rewrite lift_logger_log_ok by exact Hlog. cbn [fst snd].
  set (w1 := set_logged _ w).
  assert (Hl1 : later w w1) by apply later_set_logged.
  assert (Hlog1 : logging_works w1) by (eapply later_logging_works; eauto).
  assert (Hc1 : counted (n, w) (n, w1)) by (now apply counted_same_sink).
  assert (Hwrap :
    forall (r : Result unit) (s' : nat * world),
      later w1 (snd s') /\ counted (n, w1) s' ->
      later w (snd s') /\ counted (n, w) s').
  { intros r s' [A B]. split.
    - exact (later_trans _ _ _ Hl1 A).
    - exact (counted_trans _ _ _ Hc1 B). }
  destruct (ET.attrib_get "script_type" stanza) as [st|].
  - destruct (String.eqb st "GET_api_generic_xml_output").
    { destruct (handler_then_ingest endpoint_name
                  (GET_api_generic api_url endpoint_name) n w1)
        as [r [s' [Heq H]]]; auto.
      - apply respects_GET_api_generic.
      - intros w0 w2 data. apply GET_api_generic_data.
      - exists r, s'. split; [exact Heq|]. now apply (Hwrap r). }
    destruct (String.eqb st "custom_GET_api_threat_traffic").
    { destruct (handler_then_ingest endpoint_name
                  (custom_GET_api_threat_traffic lib api_url endpoint_name)
                  n w1) as [r [s' [Heq H]]]; auto.
      - apply respects_custom_GET_api_threat_traffic.
      - intros w0 w2 data. apply strategy_records_are_ingestible.
      - exists r, s'. split; [exact Heq|]. now apply (Hwrap r). }
    rewrite lift_logger_log_ok by exact Hlog1. cbn [fst snd].
    do 2 eexists. split; [reflexivity|]. apply (Hwrap (Ok tt)). cbn [snd].
    split; [apply later_set_logged | now apply counted_same_sink].
  - rewrite lift_logger_log_ok by exact Hlog1. cbn [fst snd].
    do 2 eexists. split; [reflexivity|]. apply (Hwrap (Ok tt)). cbn [snd].
    split; [apply later_set_logged | now apply counted_same_sink].
Qed.

End CountFacts.

Section HostCount.

Variable lib : Library.
Hypothesis Hparser : only_parse_errors lib.
Variables (host api_key session_key : string).
Variable input_item : list (string * string).
Variables (sourcetype index_type : string).

Lemma endpoints_loop_counted (names : list string) :
  forall s : nat * world,
    logging_works (snd s) ->
    exists s' : nat * world,
      endpoints_loop lib host api_key session_key input_item sourcetype
                     index_type names s = (Ok tt, s')
      /\ later (snd s) (snd s')
      /\ counted s s'.
Proof.
  induction names as [|name rest IH]; intros s Hlog.
  - exists s. split; [reflexivity|]. split; [apply later_refl|].
    apply counted_refl.
  - cbn [endpoints_loop].
    destruct (PyStr.truthy (PyStr.strip name)); cbn [negb]; [|now apply IH].
    unfold bind at 1. rewrite lift_logger_log_ok by exact Hlog.
    destruct s as [n w]. cbn [fst snd] in *.
    set (w1 := set_logged _ w).
    assert (Hl1 : later w w1) by apply later_set_logged.
    assert (Hlog1 : logging_works w1) by (eapply later_logging_works; eauto).
    destruct (process_endpoint_counted lib Hparser host api_key session_key
                input_item sourcetype index_type (PyStr.strip name) (n, w1)
                Hlog1) as [r [s2 [Heq [Hl2 Hc2]]]].
    cbn [snd] in Hl2.
    assert (Hlog2 : logging_works (snd s2))
      by (eapply later_logging_works; eauto).
    unfold bind at 1. unfold try_except. rewrite Heq.
    assert (Hc1 : counted (n, w) s2).
    { eapply counted_trans; [|exact Hc2]. now apply counted_same_sink. }
    destruct r as [u|e].
    + destruct (IH s2 Hlog2) as [s3 [Heq3 [Hl3 Hc3]]].
      exists s3. split; [exact Heq3|]. split.
      * eapply later_trans; [exact Hl1|]. eapply later_trans; eauto.
      * eapply counted_trans; eauto.
    + rewrite lift_logger_log_ok by exact Hlog2.
      destruct s2 as [n2 w2]. cbn [fst snd] in *.
      set (w3 := set_logged _ w2).
      assert (Hl3 : later w2 w3) by apply later_set_logged.
      destruct (IH (n2, w3)) as [s4 [Heq4 [Hl4 Hc4]]].
      { eapply later_logging_works; eauto. }
      exists s4. split; [exact Heq4|]. split.
      * eapply later_trans; [exact Hl1|]. eapply later_trans; [exact Hl2|].
        eapply later_trans; eauto.
      * eapply counted_trans; [exact Hc1|].
        eapply counted_trans; [|exact Hc4]. now apply counted_same_sink.
Qed.

End HostCount.

(** X10.  When the logger works and the parser raises nothing but parse
    errors, the count that [process_host_endpoints] returns is the number
    of events it has written to the sink, in either mode and whatever the
    devices and the configuration store do. *)
Theorem returned_count_is_number_of_events (lib : Library)
    (host api_key : string) (api_endpoints : list string)
    (session_key : string) (input_item : list (string * string))
    (sourcetype index_type : string) (w : world) :
  logging_works w ->
  only_parse_errors lib ->
  exists (n : nat) (w' : world) (evs : list Event),
    process_host_endpoints lib host api_key api_endpoints session_key
                           input_item sourcetype index_type w
    = (Ok (host, n, true), w')
    /\ sink w' = (sink w ++ evs)%list
    /\ List.length evs = n.
Proof.
  intros Hlog Hparser.
  unfold process_host_endpoints, run_local, try_except, host_body.
  unfold bind at 1. rewrite lift_logger_log_ok by exact Hlog.
  cbn [fst snd].
  set (w1 := set_logged _ w).
  assert (Hlog1 : logging_works w1).
  { eapply later_logging_works; [apply later_set_logged | exact Hlog]. }
  destruct (endpoints_loop_counted lib Hparser host api_key session_key
              input_item sourcetype index_type api_endpoints (0, w1) Hlog1)
    as [[n2 w2] [Heq [Hl [evs [Hs Hn]]]]].
  cbn [fst snd] in *.
  unfold bind at 1. rewrite Heq.
  unfold bind at 1. unfold get_local. cbn [fst snd].
  unfold bind at 1. rewrite lift_logger_log_ok
    by (eapply later_logging_works; eauto).
  unfold ret. cbn [fst snd].
  exists n2. eexists. exists evs. split; [reflexivity|].
  cbn [sink set_logged]. split; [exact Hs | lia].
Qed.

Lemma demo_only_parse_errors : only_parse_errors Demo.lib.
Proof.
  intros s e. cbn [fromstring Demo.lib]. unfold Demo.fromstring.
  destruct (Demo.lookup s Demo.documents); [discriminate|].
  destruct (negb (PyStr.truthy s)); [intros H; inversion H; eauto|].
  destruct (PyStr.startswith "{" s); intros H; inversion H; eauto.
Qed.

Lemma returned_count_is_number_of_events_witness :
  let w := Demo.start Demo.no_fault in
  let run :=
    process_host_endpoints Demo.lib "10.0.0.5" "ABC" ["threats"; "system"]
      "session" [("index", "main")] "pan:log" "events" w in
  logging_works w
  /\ only_parse_errors Demo.lib
  /\ fst run = Ok ("10.0.0.5", 1, true)
  /\ List.length (sink (snd run)) = 1
  /\ exists (n : nat) (w' : world) (evs : list Event),
       run = (Ok ("10.0.0.5", n, true), w')
       /\ sink w' = (sink w ++ evs)%list
       /\ List.length evs = n.
Proof.
  intros w run.
  assert (Hlog : logging_works w) by (intros lvl msg; reflexivity).
  split; [exact Hlog|]. split; [exact demo_only_parse_errors|].
  split; [vm_compute; reflexivity|]. split; [vm_compute; reflexivity|].
  exact (returned_count_is_number_of_events Demo.lib "10.0.0.5" "ABC"
           ["threats"; "system"] "session" [("index", "main")] "pan:log"
           "events" w Hlog demo_only_parse_errors).
Defined.

(** ** The generic strategy, end to end *)

Lemma GET_api_generic_success (api_url endpoint_name body : string)
    (w : world) :
  logging_works w ->
  device w (requested w) api_url = Ok body ->
  exists w' : world,
    GET_api_generic api_url endpoint_name w
    = (Ok [VDict [("_raw", VStr body)]], w')
    /\ later w w'
    /\ requested w' = (requested w ++ [api_url])%list
    /\ sink w' = sink w.
Proof.
  intros Hlog Hdev. unfold GET_api_generic.
  unfold bind at 1. rewrite logger_log_ok by exact Hlog.
  set (w1 := set_logged _ w).
  assert (Hlog1 : logging_works w1).
  { eapply later_logging_works; [apply later_set_logged | exact Hlog]. }
  unfold try_except. unfold bind at 1. unfold requests_get.
  change (device w1 (requested w1) api_url) with (device w (requested w) api_url).
  rewrite Hdev. unfold bind at 1. rewrite logger_log_ok.
  2:{ eapply later_logging_works; [apply later_set_requested | exact Hlog1]. }
  unfold ret. eexists. split; [reflexivity|]. split.
  - eapply later_trans; [apply later_set_logged|].
    eapply later_trans; [apply later_set_requested | apply later_set_logged].
  - split; reflexivity.
Qed.

Section GenericEndpoint.

Variable lib : Library.
Variables (host api_key session_key : string).
Variable input_item : list (string * string).
Variables (sourcetype index_type endpoint_name : string).
Variables (stanza : list (string * string)) (template body : string).

Local Abbreviation api_url :=
  (safe_substitute lib template
     [("host", host); ("apikey", api_key); ("api_key", api_key)]).

Lemma generic_endpoint_data (n : nat) (w : world) :
  logging_works w ->
  conf w session_key endpoint_name = Ok stanza ->
  ET.attrib_get "api_url" stanza = Some template ->
  ET.attrib_get "script_type" stanza = Some "GET_api_generic_xml_output" ->
  device w (requested w) api_url = Ok body ->
  exists w1 : world,
    process_endpoint lib host api_key session_key input_item sourcetype
                     index_type endpoint_name (n, w)
    = ingest lib host input_item sourcetype index_type endpoint_name
             [VDict [("_raw", VStr body)]] (n, w1)
    /\ later w w1
    /\ requested w1 = (requested w ++ [api_url])%list
    /\ sink w1 = sink w.
Proof.
  intros Hlog Hconf Hurl Hst Hdev. unfold process_endpoint.
  unfold bind at 1. unfold lift at 1, get_api_endpoint_config. cbn [fst snd].
  rewrite Hconf, Hurl, Hst.
  unfold bind at 1. unfold of_result at 1, substitute_variables.
  unfold bind at 1. rewrite lift_logger_log_ok by exact Hlog. cbn [fst snd].
  set (w0 := set_logged _ w).
  assert (Hl0 : later w w0) by apply later_set_logged.
  assert (Hlog0 : logging_works w0) by (eapply later_logging_works; eauto).
  rewrite String.eqb_refl.
  destruct (GET_api_generic_success api_url endpoint_name body w0 Hlog0 Hdev)
    as [w1 [Heq [Hl1 [Hr1 Hs1]]]].
  unfold bind at 1. unfold lift at 1. cbn [fst snd]. rewrite Heq.
  exists w1. split; [reflexivity|]. split; [eapply later_trans; eauto|].
  split; [exact Hr1 | exact Hs1].
Qed.

(** X11.  In record mode, an endpoint of the generic strategy whose
    request succeeds makes that one request and writes exactly one event:
    the serialised record that [xml_to_json] gives for the body of the
    reply - the structured data, or the error record when the body does
    not parse - with the index of the input, the sourcetype, the source
    label of the endpoint and the host; the count grows by one. *)
Theorem generic_endpoint_writes_one_record (n : nat) (w : world)
    (record : value) :
  logging_works w ->
  index_type <> "metrics" ->
  conf w session_key endpoint_name = Ok stanza ->
  ET.attrib_get "api_url" stanza = Some template ->
  ET.attrib_get "script_type" stanza = Some "GET_api_generic_xml_output" ->
  device w (requested w) api_url = Ok body ->
  xml_to_json lib body endpoint_name host = Ok record ->
  exists w' : world,
    process_endpoint lib host api_key session_key input_item sourcetype
                     index_type endpoint_name (n, w)
    = (Ok tt, (n + 1, w'))
    /\ requested w' = (requested w ++ [api_url])%list
    /\ sink w'
       = (sink w
          ++ [mkEvent (Json.dumps lib record)
                      (ET.attrib_get "index" input_item) sourcetype
                      (String.append "palo_alto:" endpoint_name) host])%list.
Proof.
  intros Hlog Hmode Hconf Hurl Hst Hdev Hrec.
  destruct (generic_endpoint_data n w Hlog Hconf Hurl Hst Hdev)
    as [w1 [Heq [Hl1 [Hr1 Hs1]]]].
  rewrite Heq. unfold ingest.
  destruct (String.eqb index_type "metrics") eqn:E.
  { apply String.eqb_eq in E. contradiction. }
  unfold bind at 1. cbn [ingest_events].
  unfold bind at 1. unfold of_result at 1. cbn [xml_text_of dict_get].
  cbn [String.eqb Ascii.eqb Bool.eqb andb].
  unfold bind at 1. unfold of_result at 1. rewrite Hrec.
  unfold bind at 1. unfold lift at 1, write_event. cbn [fst snd].
  unfold ret at 1.
  unfold bind at 1. unfold modify_local at 1. cbn [fst snd].
  rewrite lift_logger_log_ok.
  2:{ cbn [snd]. eapply later_logging_works; [|exact Hlog].
      eapply later_trans; [exact Hl1|].
      unfold later. repeat split. exists []. simpl.
      now rewrite List.app_nil_r. }
  cbn [fst snd List.length]. eexists. split; [reflexivity|].
  cbn [requested sink set_logged set_sink]. rewrite Hr1, Hs1.
  split; reflexivity.
Qed.

(** X12.  In metric mode, the same endpoint writes the serialised metric
    mapping as one event and counts it when the mapping holds more than
    the endpoint and the host, and writes and counts nothing otherwise. *)
Theorem empty_metric_set_is_not_written (n : nat) (w : world) (md : dict) :
  logging_works w ->
  index_type = "metrics" ->
  conf w session_key endpoint_name = Ok stanza ->
  ET.attrib_get "api_url" stanza = Some template ->
  ET.attrib_get "script_type" stanza = Some "GET_api_generic_xml_output" ->
  device w (requested w) api_url = Ok body ->
  xml_to_metrics lib body endpoint_name host = Ok md ->
  exists w' : world,
    process_endpoint lib host api_key session_key input_item sourcetype
                     index_type endpoint_name (n, w)
    = (Ok tt, (if (2 <? List.length md)%nat then n + 1 else n, w'))
    /\ requested w' = (requested w ++ [api_url])%list
    /\ sink w'
       = (sink w
          ++ if (2 <? List.length md)%nat then
               [mkEvent (Json.dumps lib (VDict md))
                        (ET.attrib_get "index" input_item) sourcetype
                        (String.append "palo_alto:" endpoint_name) host]
             else [])%list.
Proof.
  intros Hlog Hmode Hconf Hurl Hst Hdev Hmd.
  destruct (generic_endpoint_data n w Hlog Hconf Hurl Hst Hdev)
    as [w1 [Heq [Hl1 [Hr1 Hs1]]]].
  rewrite Heq. unfold ingest. rewrite Hmode. cbn [String.eqb Ascii.eqb Bool.eqb andb].
  cbn [ingest_metrics].
  unfold bind at 1. unfold of_result at 1. cbn [xml_text_of dict_get].
  cbn [String.eqb Ascii.eqb Bool.eqb andb].
  unfold bind at 1. unfold of_result at 1. rewrite Hmd.
  destruct (2 <? List.length md)%nat.
  - unfold bind at 1. unfold bind at 1. unfold lift at 1, write_event.
    cbn [fst snd]. unfold bind at 1. unfold modify_local at 1. cbn [fst snd].
    rewrite lift_logger_log_ok.
    2:{ cbn [snd]. eapply later_logging_works; [|exact Hlog].
        eapply later_trans; [exact Hl1|].
        unfold later. repeat split. exists []. simpl.
        now rewrite List.app_nil_r. }
    cbn [fst snd]. unfold ret. eexists. split; [reflexivity|].
    cbn [requested sink set_logged set_sink]. rewrite Hr1, Hs1.
    split; reflexivity.
  - unfold bind at 1. unfold ret. exists w1. split; [reflexivity|].
    rewrite Hr1, Hs1, List.app_nil_r. split; reflexivity.
Qed.

End GenericEndpoint.

Lemma generic_endpoint_writes_one_record_witness :
  let w := Samples.generic_world in
  let stanza :=
    [("api_url", "https://${host}/api/?key=${apikey}");
     ("script_type", "GET_api_generic_xml_output")] in
  let record :=
    VDict [("endpoint", VStr "system"); ("host", VStr "10.0.0.5");
           ("data",
            VDict [("r", VDict [("cpu", VInt 15); ("name", VStr "fw1");
                                ("mem", VDict [("used", VInt 62)])])])] in
  logging_works w
  /\ "events" <> "metrics"
  /\ conf w "session" "system" = Ok stanza
  /\ device w (requested w) "https://10.0.0.5/api/?key=ABC"
     = Ok Samples.system_text
  /\ xml_to_json Demo.lib Samples.system_text "system" "10.0.0.5" = Ok record
  /\ exists w' : world,
       process_endpoint Demo.lib "10.0.0.5" "ABC" "session" [("index", "main")]
                        "pan:log" "events" "system" (0, w)
       = (Ok tt, (0 + 1, w'))
       /\ requested w'
          = (requested w ++ ["https://10.0.0.5/api/?key=ABC"])%list
       /\ sink w'
          = (sink w
             ++ [mkEvent (Json.dumps Demo.lib record) (Some "main") "pan:log"
                         "palo_alto:system" "10.0.0.5"])%list.
Proof.
  intros w stanza record.
  assert (Hlog : logging_works w) by (intros lvl msg; reflexivity).
  assert (Hmode : "events" <> "metrics") by discriminate.
  split; [exact Hlog|]. split; [exact Hmode|]. split; [reflexivity|].
  split; [reflexivity|]. split; [reflexivity|].
  exact (generic_endpoint_writes_one_record Demo.lib "10.0.0.5" "ABC" "session"
           [("index", "main")] "pan:log" "events" "system" stanza
           "https://${host}/api/?key=${apikey}" Samples.system_text 0 w record
           Hlog Hmode eq_refl eq_refl eq_refl eq_refl eq_refl).
Defined.

Lemma empty_metric_set_is_not_written_witness :
  let w := Samples.generic_world in
  let stanza :=
    [("api_url", "https://${host}/api/?key=${apikey}");
     ("script_type", "GET_api_generic_xml_output")] in
  let md :=
    [("endpoint", VStr "system"); ("host", VStr "10.0.0.5");
     ("metric_name:cpu", VFloat 15); ("metric_name:mem.used", VFloat 62)] in
  logging_works w
  /\ conf w "session" "system" = Ok stanza
  /\ device w (requested w) "https://10.0.0.5/api/?key=ABC"
     = Ok Samples.system_text
  /\ xml_to_metrics Demo.lib Samples.system_text "system" "10.0.0.5" = Ok md
  /\ exists w' : world,
       process_endpoint Demo.lib "10.0.0.5" "ABC" "session" [("index", "main")]
                        "pan:log" "metrics" "system" (0, w)
       = (Ok tt, (if (2 <? List.length md)%nat then 0 + 1 else 0, w'))
       /\ requested w'
          = (requested w ++ ["https://10.0.0.5/api/?key=ABC"])%list
       /\ sink w'
          = (sink w
             ++ if (2 <? List.length md)%nat then
                  [mkEvent (Json.dumps Demo.lib (VDict md)) (Some "main")
                           "pan:log" "palo_alto:system" "10.0.0.5"]
                else [])%list.
Proof.
  intros w stanza md.
  assert (Hlog : logging_works w) by (intros lvl msg; reflexivity).
  split; [exact Hlog|]. split; [reflexivity|]. split; [reflexivity|].
  split; [reflexivity|].
  exact (empty_metric_set_is_not_written Demo.lib "10.0.0.5" "ABC" "session"
           [("index", "main")] "pan:log" "metrics" "system" stanza
           "https://${host}/api/?key=${apikey}" Samples.system_text 0 w md
           Hlog eq_refl eq_refl eq_refl eq_refl eq_refl eq_refl).
Defined.

(** ** When a metric mapping is more than its two dimensions *)

Lemma dict_get_some_in (k : string) (v : value) (d : dict) :
  dict_get k d = Some v -> In k (map fst d).
Proof.
  induction d as [|[k' v'] r IH]; simpl; [discriminate|].
  destruct (String.eqb k k') eqn:E.
  - apply String.eqb_eq in E. auto.
  - auto.
Qed.

Lemma is_numeric_spec (lib : Library) (e : Element) :
  is_numeric lib e = true <-> exists x : float, numeric_text lib e x.
Proof.
  unfold is_numeric, numeric_text. split.
  - destruct (stripped_text e) as [t|]; [|discriminate].
    destruct (float_of_string lib t) as [x|] eqn:F; [|discriminate].
    intros _. exists x, t. auto.
  - intros [x [t [-> ->]]]. reflexivity.
Qed.

Lemma fold_visit_distinct (lib : Library) (l : list (string * Element)) :
  forall md : dict,
    distinct_keys md -> distinct_keys (fold_left (record_visit lib) l md).
Proof.
  induction l as [|pc l IH]; intros md H; [exact H|].
  cbn [fold_left]. apply IH. unfold record_visit, record_metric.
  destruct (stripped_text (snd pc)); auto.
  destruct (float_of_string lib s); auto. now apply distinct_keys_set.
Qed.

Lemma fold_visit_none_numeric (lib : Library) (l : list (string * Element)) :
  existsb (fun pc => is_numeric lib (snd pc)) l = false ->
  forall md : dict, fold_left (record_visit lib) l md = md.
Proof.
  induction l as [|[mp c] l IH]; intros H md; [reflexivity|].
  cbn [existsb snd] in H. apply orb_false_iff in H. destruct H as [H1 H2].
  cbn [fold_left]. rewrite IH by exact H2.
  unfold record_visit, record_metric, is_numeric in *. cbn [fst snd].
  destruct (stripped_text c); auto.
  destruct (float_of_string lib s); [discriminate | reflexivity].
Qed.

(** X13.  For a document that parses, the mapping of [xml_to_metrics] has
    more than its two entries [endpoint] and [host] exactly when some
    element below the root has a trimmed text that [float] reads; for a
    text that does not parse it has the two entries alone. *)
Theorem metric_set_is_nonempty_iff_numeric (lib : Library)
    (xml_text endpoint_name host : string) :
  (forall root : Element,
      fromstring lib xml_text = Ok root ->
      exists md : dict,
        xml_to_metrics lib xml_text endpoint_name host = Ok md
        /\ ((2 <? List.length md)%nat = true
            <-> exists (tags : list string) (e : Element),
                  In (tags, e) (descendants root)
                  /\ is_numeric lib e = true))
  /\
  (forall m : string,
      fromstring lib xml_text = Raise (ParseError m) ->
      exists md : dict,
        xml_to_metrics lib xml_text endpoint_name host = Ok md
        /\ (2 <? List.length md)%nat = false).
Proof.
  split.
  - intros root Hparse. unfold xml_to_metrics. rewrite Hparse.
    eexists. split; [reflexivity|].
    rewrite extract_metrics_visited, visited_descendants.
    set (md0 := [("endpoint", VStr endpoint_name); ("host", VStr host)]).
    set (l := map _ (descendants root)).
    destruct (existsb (fun pc => is_numeric lib (snd pc)) l) eqn:E.
    + apply existsb_exists in E. destruct E as [[mp c] [Hin Hnum]].
      cbn [snd] in Hnum. split; intros _.
      * unfold l in Hin. apply in_map_iff in Hin.
        destruct Hin as [[tags e] [Heq Hin]]. cbn [fst snd] in Heq.
        inversion Heq; subst. eauto.
      * apply is_numeric_spec in Hnum. destruct Hnum as [x Hx].
        destruct (fold_visit_complete lib l md0 mp c x Hin Hx) as [v Hv].
        destruct (fold_visit_keeps lib "endpoint" l md0 (VStr endpoint_name)
                    eq_refl) as [v1 H1].
        destruct (fold_visit_keeps lib "host" l md0 (VStr host) eq_refl)
          as [v2 H2].
        assert (Hd : distinct_keys (fold_left (record_visit lib) l md0)).
        { apply fold_visit_distinct. unfold md0, distinct_keys. simpl.
          repeat constructor; simpl; intuition discriminate. }
        apply Nat.ltb_lt.
        assert (Hincl : incl ["endpoint"; "host"; "metric_name:" ++ mp]
                             (map fst (fold_left (record_visit lib) l md0))).
        { intros k [<-|[<-|[<-|[]]]]; eapply dict_get_some_in; eauto. }
        assert (Hnd : NoDup ["endpoint"; "host"; "metric_name:" ++ mp]).
        { repeat constructor; simpl; intuition discriminate. }
        pose proof (NoDup_incl_length Hnd Hincl) as Hlen.
        rewrite length_map in Hlen. simpl in Hlen. lia.
    + rewrite fold_visit_none_numeric by exact E. split.
      * discriminate.
      * intros [tags [e [Hin Hnum]]]. exfalso.
        assert (Hex : existsb (fun pc => is_numeric lib (snd pc)) l = true).
        { apply existsb_exists.
          exists (fold_left metric_path_of tags "", e). split; [|exact Hnum].
          unfold l. apply in_map_iff. exists (tags, e). auto. }
        congruence.
  - intros m Hparse. unfold xml_to_metrics. rewrite Hparse.
    eexists. split; reflexivity.
Qed.

Lemma metric_set_is_nonempty_iff_numeric_witness :
  fromstring Demo.lib Samples.system_text = Ok Samples.system_doc
  /\ fromstring Demo.lib "not xml"
     = Raise (ParseError "syntax error: line 1, column 0")
  /\ (exists md : dict,
        xml_to_metrics Demo.lib Samples.system_text "system" "10.0.0.5" = Ok md
        /\ ((2 <? List.length md)%nat = true
            <-> exists (tags : list string) (e : Element),
                  In (tags, e) (descendants Samples.system_doc)
                  /\ is_numeric Demo.lib e = true))
  /\ (exists md : dict,
        xml_to_metrics Demo.lib "not xml" "system" "10.0.0.5" = Ok md
        /\ (2 <? List.length md)%nat = false).
Proof.
  split; [reflexivity|]. split; [reflexivity|]. split.
  - exact (proj1 (metric_set_is_nonempty_iff_numeric Demo.lib
                    Samples.system_text "system" "10.0.0.5")
             Samples.system_doc eq_refl).
  - exact (proj2 (metric_set_is_nonempty_iff_numeric Demo.lib
                    "not xml" "system" "10.0.0.5")
             "syntax error: line 1, column 0" eq_refl).
Defined.

(** ** Elements that share a metric path *)

Lemma fold_visit_untouched (lib : Library) (mp : string)
    (l : list (string * Element)) :
  (forall c : Element, In (mp, c) l -> is_numeric lib c = false) ->
  forall md : dict,
    dict_get ("metric_name:" ++ mp) (fold_left (record_visit lib) l md)
    = dict_get ("metric_name:" ++ mp) md.
Proof.
  induction l as [|[mp' c] l IH]; intros H md; [reflexivity|].
  cbn [fold_left]. rewrite IH by (intros c' Hc'; apply H; now right).
  unfold record_visit, record_metric. cbn [fst snd].
  destruct (stripped_text c) as [t|] eqn:T; auto.
  destruct (float_of_string lib t) as [x|] eqn:F; auto.
  apply dict_get_set_other. intros E.
  assert (Hmp : mp = mp') by (cbn in E; congruence). subst mp'.
  specialize (H c (or_introl eq_refl)). unfold is_numeric in H.
  rewrite T, F in H. discriminate.
Qed.

(** X14.  When several elements of a document have the same dotted path,
    the metric of that path is the float of the last of them, in document
    order, that has a numeric text: an element [e] with the float [x],
    followed by no numeric element of the same path, leaves [x] under its
    path. *)
Theorem last_numeric_element_wins (lib : Library)
    (xml_text endpoint_name host : string) (root : Element)
    (before after : list (list string * Element)) (tags : list string)
    (e : Element) (x : float) :
  fromstring lib xml_text = Ok root ->
  Forall (fun c => tag c <> "") (children root) ->
  descendants root = (before ++ (tags, e) :: after)%list ->
  numeric_text lib e x ->
  (forall (tags' : list string) (e' : Element),
      In (tags', e') after ->
      PyStr.join "." tags' = PyStr.join "." tags ->
      is_numeric lib e' = false) ->
  exists metrics_data : dict,
    xml_to_metrics lib xml_text endpoint_name host = Ok metrics_data
    /\ dict_get ("metric_name:" ++ PyStr.join "." tags) metrics_data
       = Some (VFloat x).
Proof.
  intros Hparse Hwf Hsplit [t [T F]] Hafter.
  unfold xml_to_metrics. rewrite Hparse. eexists. split; [reflexivity|].
  rewrite extract_metrics_visited, visited_descendants.
  assert (Hpath : forall (ts : list string) (d : Element),
            In (ts, d) (descendants root) ->
            fold_left metric_path_of ts "" = PyStr.join "." ts).
  { intros ts d Hin. exact (visited_path_is_dotted root ts d Hwf Hin). }
  assert (Hin : In (tags, e) (descendants root)).
  { rewrite Hsplit. apply in_or_app. right. now left. }
  rewrite <- (Hpath tags e Hin).
  assert (Hin_after : forall (ts : list string) (d : Element),
            In (ts, d) after -> In (ts, d) (descendants root)).
  { intros ts d H. rewrite Hsplit. apply in_or_app. right. now right. }
  rewrite Hsplit, map_app, fold_left_app. cbn [map fold_left fst snd].
  rewrite fold_visit_untouched.
  - unfold record_visit at 1, record_metric. cbn [fst snd]. rewrite T, F.
    apply dict_get_set_same.
  - intros c Hc. apply in_map_iff in Hc. destruct Hc as [[ts d] [Heq Hd]].
    cbn [fst snd] in Heq. inversion Heq; subst c.
    apply (Hafter ts d Hd).
    rewrite <- (Hpath ts d (Hin_after ts d Hd)), <- (Hpath tags e Hin).
    assumption.
Qed.

Lemma last_numeric_element_wins_witness :
  let first := mkElement "a" [] (Some "1") [] in
  let second := mkElement "a" [] (Some "2") [] in
  fromstring Demo.lib "<r><a>1</a><a>2</a></r>" = Ok r_doc
  /\ descendants r_doc = ([(["a"], first)] ++ (["a"], second) :: [])%list
  /\ numeric_text Demo.lib second 2%float
  /\ exists metrics_data : dict,
       xml_to_metrics Demo.lib "<r><a>1</a><a>2</a></r>" "system" "10.0.0.5"
       = Ok metrics_data
       /\ dict_get ("metric_name:" ++ PyStr.join "." ["a"]) metrics_data
          = Some (VFloat 2).
Proof.
  intros first second.
  assert (Hnum : numeric_text Demo.lib second 2%float).
  { exists "2". split; reflexivity. }
  assert (Hwf : Forall (fun c => tag c <> "") (children r_doc)).
  { repeat constructor; discriminate. }
  split; [reflexivity|]. split; [reflexivity|]. split; [exact Hnum|].
  apply (last_numeric_element_wins Demo.lib "<r><a>1</a><a>2</a></r>"
           "system" "10.0.0.5" r_doc [(["a"], first)] [] ["a"] second 2%float
           eq_refl Hwf eq_refl Hnum).
  intros tags' e' [].
Defined.

(** ** Requests that fail *)

Section FailedRequests.

Variable lib : Library.
Variables (host api_key session_key : string).
Variable input_item : list (string * string).
Variables (sourcetype index_type : string).

Local Abbreviation loop :=
  (endpoints_loop lib host api_key session_key input_item sourcetype
                  index_type).

(** X15.  When the request of an endpoint of the generic strategy fails,
    the strategy logs the error and raises it again, the loop logs it a
    second time for the endpoint, and goes on with the next endpoint: one
    request was made, the count is the same and nothing is written. *)
Theorem failed_request_skips_the_endpoint (name : string)
    (rest : list string) (n : nat) (w : world)
    (stanza : list (string * string)) (template m : string) :
  let api_url :=
    safe_substitute lib template
      [("host", host); ("apikey", api_key); ("api_key", api_key)] in
  logging_works w ->
  PyStr.strip name <> "" ->
  conf w session_key (PyStr.strip name) = Ok stanza ->
  ET.attrib_get "api_url" stanza = Some template ->
  ET.attrib_get "script_type" stanza = Some "GET_api_generic_xml_output" ->
  device w (requested w) api_url = Raise (RequestException m) ->
  loop (name :: rest) (n, w)
  = loop rest
      (n,
       set_logged
         (List.app (logged w)
             [(INFO,
               "Processing API endpoint '" ++ PyStr.strip name
               ++ "' for host: " ++ host);
              (INFO,
               "Calling endpoint '" ++ PyStr.strip name ++ "' on host "
               ++ host ++ " with script type: GET_api_generic_xml_output"
               ++ " on API URL: " ++ api_url);
              (INFO,
               "Making generic HTTPS GET request to endpoint: "
               ++ PyStr.strip name);
              (ERROR,
               "Error making request to " ++ PyStr.strip name ++ ": " ++ m);
              (ERROR,
               "Error processing endpoint '" ++ PyStr.strip name
               ++ "' for host " ++ host ++ ": " ++ m)])
         (set_requested (List.app (requested w) [api_url]) w)).
Proof.
  intros api_url Hlog Hname Hconf Hurl Hst Hdev. cbn [endpoints_loop].
  destruct (PyStr.truthy (PyStr.strip name)) eqn:T.
  2:{ destruct (PyStr.strip name); [congruence | discriminate]. }
  cbn [negb]. unfold bind at 1. rewrite lift_logger_log_ok by exact Hlog.
  cbn [fst snd]. unfold bind at 1. unfold try_except, process_endpoint.
  unfold bind at 1. unfold lift at 1, get_api_endpoint_config. cbn [fst snd].
  change (conf (set_logged _ w)) with (conf w). rewrite Hconf, Hurl, Hst.
  unfold bind at 1. unfold of_result at 1, substitute_variables.
  fold api_url.
  set (w1 := set_logged _ w).
  assert (Hlog1 : logging_works w1).
  { eapply later_logging_works; [apply later_set_logged | exact Hlog]. }
  unfold bind at 1. rewrite lift_logger_log_ok by exact Hlog1.
  cbn [fst snd PyStr.str_of_option].
  set (w2 := set_logged _ w1).
  assert (Hlog2 : logging_works w2).
  { eapply later_logging_works; [apply later_set_logged | exact Hlog1]. }
  rewrite String.eqb_refl.
  unfold bind at 1. unfold lift at 1. cbn [fst snd].
  unfold GET_api_generic. unfold bind at 1.
  rewrite logger_log_ok by exact Hlog2.
  set (w3 := set_logged _ w2).
  assert (Hlog3 : logging_works w3).
  { eapply later_logging_works; [apply later_set_logged | exact Hlog2]. }
  unfold try_except. unfold bind at 1. unfold requests_get.
  change (device w3 (requested w3) api_url)
    with (device w (requested w) api_url).
  rewrite Hdev. unfold bind at 1.
  set (w4 := set_requested _ w3).
  assert (Hlog4 : logging_works w4).
  { eapply later_logging_works; [apply later_set_requested | exact Hlog3]. }
  rewrite logger_log_ok by exact Hlog4. unfold raise.
  set (w5 := set_logged _ w4).
  assert (Hlog5 : logging_works w5).
  { eapply later_logging_works; [apply later_set_logged | exact Hlog4]. }
  rewrite lift_logger_log_ok by exact Hlog5.
  cbn [fst snd str_exn]. f_equal. f_equal.
  unfold w5, w4, w3, w2, w1, set_logged, set_requested.
  cbn [logged device requested utcnow conf account_api_key log_fault
       sleeps sink].
  rewrite <- !List.app_assoc. reflexivity.
Qed.

End FailedRequests.

Lemma failed_request_skips_the_endpoint_witness :
  let w :=
    mkWorld Demo.device [] 1714557600 Samples.generic_conf
            (fun _ _ => Ok "ABC") Demo.no_fault [] 0 [] in
  let stanza :=
    [("api_url", "https://${host}/api/?key=${apikey}");
     ("script_type", "GET_api_generic_xml_output")] in
  let run :=
    endpoints_loop Demo.lib "10.0.0.5" "ABC" "session" [("index", "main")]
      "pan:log" "events" ["system"] (0, w) in
  logging_works w
  /\ PyStr.strip "system" <> ""
  /\ conf w "session" (PyStr.strip "system") = Ok stanza
  /\ device w (requested w) "https://10.0.0.5/api/?key=ABC"
     = Raise (RequestException "404 Client Error")
  /\ fst run = Ok tt
  /\ fst (snd run) = 0
  /\ requested (snd (snd run)) = ["https://10.0.0.5/api/?key=ABC"]
  /\ sink (snd (snd run)) = []
  /\ map fst (logged (snd (snd run))) = [INFO; INFO; INFO; ERROR; ERROR].
Proof.
  intros w stanza run.
  assert (Hlog : logging_works w) by (intros lvl msg; reflexivity).
  assert (Hname : PyStr.strip "system" <> "") by discriminate.
  pose proof (failed_request_skips_the_endpoint Demo.lib "10.0.0.5" "ABC"
                "session" [("index", "main")] "pan:log" "events" "system" []
                0 w stanza "https://${host}/api/?key=${apikey}"
                "404 Client Error" Hlog Hname eq_refl eq_refl eq_refl eq_refl)
    as Hrun.
  fold run in Hrun.
  split; [exact Hlog|]. split; [exact Hname|]. split; [reflexivity|].
  split; [reflexivity|].
  rewrite Hrun. repeat split.
Defined.

(** X16.  When the logger works, an exception that leaves the job-polling
    strategy was raised before the [try] - by [urlparse] on the url, or
    while the key was read from the query string - or the last record the
    strategy logged is the error record for that exception: no failure of
    a request, of the parser or of anything else inside the [try] goes
    unlogged, and the records collected before it are not returned. *)
Theorem strategy_failures_are_logged (lib : Library)
    (api_url endpoint_name : string) (e : exn) (w w' : world) :
  logging_works w ->
  custom_GET_api_threat_traffic lib api_url endpoint_name w = (Raise e, w') ->
  urlparse lib api_url = Raise e
  \/ (exists parsed_url : ParseResult,
        urlparse lib api_url = Ok parsed_url
        /\ query_key (parse_qs lib (query parsed_url)) = Raise e)
  \/ exists l : list (level * string),
       logged w'
       = (logged w ++ l ++ [failure_record endpoint_name e])%list.
Proof.
  intros Hlog H. unfold custom_GET_api_threat_traffic in H.
  unfold bind at 1 in H. rewrite logger_log_ok in H by exact Hlog.
  set (w1 := set_logged _ w) in H.
  assert (Hl1 : later w w1) by apply later_set_logged.
  assert (Hlog1 : logging_works w1) by (eapply later_logging_works; eauto).
  unfold bind at 1 in H. unfold of_result at 1 in H.
  destruct (urlparse lib api_url) as [parsed_url|e0] eqn:U.
  2:{ left. congruence. }
  right. unfold bind at 1 in H. unfold of_result at 1 in H.
  destruct (query_key (parse_qs lib (query parsed_url)))
    as [apikey|e0] eqn:K.
  2:{ left. exists parsed_url. split; [reflexivity | congruence]. }
  right. unfold bind at 1 in H. rewrite logger_log_ok in H by exact Hlog1.
  set (w2 := set_logged _ w1) in H.
  assert (Hl2 : later w1 w2) by apply later_set_logged.
  unfold try_except in H.
  match type of H with
  | match ?body w2 with _ => _ end = _ =>
      assert (Hbody : respects (fun x : world => x) no_event body)
        by (respect; apply respects_jobs_loop);
      specialize (Hbody w2); cbn beta in Hbody;
      destruct (body w2) as [[l|e1] w3]
  end; [discriminate|].
  cbn [snd] in Hbody. destruct Hbody as [Hl3 _].
  assert (Hl : later w w3).
  { eapply later_trans; [exact Hl1|]. eapply later_trans; eauto. }
  unfold bind at 1 in H. rewrite logger_log_ok in H
    by (eapply later_logging_works; eauto).
  unfold raise in H. inversion H; subst e1 w'.
  destruct Hl as [_ [_ [_ [_ [_ [l Hl]]]]]]. exists l.
  cbn [logged set_logged]. rewrite Hl, <- List.app_assoc.
  unfold failure_record. destruct e; reflexivity.
Qed.

Lemma strategy_failures_are_logged_witness :
  let w := Samples.unreachable_world in
  let api_url := "https://10.0.0.5/api/?key=ABC" in
  let e := RequestException "Connection refused" in
  let w' := snd (custom_GET_api_threat_traffic Demo.lib api_url "threats" w) in
  logging_works w
  /\ custom_GET_api_threat_traffic Demo.lib api_url "threats" w = (Raise e, w')
  /\ (exists parsed_url : ParseResult,
        urlparse Demo.lib api_url = Ok parsed_url
        /\ query_key (parse_qs Demo.lib (query parsed_url)) = Ok "ABC")
  /\ last (logged w') (INFO, "")
     = (ERROR, "Error making request to threats: Connection refused")
  /\ (urlparse Demo.lib api_url = Raise e
      \/ (exists parsed_url : ParseResult,
            urlparse Demo.lib api_url = Ok parsed_url
            /\ query_key (parse_qs Demo.lib (query parsed_url)) = Raise e)
      \/ exists l : list (level * string),
           logged w' = (logged w ++ l ++ [failure_record "threats" e])%list).
Proof.
  intros w api_url e w'.
  assert (Hlog : logging_works w) by (intros lvl msg; reflexivity).
  assert (Hrun : custom_GET_api_threat_traffic Demo.lib api_url "threats" w
                 = (Raise e, w')) by (vm_compute; reflexivity).
  split; [exact Hlog|]. split; [exact Hrun|].
  split; [eexists; split; reflexivity|]. split; [vm_compute; reflexivity|].
  exact (strategy_failures_are_logged Demo.lib api_url "threats" e w w'
           Hlog Hrun).
Defined.

(** ** The hosts of an input *)

Lemma rstrip_cons (c : ascii) (r : string) :
  PyStr.rstrip (String c r)
  = match PyStr.rstrip r with
    | EmptyString =>
        if PyStr.isspace c then EmptyString else String c EmptyString
    | r' => String c r'
    end.
Proof. reflexivity. Qed.

Lemma rstrip_idempotent (s : string) :
  PyStr.rstrip (PyStr.rstrip s) = PyStr.rstrip s.
Proof.
  induction s as [|c r IH]; [reflexivity|].
  rewrite rstrip_cons. destruct (PyStr.rstrip r) as [|c' r'] eqn:E.
  - destruct (PyStr.isspace c) eqn:Hc; [reflexivity|].
    rewrite rstrip_cons. cbn [PyStr.rstrip]. now rewrite Hc.
  - rewrite rstrip_cons, IH. reflexivity.
Qed.

Lemma rstrip_head (c : ascii) (r : string) :
  PyStr.isspace c = false ->
  exists r' : string, PyStr.rstrip (String c r) = String c r'.
Proof.
  intros Hc. rewrite rstrip_cons. destruct (PyStr.rstrip r); [|eauto].
  rewrite Hc. eauto.
Qed.

Lemma lstrip_head (s : string) :
  PyStr.lstrip s = ""
  \/ exists (c : ascii) (r : string),
       PyStr.lstrip s = String c r /\ PyStr.isspace c = false.
Proof.
  induction s as [|c r IH]; [now left|]. cbn [PyStr.lstrip].
  destruct (PyStr.isspace c) eqn:Hc; [exact IH|]. right. eauto.
Qed.

Lemma strip_idempotent (s : string) :
  PyStr.strip (PyStr.strip s) = PyStr.strip s.
Proof.
  unfold PyStr.strip.
  destruct (lstrip_head s) as [E|[c [r [E Hc]]]]; rewrite E; [reflexivity|].
  destruct (rstrip_head c r Hc) as [r' E']. rewrite E'.
  cbn [PyStr.lstrip]. rewrite Hc, <- E'. apply rstrip_idempotent.
Qed.

Lemma lstrip_chars (x : ascii) (s : string) :
  In x (list_ascii_of_string (PyStr.lstrip s)) ->
  In x (list_ascii_of_string s).
Proof.
  induction s as [|c r IH]; [auto|]. cbn [PyStr.lstrip].
  destruct (PyStr.isspace c); [|auto]. intros H. right. auto.
Qed.

Lemma rstrip_chars (x : ascii) (s : string) :
  In x (list_ascii_of_string (PyStr.rstrip s)) ->
  In x (list_ascii_of_string s).
Proof.
  induction s as [|c r IH]; [auto|]. rewrite rstrip_cons.
  destruct (PyStr.rstrip r) as [|c' r'].
  - destruct (PyStr.isspace c); cbn [list_ascii_of_string]; [intros []|].
    intros [H|[]]. now left.
  - cbn [list_ascii_of_string] in *. intros [H|H]; [now left|]. right. auto.
Qed.

Lemma strip_chars (x : ascii) (s : string) :
  In x (list_ascii_of_string (PyStr.strip s)) ->
  In x (list_ascii_of_string s).
Proof. intros H. apply lstrip_chars, rstrip_chars. exact H. Qed.

Lemma split_pieces_have_no_separator (sep : ascii) (s : string) :
  Forall (fun piece => ~ In sep (list_ascii_of_string piece)) (split sep s).
Proof.
  induction s as [|c r IH]; cbn [split].
  - repeat constructor. auto.
  - destruct (Ascii.eqb c sep) eqn:E.
    + constructor; [auto | exact IH].
    + apply Ascii.eqb_neq in E. destruct (split sep r) as [|h t].
      * repeat constructor. cbn [list_ascii_of_string]. intros [H|[]].
        contradiction.
      * inversion IH as [|? ? Hh Ht]; subst. constructor; [|exact Ht].
        cbn [list_ascii_of_string]. intros [H|H]; [contradiction | auto].
Qed.

(** X17.  Every host that [stream_events] reads from the [ip_address] of
    an input is not empty, has no white space at its ends and holds no
    comma. *)
Theorem hosts_are_trimmed_and_not_empty (ip_addresses_raw : string) :
  Forall
    (fun host =>
       host <> ""
       /\ PyStr.strip host = host
       /\ ~ In ","%char (list_ascii_of_string host))
    (hosts_of ip_addresses_raw).
Proof.
  unfold hosts_of. apply Forall_forall. intros host Hin.
  apply in_map_iff in Hin. destruct Hin as [piece [<- Hin]].
  apply filter_In in Hin. destruct Hin as [Hin Hkeep].
  split; [|split].
  - intros E. rewrite E in Hkeep. discriminate.
  - apply strip_idempotent.
  - intros Hc. apply strip_chars in Hc.
    pose proof (split_pieces_have_no_separator "," ip_addresses_raw) as H.
    rewrite Forall_forall in H. exact (H piece Hin Hc).
Qed.

(** X18.  When the account resolves to a key but no piece of the
    [ip_address] of the input is a host (the key may be missing), the
    controller logs the start of the input and the error that no valid
    address is configured, and stops there: no worker runs, and neither a
    summary nor the end of the input is logged. *)
Theorem input_without_hosts_is_skipped (lib : Library)
    (input_name : string) (input_item : list (string * string))
    (session_key api_key : string) (worker_world : nat -> world)
    (order : list nat) (w : world) :
  logging_works w ->
  account_api_key w session_key (ET.attrib_get "account" input_item)
  = Ok api_key ->
  (forall ip : string,
      In ip (split "," (get_default "ip_address" "" input_item)) ->
      PyStr.strip ip = "") ->
  stream_events lib input_name input_item session_key worker_world order w
  = (Ok tt,
     set_logged
       (List.app (logged w)
           [(INFO,
             "action=started modular_input_name="
             ++ last (split "/" input_name) "");
            (ERROR, "No valid IP addresses configured")])
       w).
Proof.
  intros Hlog Hkey Hblank. unfold stream_events, try_except.
  unfold bind at 1. rewrite logger_log_ok by exact Hlog.
  set (w1 := set_logged _ w).
  assert (Hlog1 : logging_works w1).
  { eapply later_logging_works; [apply later_set_logged | exact Hlog]. }
  unfold bind at 1. unfold get_account_api_key.
  change (account_api_key w1) with (account_api_key w). rewrite Hkey.
  assert (Hhosts : hosts_of (get_default "ip_address" "" input_item) = []).
  { unfold hosts_of. rewrite filter_none; [reflexivity|].
    intros ip Hip. now rewrite (Hblank ip Hip). }
  rewrite Hhosts. rewrite logger_log_ok by exact Hlog1.
  f_equal. unfold w1, set_logged.
  cbn [logged device requested utcnow conf account_api_key log_fault
       sleeps sink].
  rewrite <- List.app_assoc. reflexivity.
Qed.

Lemma input_without_hosts_is_skipped_witness :
  let w := Demo.start Demo.no_fault in
  let input_item := [("account", "firewalls"); ("ip_address", " , ")] in
  logging_works w
  /\ account_api_key w "session" (ET.attrib_get "account" input_item)
     = Ok "ABC"
  /\ split "," (get_default "ip_address" "" input_item) = [" "; " "]
  /\ stream_events Demo.lib "palo_alto_input://lab" input_item "session"
       Demo.worker_world [] w
     = (Ok tt,
        set_logged
          [(INFO, "action=started modular_input_name=lab");
           (ERROR, "No valid IP addresses configured")]
          w).
Proof.
  intros w input_item.
  assert (Hlog : logging_works w) by (intros lvl msg; reflexivity).
  split; [exact Hlog|]. split; [reflexivity|]. split; [reflexivity|].
  apply (input_without_hosts_is_skipped Demo.lib "palo_alto_input://lab"
           input_item "session" "ABC" Demo.worker_world [] w Hlog eq_refl).
  intros ip [<-|[<-|[]]]; reflexivity.
Defined.

(** ** The waiting of the polling loop *)

Lemma logger_log_sleeps (lvl : level) (msg : string) (w : world) :
  sleeps (snd (logger_log lvl msg w)) = sleeps w.
Proof. unfold logger_log. destruct (log_fault w lvl msg); reflexivity. Qed.

Lemma poll_job_sleeps (lib : Library) (url : string)
    (host job_id : option string) (n : nat) :
  forall (acc : list value) (w : world),
    exists k : nat,
      k <= n
      /\ sleeps (snd (poll_job lib n url host job_id acc w)) = sleeps w + k.
Proof.
  induction n as [|n IH]; intros acc w.
  - exists 0. split; [lia|]. cbn [poll_job]. unfold bind, logger_log, ret.
    destruct (log_fault w _ _); simpl; lia.
  - cbn [poll_job]. unfold bind at 1. unfold requests_get.
    destruct (device w (requested w) url) as [body|e].
    2:{ exists 0. split; [lia|]. simpl. lia. }
    unfold bind at 1. unfold of_result.
    destruct (fromstring lib body) as [doc|e].
    2:{ exists 0. split; [lia|]. simpl. lia. }
    destruct (is_FIN (ET.findtext_job_status doc)).
    + exists 0. split; [lia|]. unfold bind, logger_log, ret.
      repeat (cbn [log_fault set_requested set_logged];
              match goal with
              | |- context [match log_fault w ?l ?m with _ => _ end] =>
                  destruct (log_fault w l m)
              end); simpl; lia.
    + unfold bind at 1. unfold logger_log at 1. cbn [log_fault set_requested].
      match goal with
      | |- context [match log_fault w ?l ?m with _ => _ end] =>
          destruct (log_fault w l m)
      end.
      { exists 0. split; [lia|]. simpl. lia. }
      unfold bind at 1. unfold time_sleep.
      match goal with
      | |- context [poll_job lib n url host job_id acc ?w1] =>
          destruct (IH acc w1) as [k [Hk Hs]]; exists (S k);
          split; [lia|]; rewrite Hs
      end.
      cbn [sleeps set_sleeps set_logged set_requested]. lia.
Qed.

(** X19.  Whatever the devices and the logger do, the polling of the jobs
    of a submission sleeps at most 11 times for each job, 50 ms each
    time. *)
Theorem waiting_is_bounded (lib : Library) (base_url apikey : string)
    (host : option string) (job_ids : list (option string)) :
  forall (event_list : list value) (w : world),
    exists k : nat,
      k <= 11 * List.length job_ids
      /\ sleeps (snd (jobs_loop lib base_url apikey host job_ids event_list w))
         = sleeps w + k.
Proof.
  induction job_ids as [|job_id rest IH]; intros event_list w.
  - exists 0. simpl. split; lia.
  - cbn [jobs_loop]. unfold bind at 1.
    pose proof (logger_log_sleeps DEBUG
                  ("Polling job " ++ PyStr.str_of_option job_id) w) as H0.
    destruct (logger_log DEBUG _ w) as [[[]|e] w0]; cbn [snd] in H0.
    2:{ exists 0. cbn [snd]. split; lia. }
    unfold bind at 1.
    destruct (poll_job_sleeps lib (report_url_of base_url apikey job_id)
                host job_id 11 event_list w0) as [k1 [Hk1 H1]].
    destruct (poll_job lib 11 _ host job_id event_list w0) as [[l|e] w1];
      cbn [snd] in H1.
    2:{ exists k1. cbn [snd List.length]. split; lia. }
    destruct (IH l w1) as [k2 [Hk2 H2]]. exists (k1 + k2).
    cbn [List.length]. split; lia.
Qed.

(** ** The count in the record of a finished job *)

Lemma source_is_make_event (host : option string) (entry : Element)
    (logid severity : string) :
  source_is host (make_event host entry logid severity) = true.
Proof.
  destruct host as [h|]; cbn; [apply String.eqb_refl | reflexivity].
Qed.

Lemma filter_all {A : Type} (f : A -> bool) (l : list A) :
  Forall (fun x => f x = true) l -> filter f l = l.
Proof.
  induction 1 as [|a l Ha Hl IH]; [reflexivity|]. cbn [filter].
  now rewrite Ha, IH.
Qed.

(** X20.  The number in the record [Found ... high/critical events] of a
    finished job is the number of records collected so far for the
    submission, those of the jobs before it included, and not the number
    of records of the job: with [acc] collected from the host before the
    poll that is answered with [FIN], the record counts [acc] and the kept
    entries of the job. *)
Theorem found_count_is_cumulative (lib : Library) (url : string)
    (host job_id : option string) (n : nat) (acc : list value) (w : world)
    (doc : Element) :
  logging_works w ->
  reply lib w (requested w) url = Some doc ->
  is_FIN (ET.findtext_job_status doc) = true ->
  Forall (fun r => source_is host r = true) acc ->
  exists w' : world,
    poll_job lib (S n) url host job_id acc w
    = (Ok (acc ++ kept_records host doc)%list, w')
    /\ logged w'
       = List.app (logged w)
           [(INFO,
             "Job " ++ PyStr.str_of_option job_id
             ++ " completed, processing entries");
            (INFO,
             "Job " ++ PyStr.str_of_option job_id ++ ": Found "
             ++ PyStr.str_of_nat
                  (List.length acc + List.length (kept_records host doc))
             ++ " high/critical events")].
Proof.
  intros Hlog Hreply Hfin Hacc.
  destruct (reply_inv lib url w _ doc Hreply) as [body [Hdev Hparse]].
  cbn [poll_job]. unfold bind at 1. unfold requests_get. rewrite Hdev.
  unfold bind at 1. unfold of_result. rewrite Hparse. rewrite Hfin.
  assert (H1 : logging_works (set_requested (requested w ++ [url])%list w)).
  { eapply later_logging_works; [apply later_set_requested | exact Hlog]. }
  unfold bind at 1. rewrite logger_log_ok by exact H1.
  unfold bind at 1. rewrite logger_log_ok.
  2:{ eapply later_logging_works; [apply later_set_logged | exact H1]. }
  unfold ret. rewrite entries_loop_filter. fold (kept_records host doc).
  rewrite filter_all.
  2:{ apply Forall_app. split; [exact Hacc|].
      unfold kept_records. apply Forall_forall. intros r Hr.
      apply in_map_iff in Hr. destruct Hr as [entry [<- _]].
      apply source_is_make_event. }
  eexists. split; [reflexivity|].
  cbn [logged set_logged set_requested]. rewrite length_app.
  rewrite <- List.app_assoc. reflexivity.
Qed.

Lemma found_count_is_cumulative_witness :
  let w := Demo.start Demo.no_fault in
  let host := Some "10.0.0.5" in
  let url := Demo.job_url "8" in
  let doc := Demo.job_reply "FIN" [Demo.entry_of "1" "High";
                                   Demo.entry_of "2" "Low"] in
  let acc := [record_of host (Demo.entry_of "0" "critical")] in
  let w1 := set_requested [url] w in
  logging_works w1
  /\ reply Demo.lib w1 (requested w1) url = Some doc
  /\ is_FIN (ET.findtext_job_status doc) = true
  /\ Forall (fun r => source_is host r = true) acc
  /\ List.length (kept_records host doc) = 1
  /\ exists w' : world,
       poll_job Demo.lib 11 url host (Some "8") acc w1
       = (Ok (acc ++ kept_records host doc)%list, w')
       /\ logged w'
          = List.app (logged w1)
              [(INFO, "Job 8 completed, processing entries");
               (INFO,
                "Job 8: Found "
                ++ PyStr.str_of_nat
                     (List.length acc + List.length (kept_records host doc))
                ++ " high/critical events")].
Proof.
  intros w host url doc acc w1.
  assert (Hlog : logging_works w1) by (intros lvl msg; reflexivity).
  assert (Hacc : Forall (fun r => source_is host r = true) acc)
    by (repeat constructor).
  split; [exact Hlog|]. split; [vm_compute; reflexivity|].
  split; [reflexivity|]. split; [exact Hacc|]. split; [reflexivity|].
  apply (found_count_is_cumulative Demo.lib url host (Some "8") 10 acc w1 doc
           Hlog); [vm_compute; reflexivity | reflexivity | exact Hacc].
Defined.

(** ** A stanza without a url *)

(** X21.  When the stanza of an endpoint has no [api_url], the
    substitution of the variables raises, and the loop logs the error for
    the endpoint and goes on with the next one: the call of the endpoint is
    not announced, no request is made, the count is the same and nothing is
    written. *)
Theorem stanza_without_url_is_skipped (lib : Library)
    (host api_key session_key : string) (input_item : list (string * string))
    (sourcetype index_type name : string) (rest : list string) (n : nat)
    (w : world) (stanza : list (string * string)) :
  logging_works w ->
  PyStr.strip name <> "" ->
  conf w session_key (PyStr.strip name) = Ok stanza ->
  ET.attrib_get "api_url" stanza = None ->
  exists m : string,
    endpoints_loop lib host api_key session_key input_item sourcetype
                   index_type (name :: rest) (n, w)
    = endpoints_loop lib host api_key session_key input_item sourcetype
        index_type rest
        (n,
         set_logged
           (List.app (logged w)
               [(INFO,
                 "Processing API endpoint '" ++ PyStr.strip name
                 ++ "' for host: " ++ host);
                (ERROR,
                 "Error processing endpoint '" ++ PyStr.strip name
                 ++ "' for host " ++ host ++ ": " ++ m)])
           w).
Proof.
  intros Hlog Hname Hconf Hurl. cbn [endpoints_loop].
  destruct (PyStr.truthy (PyStr.strip name)) eqn:T.
  2:{ destruct (PyStr.strip name); [congruence | discriminate]. }
  cbn [negb]. unfold bind at 1. rewrite lift_logger_log_ok by exact Hlog.
  cbn [fst snd]. unfold bind at 1. unfold try_except, process_endpoint.
  unfold bind at 1. unfold lift at 1, get_api_endpoint_config. cbn [fst snd].
  change (conf (set_logged _ w)) with (conf w). rewrite Hconf, Hurl.
  unfold bind at 1. unfold of_result at 1, substitute_variables.
  rewrite lift_logger_log_ok.
  2:{ eapply later_logging_works; [apply later_set_logged | exact Hlog]. }
  eexists. cbn [fst snd logged set_logged str_exn].
  rewrite <- List.app_assoc. reflexivity.
Qed.

Lemma stanza_without_url_is_skipped_witness :
  let conf_without_url :=
    fun _ _ : string => Ok [("script_type", "GET_api_generic_xml_output")] in
  let w := Samples.world_with conf_without_url in
  let run :=
    endpoints_loop Demo.lib "10.0.0.5" "ABC" "session" [("index", "main")]
      "pan:log" "events" ["system"] (0, w) in
  logging_works w
  /\ PyStr.strip "system" <> ""
  /\ fst run = Ok tt
  /\ fst (snd run) = 0
  /\ requested (snd (snd run)) = []
  /\ sink (snd (snd run)) = []
  /\ map fst (logged (snd (snd run))) = [INFO; ERROR].
Proof.
  intros conf_without_url w run.
  assert (Hlog : logging_works w) by (intros lvl msg; reflexivity).
  assert (Hname : PyStr.strip "system" <> "") by discriminate.
  destruct (stanza_without_url_is_skipped Demo.lib "10.0.0.5" "ABC"
              "session" [("index", "main")] "pan:log" "events" "system" []
              0 w [("script_type", "GET_api_generic_xml_output")]
              Hlog Hname eq_refl eq_refl) as [m Hrun].
  fold run in Hrun.
  split; [exact Hlog|]. split; [exact Hname|].
  rewrite Hrun. repeat split.
Defined.

(** ** What a worker hands back *)

(** X22.  Whatever the devices, the configuration store and the logger do,
    a result of [process_host_endpoints] names the host of the worker, and
    carries the count 0 when its flag is false, whatever was written before
    the failure; an exception leaves the worker only when the logging of
    the error of the host raises it. *)
Theorem worker_result_names_its_host (lib : Library)
    (host api_key : string) (api_endpoints : list string)
    (session_key : string) (input_item : list (string * string))
    (sourcetype index_type : string) (w : world) :
  match fst (process_host_endpoints lib host api_key api_endpoints
               session_key input_item sourcetype index_type w) with
  | Ok (host_ip, events_count, success) =>
      host_ip = host /\ (success = false -> events_count = 0)
  | Raise e =>
      exists host_error : exn,
        log_fault w ERROR
          ("Error processing host " ++ host ++ ": " ++ str_exn host_error)
        = Some e
  end.
Proof.
  unfold process_host_endpoints, run_local, try_except.
  assert (Hbody :
    respects (@snd nat world)
      (well_sourced host input_item sourcetype api_endpoints)
      (host_body lib host api_key api_endpoints session_key input_item
                 sourcetype index_type)).
  { unfold host_body. respect. apply respects_endpoints_loop.
    intros x Hx. exact Hx. }
  specialize (Hbody (0, w)). cbn [snd] in Hbody.
  destruct (host_body lib host api_key api_endpoints session_key input_item
              sourcetype index_type (0, w)) as [[r|e0] s'] eqn:Hb.
  - destruct (host_body_flag lib api_key api_endpoints session_key input_item
                sourcetype index_type host _ _ _ Hb) as [n ->].
    cbn [fst]. split; [reflexivity | discriminate].
  - cbn [snd] in Hbody. destruct Hbody as [[_ [_ [_ [_ [Hfault _]]]]] _].
    unfold bind, lift, logger_log, ret. rewrite Hfault.
    destruct (log_fault w ERROR _) as [e|] eqn:F; cbn [fst].
    + exists e0. exact F.
    + split; [reflexivity|]. reflexivity.
Qed.

(** ** An account that cannot be read *)

(** X23.  When the lookup of the API key of the account raises, the
    controller logs the start of the input and one error record, and
    returns without raising: no worker runs, and neither a summary nor the
    end of the input is logged. *)
Theorem account_failure_skips_the_input (lib : Library)
    (input_name : string) (input_item : list (string * string))
    (session_key : string) (worker_world : nat -> world)
    (order : list nat) (w : world) (e : exn) :
  logging_works w ->
  account_api_key w session_key (ET.attrib_get "account" input_item)
  = Raise e ->
  exists msg : string,
    stream_events lib input_name input_item session_key worker_world order w
    = (Ok tt,
       set_logged
         (List.app (logged w)
             [(INFO,
               "action=started modular_input_name="
               ++ last (split "/" input_name) "");
              (ERROR, msg)])
         w).
Proof.
  intros Hlog Hkey. unfold stream_events, try_except.
  unfold bind at 1. rewrite logger_log_ok by exact Hlog.
  set (w1 := set_logged _ w).
  assert (Hlog1 : logging_works w1).
  { eapply later_logging_works; [apply later_set_logged | exact Hlog]. }
  unfold bind at 1. unfold get_account_api_key.
  change (account_api_key w1) with (account_api_key w). rewrite Hkey.
  rewrite logger_log_ok by exact Hlog1.
  eexists. f_equal. unfold w1, set_logged.
  cbn [logged device requested utcnow conf account_api_key log_fault
       sleeps sink].
  rewrite <- List.app_assoc. reflexivity.
Qed.

Lemma account_failure_skips_the_input_witness :
  let w :=
    mkWorld Demo.device [] 1714557600 Demo.conf
            (fun _ _ => Raise (OtherException "account not found"))
            Demo.no_fault [] 0 [] in
  let run :=
    stream_events Demo.lib "palo_alto_input://lab" Demo.input_item "session"
      Demo.worker_world [0; 1; 2] w in
  logging_works w
  /\ account_api_key w "session" (ET.attrib_get "account" Demo.input_item)
     = Raise (OtherException "account not found")
  /\ fst run = Ok tt
  /\ map fst (logged (snd run)) = [INFO; ERROR]
  /\ requested (snd run) = []
  /\ sink (snd run) = [].
Proof.
  intros w run.
  assert (Hlog : logging_works w) by (intros lvl msg; reflexivity).
  destruct (account_failure_skips_the_input Demo.lib "palo_alto_input://lab"
              Demo.input_item "session" Demo.worker_world [0; 1; 2] w
              (OtherException "account not found") Hlog eq_refl)
    as [msg Hrun].
  fold run in Hrun.
  split; [exact Hlog|]. split; [reflexivity|].
  rewrite Hrun. repeat split.
Defined.
